(** * Biomass combustion calculator: a shallow embedding and its properties

    The development follows the layout of the Python sources:
    - [constants]   : [backend/app/utils/constants.py]
    - [equations]   : [backend/app/utils/equations.py]
    - [biomass], [results] : the pydantic models in [backend/app/models]
    - [combustion]  : [backend/app/services/combustion.py]
    - [sensitivity] : [backend/app/services/sensitivity.py]
    - [atmospheric] : [backend/app/services/atmospheric.py]
    - [main]        : the endpoints and the validation of
                      [backend/app/main.py]

    Numbers.  Python floats are modelled by the real numbers [R]: rounding,
    infinities and NaN are outside the model, with two exceptions.  The
    value [float('-inf')] used by the optimizer has its own constructor.
    The results of [math.pow] on a positive base and of [math.exp], the
    two calls whose value leaves the range of the floats on ordinary
    arguments, go through [float_range]: [OverflowError] from the largest
    float on, [0.0] below the smallest one.  A division by a non-zero
    constant (a literal, or a local name bound to a literal a few lines
    above) is written [/]; every other division goes through [fdiv],
    which raises [ZeroDivisionError] as the interpreter does.

    Exceptions.  A computation yields a [result]: a value or a raised
    exception.  Methods of [CombustionCalculator] run in a state monad over
    the calculator object; the state survives a raised exception, as the
    mutated object does in Python. *)

From Stdlib Require Import Reals Lra Lia String List ZArith Bool.
From Stdlib Require Import Sorted Permutation.
Import ListNotations.
Open Scope R_scope.

(* ------------------------------------------------------------------ *)
(** ** The Python run time that the sources rely on *)
(* ------------------------------------------------------------------ *)

Module Py.

Inductive exn : Type :=
| ZeroDivisionError
| OverflowError
| ValueError
| TypeError
| IndexError
| NameError (name : string)
| AttributeError (name : string)
| KeyError (key : string).

Inductive result (A : Type) : Type :=
| Ok (a : A)
| Raise (e : exn).
Arguments Ok {A} a.
Arguments Raise {A} e.

Definition bind {A B} (m : result A) (k : A -> result B) : result B :=
  match m with
  | Ok a => k a
  | Raise e => Raise e
  end.

Definition is_ok {A} (m : result A) : bool :=
  match m with Ok _ => true | Raise _ => false end.

(** [x / y] on floats. *)
Definition fdiv (x y : R) : result R :=
  if Req_dec_T y 0 then Raise ZeroDivisionError else Ok (x / y).

(** Dictionaries with string keys, in insertion order. *)
Definition dict (V : Type) : Type := list (string * V).

Fixpoint dict_get {V} (d : dict V) (k : string) : option V :=
  match d with
  | [] => None
  | (k', v) :: d' => if String.eqb k k' then Some v else dict_get d' k
  end.

Fixpoint dict_set {V} (d : dict V) (k : string) (v : V) : dict V :=
  match d with
  | [] => [(k, v)]
  | (k', v') :: d' =>
      if String.eqb k k' then (k', v) :: d' else (k', v') :: dict_set d' k v
  end.

Definition dict_mem {V} (d : dict V) (k : string) : bool :=
  match dict_get d k with Some _ => true | None => false end.

(** [d[k]] *)
Definition getitem {V} (d : dict V) (k : string) : result V :=
  match dict_get d k with
  | Some v => Ok v
  | None => Raise (KeyError k)
  end.

(** [d.get(k, default)] *)
Definition dict_get_default {V} (d : dict V) (k : string) (default : V) : V :=
  match dict_get d k with Some v => v | None => default end.

(** The values that the calculator stores or reads by name: floats,
    strings, dictionaries of floats, and any other object (a module, a
    function, a nested dictionary), of which only the name is kept. *)
Inductive value : Type :=
| PyFloat (x : R)
| PyStr (s : string)
| PyDict (d : dict R)
| PyObject (name : string).

(** Use of a value as an operand of float arithmetic. *)
Definition as_float (v : value) : result R :=
  match v with
  | PyFloat x => Ok x
  | _ => Raise TypeError
  end.

Definition as_dict (v : value) : result (dict R) :=
  match v with
  | PyDict d => Ok d
  | _ => Raise TypeError
  end.

(** The [math] module on real arguments. *)
Definition math_sqrt (x : R) : result R :=
  if Rlt_dec x 0 then Raise ValueError else Ok (sqrt x).

Definition math_log (x : R) : result R :=
  if Rlt_dec 0 x then Ok (ln x) else Raise ValueError.

Definition math_log10 (x : R) : result R :=
  if Rlt_dec 0 x then Ok (ln x / ln 10) else Raise ValueError.

(** The range of the floats (IEEE 754 binary64, round to nearest).  A
    positive exact result rounds to infinity from [2^1024 - 2^970] on,
    half a unit in the last place above the largest float, and to [0.0]
    up to [2^-1075], half the smallest subnormal. *)
Definition DBL_OVERFLOW : R := 2 ^ 1024 - 2 ^ 970.

Definition DBL_UNDERFLOW : R := / 2 ^ 1075.

(** What [math.exp] and [math.pow] make of a positive exact result [r]:
    they raise [OverflowError] ("math range error") when it overflows and
    return [0.0] when it underflows. *)
Definition float_range (r : R) : result R :=
  if Rle_dec DBL_OVERFLOW r then Raise OverflowError
  else if Rle_dec r DBL_UNDERFLOW then Ok 0
  else Ok r.

Definition math_exp (x : R) : result R := float_range (exp x).

(** [math.pow(x, y)]: defined for a positive base, for an integral
    exponent, and for a zero base with a non-negative exponent.  The
    sources raise a negative base to the exponent 2 only, in
    [colebrook_friction_factor], where the base is twice a base-10
    logarithm: that branch keeps the exact power. *)
Definition math_pow (x y : R) : result R :=
  if Rlt_dec 0 x then float_range (Rpower x y)
  else if Req_dec_T x 0 then
    if Rlt_dec y 0 then Raise ValueError
    else if Req_dec_T y 0 then Ok 1 else Ok 0
  else if Req_dec_T y (IZR (Int_part y)) then Ok (powerRZ x (Int_part y))
  else Raise ValueError.

(** [float('-inf')] and the finite floats. *)
Inductive xfloat : Type :=
| NegInf
| Fin (x : R).

(** [a > b] *)
Definition xgt (a : R) (b : xfloat) : bool :=
  match b with
  | NegInf => true
  | Fin y => if Rlt_dec y a then true else false
  end.

(** [a - b] with [b] finite. *)
Definition xsub (a : xfloat) (b : R) : xfloat :=
  match a with
  | NegInf => NegInf
  | Fin x => Fin (x - b)
  end.

End Py.
Import Py.

Declare Scope py_scope.
Delimit Scope py_scope with py.
Notation "x <- m ;; k" := (bind m (fun x => k))
  (at level 61, m at next level, right associativity) : py_scope.
Open Scope py_scope.

(* ------------------------------------------------------------------ *)
(** ** constants.py *)
(* ------------------------------------------------------------------ *)

Module constants.

Definition R_UNIVERSAL : R := 8.314.
Definition R_AIR : R := 287.05.
Definition G : R := 9.81.

Definition HV_WATER : R := 2442.

Definition CONVERSION_FACTORS : dict R :=
  [ ("kg_to_ton", 0.001); ("ton_to_kg", 1000); ("hour_to_sec", 3600);
    ("sec_to_hour", 1 / 3600); ("kj_to_mj", 0.001); ("mj_to_kj", 1000);
    ("inch_to_m", 0.0254); ("m_to_inch", 39.3701); ("pa_to_kpa", 0.001);
    ("kpa_to_pa", 1000); ("mmhg_to_kpa", 0.133322);
    ("kpa_to_mmhg", 7.50062) ]%string.

Definition ANTOINE_WATER : dict R :=
  [ ("A", 8.07131); ("B", 1730.63); ("C", 233.426) ]%string.

Definition GAS_PROPERTIES : dict (dict R) :=
  [ ("CO2", [("molar_mass", 44.01); ("Cp", 0.844); ("density", 1.977)]);
    ("H2O", [("molar_mass", 18.015); ("Cp", 1.86); ("density", 0.804)]);
    ("O2", [("molar_mass", 31.999); ("Cp", 0.918); ("density", 1.429)]);
    ("N2", [("molar_mass", 28.014); ("Cp", 1.04); ("density", 1.251)]);
    ("SO2", [("molar_mass", 64.066); ("Cp", 0.64); ("density", 2.927)]);
    ("AIR", [("molar_mass", 28.97); ("Cp", 1.005); ("density", 1.225)])
  ]%string.

Definition REFRACTORY_PROPERTIES : dict R :=
  [ ("thermal_conductivity", 0.5); ("thickness", 0.15);
    ("emissivity", 0.8); ("roughness", 0.00015) ]%string.

(** The names that [from .constants import *] binds.  The dictionaries
    [ATOMIC_WEIGHTS], [HEAT_OF_COMBUSTION], [BOGOTA_CONDITIONS],
    [AIR_COMPOSITION] and [DESIGN_LIMITS] are bound too; no function
    modelled here reads them. *)
Definition exported_names : list string :=
  [ "R_UNIVERSAL"; "R_AIR"; "G"; "ATOMIC_WEIGHTS"; "HEAT_OF_COMBUSTION";
    "HV_WATER"; "CONVERSION_FACTORS"; "BOGOTA_CONDITIONS"; "ANTOINE_WATER";
    "GAS_PROPERTIES"; "AIR_COMPOSITION"; "REFRACTORY_PROPERTIES";
    "DESIGN_LIMITS" ]%string.

End constants.

(* ------------------------------------------------------------------ *)
(** ** equations.py *)
(* ------------------------------------------------------------------ *)

Module equations.
Import constants.

(** The global scope of the module: [import math], the names of
    [from .constants import *], and the functions it defines. *)
Definition float_globals : dict R :=
  [ ("R_UNIVERSAL", R_UNIVERSAL); ("R_AIR", R_AIR); ("G", G);
    ("HV_WATER", HV_WATER) ]%string.

Definition defined_functions : list string :=
  [ "pressure_altitude"; "saturated_vapor_pressure"; "absolute_humidity";
    "moist_air_enthalpy"; "dulong_heating_value";
    "theoretical_air_fuel_ratio"; "combustion_products"; "gas_density";
    "reynolds_number"; "colebrook_friction_factor";
    "pressure_drop_per_length"; "adiabatic_flame_temperature" ]%string.

Definition module_globals : list string :=
  ("math"%string :: exported_names) ++ defined_functions.

(** Reading a name that no enclosing function binds: the module's
    globals are searched (the built-in scope holds none of the names
    read in this module). *)
Definition load_global (name : string) : result value :=
  match dict_get float_globals name with
  | Some x => Ok (PyFloat x)
  | None =>
      if existsb (String.eqb name) module_globals then Ok (PyObject name)
      else Raise (NameError name)
  end.

Definition pressure_altitude (altitude_meters : R) : result R :=
  let P0 := 101.325 in
  let L := 0.0065 in
  let T0 := 288.15 in
  let g := 9.81 in
  let M := 0.02896 in
  let R := 8.314 in
  if Rlt_dec altitude_meters 11000 then
    let exponent := - (g * M) / (R * L) in
    let temp_ratio := 1 - (L * altitude_meters) / T0 in
    p <- math_pow temp_ratio exponent ;;
    Ok (P0 * p)
  else
    e <- math_exp (- altitude_meters / 8500) ;;
    Ok (P0 * e).

Definition saturated_vapor_pressure (temp_celsius : R) : result R :=
  A <- getitem ANTOINE_WATER "A" ;;
  B <- getitem ANTOINE_WATER "B" ;;
  C <- getitem ANTOINE_WATER "C" ;;
  q <- fdiv B (C + temp_celsius) ;;
  let log10_P := A - q in
  math_pow 10 log10_P.

Definition absolute_humidity (relative_humidity dry_bulb_temp
                              atmospheric_pressure : R) : result R :=
  P_sat <- saturated_vapor_pressure dry_bulb_temp ;;
  let P_v := (relative_humidity / 100) * P_sat in
  k <- getitem CONVERSION_FACTORS "mmhg_to_kpa" ;;
  let P_v_kPa := P_v * k in
  fdiv (0.622 * P_v_kPa) (atmospheric_pressure - P_v_kPa).

Definition moist_air_enthalpy (temp_celsius absolute_humidity : R) : R :=
  let h_air := 1.006 * temp_celsius in
  let h_water := absolute_humidity * (2501 + 1.86 * temp_celsius) in
  h_air + h_water.

(** The five fractions after the step "Ajustar a 100% base seca". *)
Definition dulong_adjust (carbon hydrogen oxygen sulfur ash : R)
  : result (R * R * R * R * R) :=
  let total := carbon + hydrogen + oxygen + sulfur + ash in
  if Req_dec_T total 100 then Ok (carbon, hydrogen, oxygen, sulfur, ash)
  else
    carbon' <- fdiv (carbon * 100) total ;;
    hydrogen' <- fdiv (hydrogen * 100) total ;;
    oxygen' <- fdiv (oxygen * 100) total ;;
    sulfur' <- fdiv (sulfur * 100) total ;;
    ash' <- fdiv (ash * 100) total ;;
    Ok (carbon', hydrogen', oxygen', sulfur', ash').

Definition dulong_heating_value (carbon hydrogen oxygen sulfur ash
                                 moisture : R) : result (dict R) :=
  adjusted <- dulong_adjust carbon hydrogen oxygen sulfur ash ;;
  let '(carbon, hydrogen, oxygen, sulfur, ash) := adjusted in
  let PCS := 338.2 * carbon + 1442.8 * (hydrogen - oxygen / 8)
             + 94.2 * sulfur in
  let water_combustion := 9 * hydrogen + moisture in
  let PCI := PCS - HV_WATER * water_combustion / 100 in
  Ok [ ("PCS", PCS); ("PCI", PCI);
       ("water_from_combustion", water_combustion) ]%string.

Definition theoretical_air_fuel_ratio (carbon hydrogen oxygen sulfur : R)
  : R :=
  let O2_required := (2.667 * carbon + 8 * hydrogen
                      - 1.333 * oxygen + 2 * sulfur) / 100 in
  let air_theoretical := O2_required / 0.232 in
  air_theoretical.

(** [oxygen] is read in the body but is neither a parameter nor assigned
    in it: the read is a global one. *)
Definition combustion_products (carbon hydrogen sulfur moisture ash
                                excess_air_percent : R) : result (dict R) :=
  let moisture_factor := (100 - moisture) / 100 in
  let CO2 := 3.67 * carbon * moisture_factor / 100 in
  let H2O_from_combustion := 9 * hydrogen * moisture_factor / 100 in
  let H2O_from_fuel := moisture / 100 in
  let H2O_total := H2O_from_combustion + H2O_from_fuel in
  let SO2 := 2 * sulfur * moisture_factor / 100 in
  oxygen_obj <- load_global "oxygen" ;;
  oxygen <- as_float oxygen_obj ;;
  let air_theoretical :=
    theoretical_air_fuel_ratio (carbon * moisture_factor)
                               (hydrogen * moisture_factor)
                               (oxygen * moisture_factor)
                               (sulfur * moisture_factor) in
  let air_real := air_theoretical * (1 + excess_air_percent / 100) in
  let O2_excess := 0.232 * air_theoretical * (excess_air_percent / 100) in
  let N2_from_air := 0.768 * air_real in
  let ash_mass := ash * moisture_factor / 100 in
  Ok [ ("CO2", CO2); ("H2O", H2O_total); ("SO2", SO2); ("O2", O2_excess);
       ("N2", N2_from_air); ("ash", ash_mass); ("air_real", air_real);
       ("total_gases", CO2 + H2O_total + SO2 + O2_excess + N2_from_air)
     ]%string.

(** The loop of [gas_density] over [composition.items()]; the state is
    [(total_moles, total_mass)]. *)
Fixpoint gas_density_loop (items : dict R) (acc : R * R) : result (R * R) :=
  match items with
  | [] => Ok acc
  | (gas, mass_kg) :: rest =>
      match dict_get GAS_PROPERTIES gas with
      | Some props =>
          molar_mass <- getitem props "molar_mass" ;;
          moles <- fdiv mass_kg (molar_mass / 1000) ;;
          gas_density_loop rest (fst acc + moles, snd acc + mass_kg)
      | None => gas_density_loop rest acc
      end
  end.

Definition gas_density (temperature_k pressure_pa : R) (composition : dict R)
  : result R :=
  totals <- gas_density_loop composition (0, 0) ;;
  let '(total_moles, total_mass) := totals in
  avg_molar_mass <- (if Rlt_dec 0 total_moles
                     then fdiv total_mass total_moles else Ok 0) ;;
  fdiv (pressure_pa * avg_molar_mass) (R_UNIVERSAL * temperature_k).

Definition reynolds_number (velocity diameter density viscosity : R)
  : result R :=
  fdiv (density * velocity * diameter) viscosity.

(** The default of the parameter [viscosity]. *)
Definition reynolds_viscosity_default : R := 1.8e-5.

(** One pass through the body of the loop of [colebrook_friction_factor],
    up to the assignment of [f_new]. *)
Definition colebrook_update (Re diameter roughness f : R) : result R :=
  numerator <- fdiv roughness diameter ;;
  s <- math_sqrt f ;;
  let denominator := 3.7 * Re * s in
  l <- math_log10 (numerator + denominator) ;;
  p <- math_pow (-2 * l) 2 ;;
  fdiv 1 p.

(** [for _ in range(n)] with the early [break]. *)
Fixpoint colebrook_loop (n : nat) (Re diameter roughness f : R)
  : result R :=
  match n with
  | O => Ok f
  | S n' =>
      f_new <- colebrook_update Re diameter roughness f ;;
      if Rlt_dec (Rabs (f_new - f)) 1e-6 then Ok f
      else colebrook_loop n' Re diameter roughness f_new
  end.

Definition colebrook_friction_factor (Re diameter roughness : R)
  : result R :=
  if Rlt_dec Re 2300 then fdiv 64 Re
  else colebrook_loop 10 Re diameter roughness 0.02.

(** The default of the parameter [roughness]. *)
Definition colebrook_roughness_default : R := 0.00015.

Definition pressure_drop_per_length (friction_factor density velocity
                                     diameter : R) : result R :=
  q <- fdiv 1 diameter ;;
  Ok (friction_factor * q * (density * velocity ^ 2 / 2)).

(** [adiabatic_flame_temperature]: no service calls it.  The loop
    [for _ in range(n)] with its early [break]; the state is [T_ad]. *)
Fixpoint adiabatic_loop (n : nat) (fuel_properties : dict R)
    (air_fuel_ratio T_ad : R) : result R :=
  match n with
  | O => Ok T_ad
  | S n' =>
      let T_ambient := 298 in
      PCI <- getitem fuel_properties "PCI" ;;
      let Q_comb := PCI * 1000 in
      let Cp_products := 1.2 in
      q <- fdiv Q_comb (air_fuel_ratio * Cp_products) ;;
      let T_ad_new := T_ambient + q in
      if Rlt_dec (Rabs (T_ad_new - T_ad)) 1 then Ok T_ad
      else adiabatic_loop n' fuel_properties air_fuel_ratio T_ad_new
  end.

Definition adiabatic_flame_temperature (fuel_properties : dict R)
    (air_fuel_ratio : R) : result R :=
  adiabatic_loop 20 fuel_properties air_fuel_ratio 2000.

End equations.

(* ------------------------------------------------------------------ *)
(** ** models/biomass.py and models/results.py *)
(* ------------------------------------------------------------------ *)

Module biomass.

(** [BiomassInput].  The five descriptive fields are declared [str]; an
    assignment after construction is not validated, so they are kept as
    values.  The numeric fields only ever receive floats. *)
Record BiomassInput : Type := {
  project_code : value;
  document_code : value;
  analyst : value;
  city : value;
  altitude : R;
  relative_humidity : R;
  dry_bulb_temp : R;
  biomass_type : value;
  reported_pci : R;
  furnace_efficiency : R;
  excess_air : R;
  duct_diameter : R;
  carbon : R;
  hydrogen : R;
  oxygen : R;
  nitrogen : R;
  sulfur : R;
  ash : R;
  moisture : R;
  flow_rate : R
}.

(** The constraints [ge=0, le=100] checked when an input is constructed. *)
Definition field_constraints (i : BiomassInput) : Prop :=
  0 <= carbon i <= 100 /\ 0 <= hydrogen i <= 100 /\ 0 <= oxygen i <= 100 /\
  0 <= nitrogen i <= 100 /\ 0 <= sulfur i <= 100 /\ 0 <= ash i <= 100 /\
  0 <= moisture i <= 100.

(** [getattr(input, name)] for the declared fields; any other name has
    no attribute behind it. *)
Definition getattr (i : BiomassInput) (name : string) : result value :=
  if String.eqb name "project_code" then Ok (project_code i)
  else if String.eqb name "document_code" then Ok (document_code i)
  else if String.eqb name "analyst" then Ok (analyst i)
  else if String.eqb name "city" then Ok (city i)
  else if String.eqb name "altitude" then Ok (PyFloat (altitude i))
  else if String.eqb name "relative_humidity"
       then Ok (PyFloat (relative_humidity i))
  else if String.eqb name "dry_bulb_temp" then Ok (PyFloat (dry_bulb_temp i))
  else if String.eqb name "biomass_type" then Ok (biomass_type i)
  else if String.eqb name "reported_pci" then Ok (PyFloat (reported_pci i))
  else if String.eqb name "furnace_efficiency"
       then Ok (PyFloat (furnace_efficiency i))
  else if String.eqb name "excess_air" then Ok (PyFloat (excess_air i))
  else if String.eqb name "duct_diameter" then Ok (PyFloat (duct_diameter i))
  else if String.eqb name "carbon" then Ok (PyFloat (carbon i))
  else if String.eqb name "hydrogen" then Ok (PyFloat (hydrogen i))
  else if String.eqb name "oxygen" then Ok (PyFloat (oxygen i))
  else if String.eqb name "nitrogen" then Ok (PyFloat (nitrogen i))
  else if String.eqb name "sulfur" then Ok (PyFloat (sulfur i))
  else if String.eqb name "ash" then Ok (PyFloat (ash i))
  else if String.eqb name "moisture" then Ok (PyFloat (moisture i))
  else if String.eqb name "flow_rate" then Ok (PyFloat (flow_rate i))
  else Raise (AttributeError name).

(** [setattr(input, name, v)]: pydantic refuses a name that is not a
    field with a [ValueError]. *)
Definition setattr (i : BiomassInput) (name : string) (v : value)
  : result BiomassInput :=
  let mk pc dc an ci al rh db bt rp fe ea dd c h o n s a m fr :=
    Build_BiomassInput pc dc an ci al rh db bt rp fe ea dd c h o n s a m fr in
  match i with
  | Build_BiomassInput pc dc an ci al rh db bt rp fe ea dd c h o n s a m fr =>
    if String.eqb name "project_code"
    then Ok (mk v dc an ci al rh db bt rp fe ea dd c h o n s a m fr)
    else if String.eqb name "document_code"
    then Ok (mk pc v an ci al rh db bt rp fe ea dd c h o n s a m fr)
    else if String.eqb name "analyst"
    then Ok (mk pc dc v ci al rh db bt rp fe ea dd c h o n s a m fr)
    else if String.eqb name "city"
    then Ok (mk pc dc an v al rh db bt rp fe ea dd c h o n s a m fr)
    else if String.eqb name "altitude"
    then x <- as_float v ;;
         Ok (mk pc dc an ci x rh db bt rp fe ea dd c h o n s a m fr)
    else if String.eqb name "relative_humidity"
    then x <- as_float v ;;
         Ok (mk pc dc an ci al x db bt rp fe ea dd c h o n s a m fr)
    else if String.eqb name "dry_bulb_temp"
    then x <- as_float v ;;
         Ok (mk pc dc an ci al rh x bt rp fe ea dd c h o n s a m fr)
    else if String.eqb name "biomass_type"
    then Ok (mk pc dc an ci al rh db v rp fe ea dd c h o n s a m fr)
    else if String.eqb name "reported_pci"
    then x <- as_float v ;;
         Ok (mk pc dc an ci al rh db bt x fe ea dd c h o n s a m fr)
    else if String.eqb name "furnace_efficiency"
    then x <- as_float v ;;
         Ok (mk pc dc an ci al rh db bt rp x ea dd c h o n s a m fr)
    else if String.eqb name "excess_air"
    then x <- as_float v ;;
         Ok (mk pc dc an ci al rh db bt rp fe x dd c h o n s a m fr)
    else if String.eqb name "duct_diameter"
    then x <- as_float v ;;
         Ok (mk pc dc an ci al rh db bt rp fe ea x c h o n s a m fr)
    else if String.eqb name "carbon"
    then x <- as_float v ;;
         Ok (mk pc dc an ci al rh db bt rp fe ea dd x h o n s a m fr)
    else if String.eqb name "hydrogen"
    then x <- as_float v ;;
         Ok (mk pc dc an ci al rh db bt rp fe ea dd c x o n s a m fr)
    else if String.eqb name "oxygen"
    then x <- as_float v ;;
         Ok (mk pc dc an ci al rh db bt rp fe ea dd c h x n s a m fr)
    else if String.eqb name "nitrogen"
    then x <- as_float v ;;
         Ok (mk pc dc an ci al rh db bt rp fe ea dd c h o x s a m fr)
    else if String.eqb name "sulfur"
    then x <- as_float v ;;
         Ok (mk pc dc an ci al rh db bt rp fe ea dd c h o n x a m fr)
    else if String.eqb name "ash"
    then x <- as_float v ;;
         Ok (mk pc dc an ci al rh db bt rp fe ea dd c h o n s x m fr)
    else if String.eqb name "moisture"
    then x <- as_float v ;;
         Ok (mk pc dc an ci al rh db bt rp fe ea dd c h o n s a x fr)
    else if String.eqb name "flow_rate"
    then x <- as_float v ;;
         Ok (mk pc dc an ci al rh db bt rp fe ea dd c h o n s a m x)
    else Raise ValueError
  end.

(** The defaults of the model, with the three required descriptive
    fields given: the reference bagasse case. *)
Definition reference_input : BiomassInput := {|
  project_code := PyStr "BIO-2024-001";
  document_code := PyStr "DML-TECH-001";
  analyst := PyStr "Ing. Juan Pérez";
  city := PyStr "Bogotá";
  altitude := 2640;
  relative_humidity := 75;
  dry_bulb_temp := 15;
  biomass_type := PyStr "Bagazo de caña";
  reported_pci := 11367;
  furnace_efficiency := 90;
  excess_air := 30;
  duct_diameter := 30;
  carbon := 50.29;
  hydrogen := 5.82;
  oxygen := 42.94;
  nitrogen := 0.22;
  sulfur := 0.08;
  ash := 0.66;
  moisture := 35.09;
  flow_rate := 3000
|}.

End biomass.

Module results.

Record CombustionResults : Type := {
  pcs : R;
  pci_calculated : R;
  composition_wet_base : dict R;
  air_density : R;
  absolute_humidity : R;
  air_enthalpy : R;
  theoretical_air : R;
  real_air : R;
  excess_air_percentage : R;
  co2 : R;
  h2o : R;
  so2 : R;
  o2_excess : R;
  n2 : R;
  total_gas_mass : R;
  co2_fraction_vol : R;
  h2o_fraction_vol : R;
  so2_fraction_vol : R;
  o2_fraction_vol : R;
  n2_fraction_vol : R;
  total_energy_released : R;
  useful_energy : R;
  adiabatic_flame_temp : R;
  outlet_gas_temp : R;
  chimney_losses : R;
  real_efficiency : R;
  gas_density : R;
  volumetric_flow : R;
  duct_area : R;
  gas_velocity : R;
  reynolds_number : R;
  friction_factor : R;
  pressure_drop : R;
  thermal_resistance : R;
  heat_transfer_coefficient : R;
  heat_loss_per_meter : R;
  external_wall_temp : R;
  refractory_gradient : R;
  insulation_efficiency : R;
  co2_emission_factor : R;
  co2_concentration_dry : R;
  volumetric_heating_value : R;
  flow_rate_kg_s : R;
  mass_flow_gases : R
}.

(** The float fields by name. *)
Definition float_fields (r : CombustionResults) : dict R :=
  [ ("pcs", pcs r); ("pci_calculated", pci_calculated r);
    ("air_density", air_density r);
    ("absolute_humidity", absolute_humidity r);
    ("air_enthalpy", air_enthalpy r);
    ("theoretical_air", theoretical_air r); ("real_air", real_air r);
    ("excess_air_percentage", excess_air_percentage r);
    ("co2", co2 r); ("h2o", h2o r); ("so2", so2 r);
    ("o2_excess", o2_excess r); ("n2", n2 r);
    ("total_gas_mass", total_gas_mass r);
    ("co2_fraction_vol", co2_fraction_vol r);
    ("h2o_fraction_vol", h2o_fraction_vol r);
    ("so2_fraction_vol", so2_fraction_vol r);
    ("o2_fraction_vol", o2_fraction_vol r);
    ("n2_fraction_vol", n2_fraction_vol r);
    ("total_energy_released", total_energy_released r);
    ("useful_energy", useful_energy r);
    ("adiabatic_flame_temp", adiabatic_flame_temp r);
    ("outlet_gas_temp", outlet_gas_temp r);
    ("chimney_losses", chimney_losses r);
    ("real_efficiency", real_efficiency r);
    ("gas_density", gas_density r);
    ("volumetric_flow", volumetric_flow r);
    ("duct_area", duct_area r); ("gas_velocity", gas_velocity r);
    ("reynolds_number", reynolds_number r);
    ("friction_factor", friction_factor r);
    ("pressure_drop", pressure_drop r);
    ("thermal_resistance", thermal_resistance r);
    ("heat_transfer_coefficient", heat_transfer_coefficient r);
    ("heat_loss_per_meter", heat_loss_per_meter r);
    ("external_wall_temp", external_wall_temp r);
    ("refractory_gradient", refractory_gradient r);
    ("insulation_efficiency", insulation_efficiency r);
    ("co2_emission_factor", co2_emission_factor r);
    ("co2_concentration_dry", co2_concentration_dry r);
    ("volumetric_heating_value", volumetric_heating_value r);
    ("flow_rate_kg_s", flow_rate_kg_s r);
    ("mass_flow_gases", mass_flow_gases r) ]%string.

(** [getattr(results, name)] for the declared fields.  The attributes a
    pydantic model inherits from [BaseModel] are not modelled. *)
Definition getattr (r : CombustionResults) (name : string) : result value :=
  if String.eqb name "composition_wet_base"
  then Ok (PyDict (composition_wet_base r))
  else match dict_get (float_fields r) name with
       | Some x => Ok (PyFloat x)
       | None => Raise (AttributeError name)
       end.

Record SensibilityResults : Type := {
  parameter_name : string;
  parameter_values : list R;
  temperatures : list R;
  velocities : list R;
  pressure_drops : list R;
  efficiencies : list R
}.

End results.

(* ------------------------------------------------------------------ *)
(** ** services/combustion.py *)
(* ------------------------------------------------------------------ *)

Module combustion.
Import constants equations biomass.

(** A [CombustionCalculator] object: [self.input] and [self.results]. *)
Record Calculator : Type := {
  input : BiomassInput;
  results : dict value
}.

(** [CombustionCalculator(input_data)] *)
Definition __init__ (input_data : BiomassInput) : Calculator :=
  {| input := input_data; results := [] |}.

(** Methods: the object is threaded through, and is kept as it was left
    when an exception is raised. *)
Definition M (A : Type) : Type := Calculator -> result A * Calculator.

Definition ret {A} (a : A) : M A := fun self => (Ok a, self).

Definition bindM {A B} (m : M A) (k : A -> M B) : M B :=
  fun self =>
    match m self with
    | (Ok a, self') => k a self'
    | (Raise e, self') => (Raise e, self')
    end.

Definition lift {A} (m : result A) : M A := fun self => (m, self).

Declare Scope method_scope.
Delimit Scope method_scope with method.
Notation "x <- m ;; k" := (bindM m (fun x => k))
  (at level 61, m at next level, right associativity) : method_scope.
Notation "m ;; k" := (bindM m (fun _ => k))
  (at level 61, right associativity) : method_scope.

(** [self.input.<name>], read as a float. *)
Definition self_input (name : string) : M R :=
  fun self => (bind (biomass.getattr (input self) name) as_float, self).

(** [self.results[key]], read as a float, and as a dictionary. *)
Definition self_results (key : string) : M R :=
  fun self => (bind (getitem (results self) key) as_float, self).

Definition self_results_dict (key : string) : M (dict R) :=
  fun self => (bind (getitem (results self) key) as_dict, self).

(** [self.results[key] = v] *)
Definition set_results (key : string) (v : value) : M unit :=
  fun self =>
    (Ok tt, {| input := input self;
               results := dict_set (results self) key v |}).

Open Scope method_scope.

Definition _calculate_fuel_properties : M unit :=
  moisture <- self_input "moisture" ;;
  let moisture_factor := (100 - moisture) / 100 in
  carbon <- self_input "carbon" ;;
  hydrogen <- self_input "hydrogen" ;;
  oxygen <- self_input "oxygen" ;;
  nitrogen <- self_input "nitrogen" ;;
  sulfur <- self_input "sulfur" ;;
  ash <- self_input "ash" ;;
  moisture <- self_input "moisture" ;;
  set_results "composition_wet"
    (PyDict [ ("C", carbon * moisture_factor);
              ("H", hydrogen * moisture_factor);
              ("O", oxygen * moisture_factor);
              ("N", nitrogen * moisture_factor);
              ("S", sulfur * moisture_factor);
              ("ash", ash * moisture_factor);
              ("H2O", moisture) ]%string) ;;
  carbon <- self_input "carbon" ;;
  hydrogen <- self_input "hydrogen" ;;
  oxygen <- self_input "oxygen" ;;
  sulfur <- self_input "sulfur" ;;
  ash <- self_input "ash" ;;
  moisture <- self_input "moisture" ;;
  heating_values <- lift (dulong_heating_value carbon hydrogen oxygen
                                                sulfur ash moisture) ;;
  PCS <- lift (getitem heating_values "PCS") ;;
  set_results "PCS" (PyFloat PCS) ;;
  PCI <- lift (getitem heating_values "PCI") ;;
  set_results "PCI_calculated" (PyFloat PCI) ;;
  carbon <- self_input "carbon" ;;
  hydrogen <- self_input "hydrogen" ;;
  oxygen <- self_input "oxygen" ;;
  sulfur <- self_input "sulfur" ;;
  set_results "theoretical_air"
    (PyFloat (theoretical_air_fuel_ratio carbon hydrogen oxygen sulfur)) ;;
  theoretical_air <- self_results "theoretical_air" ;;
  excess_air <- self_input "excess_air" ;;
  set_results "real_air"
    (PyFloat (theoretical_air * (1 + excess_air / 100))) ;;
  water <- lift (getitem heating_values "water_from_combustion") ;;
  set_results "water_combustion" (PyFloat water).

Definition _calculate_air_properties : M unit :=
  altitude <- self_input "altitude" ;;
  P <- lift (pressure_altitude altitude) ;;
  set_results "atmospheric_pressure" (PyFloat P) ;;
  dry_bulb_temp <- self_input "dry_bulb_temp" ;;
  let temp_k := dry_bulb_temp + 273.15 in
  atmospheric_pressure <- self_results "atmospheric_pressure" ;;
  let pressure_pa := atmospheric_pressure * 1000 in
  air_density <- lift (fdiv pressure_pa (R_AIR * temp_k)) ;;
  set_results "air_density" (PyFloat air_density) ;;
  relative_humidity <- self_input "relative_humidity" ;;
  dry_bulb_temp <- self_input "dry_bulb_temp" ;;
  atmospheric_pressure <- self_results "atmospheric_pressure" ;;
  w <- lift (absolute_humidity relative_humidity dry_bulb_temp
                               atmospheric_pressure) ;;
  set_results "absolute_humidity" (PyFloat w) ;;
  dry_bulb_temp <- self_input "dry_bulb_temp" ;;
  w <- self_results "absolute_humidity" ;;
  set_results "air_enthalpy" (PyFloat (moist_air_enthalpy dry_bulb_temp w)).

Definition _calculate_stoichiometry : M unit :=
  carbon <- self_input "carbon" ;;
  hydrogen <- self_input "hydrogen" ;;
  sulfur <- self_input "sulfur" ;;
  moisture <- self_input "moisture" ;;
  ash <- self_input "ash" ;;
  excess_air <- self_input "excess_air" ;;
  products <- lift (combustion_products carbon hydrogen sulfur moisture ash
                                        excess_air) ;;
  set_results "products" (PyDict products) ;;
  CO2 <- lift (getitem products "CO2") ;;
  set_results "CO2_mass" (PyFloat CO2) ;;
  H2O <- lift (getitem products "H2O") ;;
  set_results "H2O_mass" (PyFloat H2O) ;;
  SO2 <- lift (getitem products "SO2") ;;
  set_results "SO2_mass" (PyFloat SO2) ;;
  O2 <- lift (getitem products "O2") ;;
  set_results "O2_excess" (PyFloat O2) ;;
  N2 <- lift (getitem products "N2") ;;
  set_results "N2_mass" (PyFloat N2).

Definition _calculate_mass_balance : M unit :=
  flow_rate <- self_input "flow_rate" ;;
  ton_to_kg <- lift (getitem CONVERSION_FACTORS "ton_to_kg") ;;
  hour_to_sec <- lift (getitem CONVERSION_FACTORS "hour_to_sec") ;;
  flow_rate_kg_s <- lift (fdiv (flow_rate * ton_to_kg) hour_to_sec) ;;
  set_results "flow_rate_kg_s" (PyFloat flow_rate_kg_s) ;;
  products <- self_results_dict "products" ;;
  total_gases <- lift (getitem products "total_gases") ;;
  set_results "total_gas_mass" (PyFloat total_gases) ;;
  flow_rate_kg_s <- self_results "flow_rate_kg_s" ;;
  real_air <- self_results "real_air" ;;
  set_results "mass_flow_gases" (PyFloat (flow_rate_kg_s * (1 + real_air))).

(** The residual that [_calculate_adiabatic_temperature] hands to the
    solver; it reads [self.results] each time it is called. *)
Definition energy_balance (self : Calculator) (T : R) : result R :=
  let read key := bind (getitem (results self) key) as_float in
  (PCI_calculated <- read "PCI_calculated"%string ;;
   let Q_comb := PCI_calculated * 1000 in
   CO2_mass <- read "CO2_mass"%string ;;
   let Cp_CO2 := 0.844 * (T - 298) * CO2_mass in
   H2O_mass <- read "H2O_mass"%string ;;
   let Cp_H2O := 1.86 * (T - 298) * H2O_mass in
   O2_excess <- read "O2_excess"%string ;;
   let Cp_O2 := 0.918 * (T - 298) * O2_excess in
   N2_mass <- read "N2_mass"%string ;;
   let Cp_N2 := 1.04 * (T - 298) * N2_mass in
   SO2_mass <- read "SO2_mass"%string ;;
   let Cp_SO2 := 0.64 * (T - 298) * SO2_mass in
   let Q_absorbed := Cp_CO2 + Cp_H2O + Cp_O2 + Cp_N2 + Cp_SO2 in
   Ok (Q_comb - Q_absorbed))%py.

(** [GAS_PROPERTIES[gas]['molar_mass']] *)
Definition molar_mass (gas : string) : result R :=
  (props <- getitem GAS_PROPERTIES gas ;;
   getitem props "molar_mass")%py.

Section Calculator.

(** [scipy.optimize.fsolve(func, x0)[0]]: the solver is outside the
    repository and is left abstract. *)
Variable fsolve : (R -> result R) -> R -> result R.

Definition _calculate_adiabatic_temperature : M R :=
  let T_guess := 2000 in
  T_adiabatic <- (fun self => (fsolve (energy_balance self) T_guess, self)) ;;
  ret (Rmax T_adiabatic 298).

Definition _calculate_energy_balance : M unit :=
  flow_rate_kg_s <- self_results "flow_rate_kg_s" ;;
  reported_PCI <- self_input "reported_PCI" ;;
  set_results "total_energy" (PyFloat (flow_rate_kg_s * reported_PCI)) ;;
  total_energy <- self_results "total_energy" ;;
  furnace_efficiency <- self_input "furnace_efficiency" ;;
  set_results "useful_energy"
    (PyFloat (total_energy * (furnace_efficiency / 100))) ;;
  adiabatic_temp <- _calculate_adiabatic_temperature ;;
  set_results "adiabatic_temp" (PyFloat adiabatic_temp) ;;
  let Cp_avg := 1.1 in
  useful_energy <- self_results "useful_energy" ;;
  mass_flow_gases <- self_results "mass_flow_gases" ;;
  temp_rise <- lift (fdiv useful_energy (mass_flow_gases * Cp_avg)) ;;
  dry_bulb_temp <- self_input "dry_bulb_temp" ;;
  set_results "outlet_temp" (PyFloat (dry_bulb_temp + temp_rise)) ;;
  furnace_efficiency <- self_input "furnace_efficiency" ;;
  set_results "real_efficiency" (PyFloat furnace_efficiency) ;;
  total_energy <- self_results "total_energy" ;;
  useful_energy <- self_results "useful_energy" ;;
  set_results "chimney_losses" (PyFloat (total_energy - useful_energy)).

Definition _calculate_fluid_dynamics : M unit :=
  outlet_temp <- self_results "outlet_temp" ;;
  dry_bulb_temp <- self_input "dry_bulb_temp" ;;
  let temp_avg_k := (outlet_temp + dry_bulb_temp) / 2 + 273.15 in
  atmospheric_pressure <- self_results "atmospheric_pressure" ;;
  let pressure_pa := atmospheric_pressure * 1000 in
  CO2_mass <- self_results "CO2_mass" ;;
  H2O_mass <- self_results "H2O_mass" ;;
  SO2_mass <- self_results "SO2_mass" ;;
  O2_excess <- self_results "O2_excess" ;;
  N2_mass <- self_results "N2_mass" ;;
  let gas_composition :=
    [ ("CO2", CO2_mass); ("H2O", H2O_mass); ("SO2", SO2_mass);
      ("O2", O2_excess); ("N2", N2_mass) ]%string in
  rho <- lift (equations.gas_density temp_avg_k pressure_pa
                                     gas_composition) ;;
  set_results "gas_density" (PyFloat rho) ;;
  mass_flow_gases <- self_results "mass_flow_gases" ;;
  gas_density <- self_results "gas_density" ;;
  volumetric_flow <- lift (fdiv mass_flow_gases gas_density) ;;
  set_results "volumetric_flow" (PyFloat volumetric_flow) ;;
  duct_diameter <- self_input "duct_diameter" ;;
  inch_to_m <- lift (getitem CONVERSION_FACTORS "inch_to_m") ;;
  let diameter_m := duct_diameter * inch_to_m in
  set_results "duct_area" (PyFloat (PI * (diameter_m ^ 2) / 4)) ;;
  volumetric_flow <- self_results "volumetric_flow" ;;
  duct_area <- self_results "duct_area" ;;
  gas_velocity <- lift (fdiv volumetric_flow duct_area) ;;
  set_results "gas_velocity" (PyFloat gas_velocity) ;;
  gas_velocity <- self_results "gas_velocity" ;;
  gas_density <- self_results "gas_density" ;;
  reynolds <- lift (equations.reynolds_number gas_velocity diameter_m
                      gas_density reynolds_viscosity_default) ;;
  set_results "reynolds" (PyFloat reynolds) ;;
  reynolds <- self_results "reynolds" ;;
  roughness <- lift (getitem REFRACTORY_PROPERTIES "roughness") ;;
  friction_factor <- lift (colebrook_friction_factor reynolds diameter_m
                                                     roughness) ;;
  set_results "friction_factor" (PyFloat friction_factor) ;;
  friction_factor <- self_results "friction_factor" ;;
  gas_density <- self_results "gas_density" ;;
  gas_velocity <- self_results "gas_velocity" ;;
  pressure_drop <- lift (pressure_drop_per_length friction_factor gas_density
                                                  gas_velocity diameter_m) ;;
  set_results "pressure_drop" (PyFloat pressure_drop).

Definition _calculate_heat_transfer : M unit :=
  duct_diameter <- self_input "duct_diameter" ;;
  inch_to_m <- lift (getitem CONVERSION_FACTORS "inch_to_m") ;;
  let diameter_m := duct_diameter * inch_to_m in
  let h_internal := 50 in
  let h_external := 10 in
  R_convection_int <- lift (fdiv 1 (h_internal * PI * diameter_m)) ;;
  thickness <- lift (getitem REFRACTORY_PROPERTIES "thickness") ;;
  radius_ratio <- lift (fdiv (diameter_m / 2 + thickness)
                             (diameter_m / 2)) ;;
  log_ratio <- lift (math_log radius_ratio) ;;
  conductivity <- lift (getitem REFRACTORY_PROPERTIES
                                "thermal_conductivity") ;;
  R_conduction <- lift (fdiv log_ratio (2 * PI * conductivity)) ;;
  thickness <- lift (getitem REFRACTORY_PROPERTIES "thickness") ;;
  R_convection_ext <- lift (fdiv 1 (h_external * PI *
                                    (diameter_m + 2 * thickness))) ;;
  set_results "thermal_resistance"
    (PyFloat (R_convection_int + R_conduction + R_convection_ext)) ;;
  thermal_resistance <- self_results "thermal_resistance" ;;
  U <- lift (fdiv 1 thermal_resistance) ;;
  set_results "heat_transfer_coefficient" (PyFloat U) ;;
  outlet_temp <- self_results "outlet_temp" ;;
  dry_bulb_temp <- self_input "dry_bulb_temp" ;;
  let delta_T := outlet_temp - dry_bulb_temp in
  U <- self_results "heat_transfer_coefficient" ;;
  set_results "heat_loss_per_meter" (PyFloat (U * delta_T)) ;;
  dry_bulb_temp <- self_input "dry_bulb_temp" ;;
  heat_loss_per_meter <- self_results "heat_loss_per_meter" ;;
  set_results "external_wall_temp"
    (PyFloat (dry_bulb_temp + heat_loss_per_meter * R_convection_ext)) ;;
  heat_loss_per_meter <- self_results "heat_loss_per_meter" ;;
  set_results "refractory_gradient"
    (PyFloat (heat_loss_per_meter * R_conduction)) ;;
  let heat_loss_no_insulation := h_external * PI * diameter_m * delta_T in
  heat_loss_per_meter <- self_results "heat_loss_per_meter" ;;
  q <- lift (fdiv (heat_loss_no_insulation - heat_loss_per_meter)
                  heat_loss_no_insulation) ;;
  set_results "insulation_efficiency" (PyFloat (q * 100)).

Definition _calculate_emissions : M unit :=
  composition_wet <- self_results_dict "composition_wet" ;;
  C <- lift (getitem composition_wet "C") ;;
  set_results "co2_emission_factor" (PyFloat (44 / 12 * C / 100)) ;;
  CO2_mass <- self_results "CO2_mass" ;;
  O2_excess <- self_results "O2_excess" ;;
  N2_mass <- self_results "N2_mass" ;;
  SO2_mass <- self_results "SO2_mass" ;;
  let dry_gases := CO2_mass + O2_excess + N2_mass + SO2_mass in
  (if Rlt_dec 0 dry_gases then
     CO2_mass <- self_results "CO2_mass" ;;
     q <- lift (fdiv CO2_mass dry_gases) ;;
     set_results "co2_concentration_dry" (PyFloat (q * 100))
   else
     set_results "co2_concentration_dry" (PyFloat 0)) ;;
  let fuel_density := 1200 in
  PCI_calculated <- self_results "PCI_calculated" ;;
  set_results "volumetric_heating_value"
    (PyFloat (PCI_calculated * fuel_density)).

(** The sum and the five shares computed at the head of
    [_compile_results]; the order of the reads is that of the source. *)
Definition total_vol : M R :=
  CO2_mass <- self_results "CO2_mass" ;;
  m_CO2 <- lift (molar_mass "CO2") ;;
  v_CO2 <- lift (fdiv CO2_mass m_CO2) ;;
  H2O_mass <- self_results "H2O_mass" ;;
  m_H2O <- lift (molar_mass "H2O") ;;
  v_H2O <- lift (fdiv H2O_mass m_H2O) ;;
  O2_excess <- self_results "O2_excess" ;;
  m_O2 <- lift (molar_mass "O2") ;;
  v_O2 <- lift (fdiv O2_excess m_O2) ;;
  N2_mass <- self_results "N2_mass" ;;
  m_N2 <- lift (molar_mass "N2") ;;
  v_N2 <- lift (fdiv N2_mass m_N2) ;;
  SO2_mass <- self_results "SO2_mass" ;;
  m_SO2 <- lift (molar_mass "SO2") ;;
  v_SO2 <- lift (fdiv SO2_mass m_SO2) ;;
  ret (v_CO2 + v_H2O + v_O2 + v_N2 + v_SO2).

(** [(self.results[key] / GAS_PROPERTIES[gas]['molar_mass'])
     / total_vol * 100] *)
Definition vol_share (key gas : string) (total_vol : R) : M R :=
  mass <- self_results key ;;
  m <- lift (molar_mass gas) ;;
  moles <- lift (fdiv mass m) ;;
  q <- lift (fdiv moles total_vol) ;;
  ret (q * 100).

Definition volumetric_fractions : M (R * R * R * R * R) :=
  total_vol <- total_vol ;;
  if Rlt_dec 0 total_vol then
    co2_vol <- vol_share "CO2_mass" "CO2" total_vol ;;
    h2o_vol <- vol_share "H2O_mass" "H2O" total_vol ;;
    so2_vol <- vol_share "SO2_mass" "SO2" total_vol ;;
    o2_vol <- vol_share "O2_excess" "O2" total_vol ;;
    n2_vol <- vol_share "N2_mass" "N2" total_vol ;;
    ret (co2_vol, h2o_vol, so2_vol, o2_vol, n2_vol)
  else
    ret (0, 0, 0, 0, 0).

Definition _compile_results : M results.CombustionResults :=
  fractions <- volumetric_fractions ;;
  let '(co2_vol, h2o_vol, so2_vol, o2_vol, n2_vol) := fractions in
  PCS <- self_results "PCS" ;;
  PCI_calculated <- self_results "PCI_calculated" ;;
  composition_wet <- self_results_dict "composition_wet" ;;
  air_density <- self_results "air_density" ;;
  absolute_humidity <- self_results "absolute_humidity" ;;
  air_enthalpy <- self_results "air_enthalpy" ;;
  theoretical_air <- self_results "theoretical_air" ;;
  real_air <- self_results "real_air" ;;
  excess_air <- self_input "excess_air" ;;
  CO2_mass <- self_results "CO2_mass" ;;
  H2O_mass <- self_results "H2O_mass" ;;
  SO2_mass <- self_results "SO2_mass" ;;
  O2_excess <- self_results "O2_excess" ;;
  N2_mass <- self_results "N2_mass" ;;
  total_gas_mass <- self_results "total_gas_mass" ;;
  total_energy <- self_results "total_energy" ;;
  useful_energy <- self_results "useful_energy" ;;
  adiabatic_temp <- self_results "adiabatic_temp" ;;
  outlet_temp <- self_results "outlet_temp" ;;
  chimney_losses <- self_results "chimney_losses" ;;
  real_efficiency <- self_results "real_efficiency" ;;
  gas_density <- self_results "gas_density" ;;
  volumetric_flow <- self_results "volumetric_flow" ;;
  duct_area <- self_results "duct_area" ;;
  gas_velocity <- self_results "gas_velocity" ;;
  reynolds <- self_results "reynolds" ;;
  friction_factor <- self_results "friction_factor" ;;
  pressure_drop <- self_results "pressure_drop" ;;
  thermal_resistance <- self_results "thermal_resistance" ;;
  heat_transfer_coefficient <- self_results "heat_transfer_coefficient" ;;
  heat_loss_per_meter <- self_results "heat_loss_per_meter" ;;
  external_wall_temp <- self_results "external_wall_temp" ;;
  refractory_gradient <- self_results "refractory_gradient" ;;
  insulation_efficiency <- self_results "insulation_efficiency" ;;
  co2_emission_factor <- self_results "co2_emission_factor" ;;
  co2_concentration_dry <- self_results "co2_concentration_dry" ;;
  volumetric_heating_value <- self_results "volumetric_heating_value" ;;
  flow_rate_kg_s <- self_results "flow_rate_kg_s" ;;
  mass_flow_gases <- self_results "mass_flow_gases" ;;
  ret {| results.pcs := PCS;
         results.pci_calculated := PCI_calculated;
         results.composition_wet_base := composition_wet;
         results.air_density := air_density;
         results.absolute_humidity := absolute_humidity;
         results.air_enthalpy := air_enthalpy;
         results.theoretical_air := theoretical_air;
         results.real_air := real_air;
         results.excess_air_percentage := excess_air;
         results.co2 := CO2_mass;
         results.h2o := H2O_mass;
         results.so2 := SO2_mass;
         results.o2_excess := O2_excess;
         results.n2 := N2_mass;
         results.total_gas_mass := total_gas_mass;
         results.co2_fraction_vol := co2_vol;
         results.h2o_fraction_vol := h2o_vol;
         results.so2_fraction_vol := so2_vol;
         results.o2_fraction_vol := o2_vol;
         results.n2_fraction_vol := n2_vol;
         results.total_energy_released := total_energy / 1000;
         results.useful_energy := useful_energy / 1000;
         results.adiabatic_flame_temp := adiabatic_temp;
         results.outlet_gas_temp := outlet_temp;
         results.chimney_losses := chimney_losses / 1000;
         results.real_efficiency := real_efficiency;
         results.gas_density := gas_density;
         results.volumetric_flow := volumetric_flow;
         results.duct_area := duct_area;
         results.gas_velocity := gas_velocity;
         results.reynolds_number := reynolds;
         results.friction_factor := friction_factor;
         results.pressure_drop := pressure_drop;
         results.thermal_resistance := thermal_resistance;
         results.heat_transfer_coefficient := heat_transfer_coefficient;
         results.heat_loss_per_meter := heat_loss_per_meter;
         results.external_wall_temp := external_wall_temp;
         results.refractory_gradient := refractory_gradient;
         results.insulation_efficiency := insulation_efficiency;
         results.co2_emission_factor := co2_emission_factor;
         results.co2_concentration_dry := co2_concentration_dry;
         results.volumetric_heating_value := volumetric_heating_value;
         results.flow_rate_kg_s := flow_rate_kg_s;
         results.mass_flow_gases := mass_flow_gases |}.

Definition calculate_all : M results.CombustionResults :=
  _calculate_fuel_properties ;;
  _calculate_air_properties ;;
  _calculate_stoichiometry ;;
  _calculate_mass_balance ;;
  _calculate_energy_balance ;;
  _calculate_fluid_dynamics ;;
  _calculate_heat_transfer ;;
  _calculate_emissions ;;
  _compile_results.

End Calculator.

(** [getattr(self.input, name)] and [setattr(self.input, name, v)] *)
Definition self_getattr (name : string) : M value :=
  fun self => (biomass.getattr (input self) name, self).

Definition self_setattr (name : string) (v : value) : M unit :=
  fun self =>
    match biomass.setattr (input self) name v with
    | Ok input' => (Ok tt, {| input := input'; results := results self |})
    | Raise e => (Raise e, self)
    end.

Section Sweep.

(** [self.calculate_all] is bound late: the sweep is written over the
    method the object carries. *)
Variable self_calculate_all : M results.CombustionResults.

(** The four lists that the loop of [sensitivity_analysis] appends to. *)
Definition channels : Type := (list R * list R * list R * list R)%type.

Fixpoint sensitivity_loop (parameter_name : string)
    (parameter_values : list R) (acc : channels) : M channels :=
  match parameter_values with
  | [] => ret acc
  | value :: rest =>
      self_setattr parameter_name (PyFloat value) ;;
      r <- self_calculate_all ;;
      let '(temperatures, velocities, pressure_drops, efficiencies) := acc in
      sensitivity_loop parameter_name rest
        (temperatures ++ [results.outlet_gas_temp r - 273.15],
         velocities ++ [results.gas_velocity r],
         pressure_drops ++ [results.pressure_drop r],
         efficiencies ++ [results.real_efficiency r])
  end.

Definition sensitivity_analysis (parameter_name : string)
    (parameter_values : list R) : M results.SensibilityResults :=
  original_value <- self_getattr parameter_name ;;
  acc <- sensitivity_loop parameter_name parameter_values ([], [], [], []) ;;
  let '(temperatures, velocities, pressure_drops, efficiencies) := acc in
  self_setattr parameter_name original_value ;;
  ret {| results.parameter_name := parameter_name;
         results.parameter_values := parameter_values;
         results.temperatures := temperatures;
         results.velocities := velocities;
         results.pressure_drops := pressure_drops;
         results.efficiencies := efficiencies |}.

End Sweep.

End combustion.

(* ------------------------------------------------------------------ *)
(** ** services/sensitivity.py *)
(* ------------------------------------------------------------------ *)

Module sensitivity.
Import constants biomass combustion.
Open Scope method_scope.

(** [numpy.linspace(start, stop, num)] with the end point included, as
    numpy documents it: [num] samples [start + i * step] with
    [step = (stop - start) / (num - 1)]; a negative [num] is refused. *)
Definition linspace (start stop : R) (num : Z) : result (list R) :=
  if (num <? 0)%Z then Raise ValueError
  else
    let n := Z.to_nat num in
    let step := (stop - start) / INR (n - 1) in
    Ok (match n with
        | O => []
        | S O => [start]
        | _ => map (fun i => INR i * step + start) (seq 0 n)
        end).

(** [l[0]], [min(l)] and [max(l)] on lists of floats. *)
Definition first (l : list R) : result R :=
  match l with
  | [] => Raise IndexError
  | x :: _ => Ok x
  end.

Definition py_min (l : list R) : result R :=
  match l with
  | [] => Raise ValueError
  | x :: rest => Ok (fold_left Rmin rest x)
  end.

Definition py_max (l : list R) : result R :=
  match l with
  | [] => Raise ValueError
  | x :: rest => Ok (fold_left Rmax rest x)
  end.

(** The dictionaries that the analyzer returns, as records. *)
Record Range : Type := {
  range_min : R;
  range_max : R;
  range_span : R
}.

Record Metrics : Type := {
  derivatives : list R * list R * list R * list R;
  relative_sensitivity_lists : list R * list R * list R;
  maximum_sensitivity : R * R * R;
  ranges : Range * Range * Range * Range
}.

Record ParameterAnalysis : Type := {
  parameter : string;
  base_value : R;
  unit_ : string;
  values : list R;
  sweep : results.SensibilityResults;
  metrics : Metrics
}.

Record OptimizationOutcome : Type := {
  opt_parameter : string;
  optimal_value : R;
  original_value : R;
  improvement : xfloat;
  optimal_results : results.CombustionResults
}.

Definition units : dict string :=
  [ ("flow_rate", "ton/hora"); ("reported_PCI", "kJ/kg");
    ("furnace_efficiency", "%"); ("excess_air", "%");
    ("duct_diameter", "pulgadas"); ("carbon", "%"); ("hydrogen", "%");
    ("oxygen", "%"); ("nitrogen", "%"); ("sulfur", "%"); ("ash", "%");
    ("moisture", "%"); ("relative_humidity", "%");
    ("dry_bulb_temp", "°C"); ("altitude", "m") ]%string.

Definition _get_parameter_unit (parameter_name : string) : string :=
  dict_get_default units parameter_name EmptyString.

Definition range_of (l : list R) : result Range :=
  (lo <- py_min l ;;
   hi <- py_max l ;;
   hi' <- py_max l ;;
   lo' <- py_min l ;;
   Ok {| range_min := lo; range_max := hi; range_span := hi' - lo' |})%py.

Section Analyzer.

(** The analyzer holds [base_input] and a calculator built on the same
    object: one [Calculator] state stands for both.  The calculator's
    [calculate_all] is the method that object carries. *)
Variable calculator_calculate_all : M results.CombustionResults.

(** [numpy.gradient(y, x)], as a list; left abstract. *)
Variable np_gradient : list R -> list R -> result (list R).

(** [relative_sensitivity]: [dy_dx] arrives as a list, and a list times
    a float is a type error. *)
Definition relative_sensitivity (values : list R) (base_y : R)
    (dy_dx : list R) : result (list R) :=
  if Req_dec_T base_y 0 then Ok [0]
  else (_ <- first values ;; Raise TypeError)%py.

Definition _calculate_sensitivity_metrics (values temperatures velocities
    pressure_drops efficiencies : list R) : result Metrics :=
  let calculate_derivative y_values := np_gradient y_values values in
  (temp_derivative <- calculate_derivative temperatures ;;
   vel_derivative <- calculate_derivative velocities ;;
   pressure_derivative <- calculate_derivative pressure_drops ;;
   eff_derivative <- calculate_derivative efficiencies ;;
   t0 <- first temperatures ;;
   temp_rel_sens <- relative_sensitivity values t0 temp_derivative ;;
   v0 <- first velocities ;;
   vel_rel_sens <- relative_sensitivity values v0 vel_derivative ;;
   e0 <- first efficiencies ;;
   eff_rel_sens <- relative_sensitivity values e0 eff_derivative ;;
   max_temp_sens <- py_max (map Rabs temp_rel_sens) ;;
   max_vel_sens <- py_max (map Rabs vel_rel_sens) ;;
   max_eff_sens <- py_max (map Rabs eff_rel_sens) ;;
   r_temp <- range_of temperatures ;;
   r_vel <- range_of velocities ;;
   r_press <- range_of pressure_drops ;;
   r_eff <- range_of efficiencies ;;
   Ok {| derivatives := (temp_derivative, vel_derivative,
                         pressure_derivative, eff_derivative);
         relative_sensitivity_lists :=
           (temp_rel_sens, vel_rel_sens, eff_rel_sens);
         maximum_sensitivity := (max_temp_sens, max_vel_sens, max_eff_sens);
         ranges := (r_temp, r_vel, r_press, r_eff) |})%py.

Definition analyze_parameter (parameter_name : string) (range_percent : R)
    (num_points : Z) : M ParameterAnalysis :=
  base <- self_getattr parameter_name ;;
  base_value <- lift (as_float base) ;;
  let min_val := base_value * (1 - range_percent / 100) in
  let max_val := base_value * (1 + range_percent / 100) in
  values <- lift (linspace min_val max_val num_points) ;;
  r <- sensitivity_analysis calculator_calculate_all parameter_name values ;;
  sensitivity_metrics <-
    lift (_calculate_sensitivity_metrics values
            (results.temperatures r) (results.velocities r)
            (results.pressure_drops r) (results.efficiencies r)) ;;
  ret {| parameter := parameter_name;
         base_value := base_value;
         unit_ := _get_parameter_unit parameter_name;
         values := values;
         sweep := r;
         metrics := sensitivity_metrics |}.

(** The score of a result under an objective. *)
Definition objective_score (objective : string) (r : results.CombustionResults)
  : R :=
  if String.eqb objective "efficiency" then results.real_efficiency r
  else if String.eqb objective "temperature"
       then - Rabs (results.outlet_gas_temp r - 1273)
  else if String.eqb objective "velocity"
       then - Rabs (results.gas_velocity r - 15)
  else results.real_efficiency r.

(** The checks under "Verificar restricciones". *)
Definition satisfies (constraints : dict R) (r : results.CombustionResults)
  : bool :=
  let valid := true in
  let valid :=
    match dict_get constraints "max_velocity" with
    | Some bound =>
        if Rlt_dec bound (results.gas_velocity r) then false else valid
    | None => valid
    end in
  let valid :=
    match dict_get constraints "min_efficiency" with
    | Some bound =>
        if Rlt_dec (results.real_efficiency r) bound then false else valid
    | None => valid
    end in
  let valid :=
    match dict_get constraints "max_temp" with
    | Some bound =>
        if Rlt_dec bound (results.outlet_gas_temp r) then false else valid
    | None => valid
    end in
  valid.

(** The grid-search loop; the state is [(best_value, best_score)]. *)
Fixpoint optimize_loop (parameter_name objective : string)
    (constraints : dict R) (values : list R) (best : R * xfloat)
  : M (R * xfloat) :=
  match values with
  | [] => ret best
  | value :: rest =>
      self_setattr parameter_name (PyFloat value) ;;
      r <- calculator_calculate_all ;;
      let score := objective_score objective r in
      let valid := satisfies constraints r in
      let best' :=
        if valid && xgt score (snd best) then (value, Fin score) else best in
      optimize_loop parameter_name objective constraints rest best'
  end.

Definition optimize_parameter (parameter_name objective : string)
    (constraints : option (dict R)) : M OptimizationOutcome :=
  let constraints := match constraints with Some c => c | None => [] end in
  base <- self_getattr parameter_name ;;
  let search_range := dict_get_default constraints "range" 50 in
  base_value <- lift (as_float base) ;;
  let min_val :=
    dict_get_default constraints "min"
                     (base_value * (1 - search_range / 100)) in
  let max_val :=
    dict_get_default constraints "max"
                     (base_value * (1 + search_range / 100)) in
  let n_points := 100%Z in
  values <- lift (linspace min_val max_val n_points) ;;
  best <- optimize_loop parameter_name objective constraints values
                        (base_value, NegInf) ;;
  let '(best_value, best_score) := best in
  self_setattr parameter_name (PyFloat base_value) ;;
  self_setattr parameter_name (PyFloat best_value) ;;
  optimal <- calculator_calculate_all ;;
  self_setattr parameter_name (PyFloat base_value) ;;
  base_results <- calculator_calculate_all ;;
  attr <- lift (results.getattr base_results objective) ;;
  base_score <- lift (as_float attr) ;;
  ret {| opt_parameter := parameter_name;
         optimal_value := best_value;
         original_value := base_value;
         improvement := xsub best_score base_score;
         optimal_results := optimal |}.

End Analyzer.

(** An entry of the list built by [_rank_sensitivity]. *)
Record RankEntry : Type := {
  rank_parameter : string;
  sensitivity_index : R;
  max_temp_sens : R;
  max_vel_sens : R;
  max_eff_sens : R
}.

(** [ranking.sort(key=lambda x: x['sensitivity_index'], reverse=True)]:
    Python's sort is stable, also when reversed, so its result is the one
    of a stable insertion sort in descending order of the key. *)
Fixpoint insert_desc (x : RankEntry) (l : list RankEntry) : list RankEntry :=
  match l with
  | [] => [x]
  | y :: l' =>
      if Rlt_dec (sensitivity_index x) (sensitivity_index y)
      then y :: insert_desc x l'
      else x :: l
  end.

Definition sort_desc (l : list RankEntry) : list RankEntry :=
  fold_right insert_desc [] l.

Definition rank_entry (param : string) (data : ParameterAnalysis)
  : RankEntry :=
  let '(max_temp_sens, max_vel_sens, max_eff_sens) :=
    maximum_sensitivity (metrics data) in
  let sensitivity_index :=
    max_temp_sens * 0.4 + max_vel_sens * 0.3 + max_eff_sens * 0.3 in
  {| rank_parameter := param;
     sensitivity_index := sensitivity_index;
     max_temp_sens := max_temp_sens;
     max_vel_sens := max_vel_sens;
     max_eff_sens := max_eff_sens |}.

Definition _rank_sensitivity (analysis_results : dict ParameterAnalysis)
  : list RankEntry :=
  let ranking := map (fun kv => rank_entry (fst kv) (snd kv))
                     analysis_results in
  sort_desc ranking.

Section Recommendations.

(** The text of [f"{sens:.1f}"]; the formatting of a float is left
    abstract. *)
Variable format_1f : R -> string.

(** What one pass of the loop of [_generate_recommendations] appends. *)
Definition recommendation_for (item : RankEntry) : list string :=
  let param := rank_parameter item in
  let sens := sensitivity_index item in
  if String.eqb param "excess_air" then
    if Rlt_dec 20 sens then
      [ ("El aire en exceso es ALTAMENTE sensible (" ++ format_1f sens
         ++ "%). "
         ++ "Considere control preciso de la relación aire-combustible."
        )%string ]
    else if Rlt_dec 10 sens then
      [ ("El aire en exceso es moderadamente sensible (" ++ format_1f sens
         ++ "%). "
         ++ "Mantenga control estadístico del proceso.")%string ]
    else []
  else if String.eqb param "furnace_efficiency" then
    if Rlt_dec 15 sens then
      [ ("La eficiencia del horno impacta significativamente ("
         ++ format_1f sens ++ "%). "
         ++ "Programar mantenimiento preventivo regular.")%string ]
    else []
  else if String.eqb param "moisture" then
    if Rlt_dec 25 sens then
      [ ("La humedad del combustible es CRÍTICA (" ++ format_1f sens
         ++ "%). "
         ++ "Implementar sistema de secado o control de calidad.")%string ]
    else []
  else if String.eqb param "flow_rate" then
    if Rlt_dec 30 sens then
      [ ("El flujo de biomasa es muy sensible (" ++ format_1f sens
         ++ "%). "
         ++ "Instalar medidores de flujo calibrados y control PID."
        )%string ]
    else []
  else [].

Definition stable_recommendation : string :=
  ("El sistema muestra buena estabilidad. "
   ++ "Mantener condiciones operativas actuales.")%string.

Definition _generate_recommendations
    (analysis_results : dict ParameterAnalysis) : list string :=
  let ranking := _rank_sensitivity analysis_results in
  let recommendations := flat_map recommendation_for (firstn 3 ranking) in
  match recommendations with
  | [] => [stable_recommendation]
  | _ => recommendations
  end.

(** The dictionary returned by [multi_param_analysis]. *)
Record MultiAnalysis : Type := {
  individual_analysis : dict ParameterAnalysis;
  sensitivity_ranking : list RankEntry;
  recommendations : list string
}.

Variable calculator_calculate_all : M results.CombustionResults.
Variable np_gradient : list R -> list R -> result (list R).

(** The loop [for param in parameters] that fills [analysis_results]. *)
Fixpoint multi_param_loop (parameters : list string) (range_percent : R)
    (analysis_results : dict ParameterAnalysis)
  : M (dict ParameterAnalysis) :=
  match parameters with
  | [] => ret analysis_results
  | param :: rest =>
      a <- analyze_parameter calculator_calculate_all np_gradient
             param range_percent 15 ;;
      multi_param_loop rest range_percent (dict_set analysis_results param a)
  end.

Definition multi_param_analysis (parameters : list string)
    (range_percent : R) : M MultiAnalysis :=
  analysis_results <- multi_param_loop parameters range_percent [] ;;
  let sensitivity_ranking := _rank_sensitivity analysis_results in
  ret {| individual_analysis := analysis_results;
         sensitivity_ranking := sensitivity_ranking;
         recommendations := _generate_recommendations analysis_results |}.

End Recommendations.

End sensitivity.

(* ------------------------------------------------------------------ *)
(** ** services/atmospheric.py *)
(* ------------------------------------------------------------------ *)

(** The class methods of [AtmosphericCalculator] that compute; the
    report text ([generate_atmospheric_report]) and the sorted listing
    ([get_all_cities]) are not modelled. *)

Module atmospheric.
Import constants equations.
Open Scope string_scope.

Definition CITIES_DATABASE : dict (dict R) :=
  [ ("Bogotá", [ ("altitude", 2640); ("avg_temp", 15);
                 ("avg_humidity", 75); ("pressure", 746);
                 ("air_density", 1.00) ]);
    ("Medellín", [ ("altitude", 1475); ("avg_temp", 22);
                   ("avg_humidity", 70); ("pressure", 845);
                   ("air_density", 1.05) ]);
    ("Cali", [ ("altitude", 1018); ("avg_temp", 24);
               ("avg_humidity", 80); ("pressure", 890);
               ("air_density", 1.08) ]);
    ("Barranquilla", [ ("altitude", 30); ("avg_temp", 28);
                       ("avg_humidity", 85); ("pressure", 1010);
                       ("air_density", 1.16) ]);
    ("Bucaramanga", [ ("altitude", 959); ("avg_temp", 23);
                      ("avg_humidity", 75); ("pressure", 895);
                      ("air_density", 1.09) ]);
    ("Pereira", [ ("altitude", 1467); ("avg_temp", 21);
                  ("avg_humidity", 77); ("pressure", 846);
                  ("air_density", 1.06) ]);
    ("Manizales", [ ("altitude", 2150); ("avg_temp", 17);
                    ("avg_humidity", 78); ("pressure", 780);
                    ("air_density", 1.02) ]);
    ("Cúcuta", [ ("altitude", 320); ("avg_temp", 27);
                 ("avg_humidity", 70); ("pressure", 975);
                 ("air_density", 1.12) ]);
    ("Ibagué", [ ("altitude", 1285); ("avg_temp", 21);
                 ("avg_humidity", 73); ("pressure", 865);
                 ("air_density", 1.07) ]);
    ("Villavicencio", [ ("altitude", 467); ("avg_temp", 27);
                        ("avg_humidity", 82); ("pressure", 955);
                        ("air_density", 1.10) ]) ].

Section Cities.

(** [str.title()]; the case mapping of Python strings is left
    abstract. *)
Variable str_title : string -> string.

Definition get_city_conditions (city_name : string) : result (dict R) :=
  let city_name := str_title city_name in
  if dict_mem CITIES_DATABASE city_name
  then getitem CITIES_DATABASE city_name
  else getitem CITIES_DATABASE "Bogotá".

End Cities.

Definition _calculate_oxygen_fraction (altitude : R) : R :=
  let oxygen_sea_level := 0.21 in
  let oxygen_reduction := altitude * 0.000005 in
  let oxygen_fraction := Rmax (oxygen_sea_level - oxygen_reduction) 0.15 in
  oxygen_fraction.

Definition calculate_custom_conditions (altitude temperature
    relative_humidity : R) : result (dict R) :=
  pressure <- pressure_altitude altitude ;;
  let temp_k := temperature + 273.15 in
  let pressure_pa := pressure * 1000 in
  air_density <- fdiv pressure_pa (R_AIR * temp_k) ;;
  abs_humidity <- absolute_humidity relative_humidity temperature pressure ;;
  let air_enthalpy := moist_air_enthalpy temperature abs_humidity in
  vapor_pressure <- saturated_vapor_pressure temperature ;;
  Ok [ ("altitude", altitude);
       ("temperature", temperature);
       ("relative_humidity", relative_humidity);
       ("pressure", pressure);
       ("air_density", air_density);
       ("absolute_humidity", abs_humidity);
       ("air_enthalpy", air_enthalpy);
       ("vapor_pressure", vapor_pressure);
       ("oxygen_fraction", _calculate_oxygen_fraction altitude) ].









Record Validation : Type := {
  is_valid : bool;
  warnings : list string;
  errors : list string
}.

Definition validate_conditions (conditions : dict R) : result Validation :=
  let errors := [] in
  let is_valid := true in
  altitude <- getitem conditions "altitude" ;;
  let out_of_range :=
    if Rlt_dec altitude 0 then true
    else if Rlt_dec 5000 altitude then true else false in
  let errors :=
    if out_of_range
    then (errors ++ ["Altitud fuera de rango (0-5000 m)"])%list
    else errors in
  let is_valid := if out_of_range then false else is_valid in
  temperature <- getitem conditions "temperature" ;;
  let out_of_range :=
    if Rlt_dec temperature (-20) then true
    else if Rlt_dec 50 temperature then true else false in
  let errors :=
    if out_of_range
    then (errors ++ ["Temperatura fuera de rango (-20 a 50°C)"])%list
    else errors in
  let is_valid := if out_of_range then false else is_valid in
  relative_humidity <- getitem conditions "relative_humidity" ;;
  let out_of_range :=
    if Rlt_dec relative_humidity 0 then true
    else if Rlt_dec 100 relative_humidity then true else false in
  let errors :=
    if out_of_range
    then (errors ++ ["Humedad relativa debe estar entre 0 y 100%"])%list
    else errors in
  let is_valid := if out_of_range then false else is_valid in
  let warnings := [] in
  altitude <- getitem conditions "altitude" ;;
  let warnings :=
    if Rlt_dec 3000 altitude
    then (warnings ++
          ["Altitud elevada puede requerir ajustes significativos"])%list
    else warnings in
  relative_humidity <- getitem conditions "relative_humidity" ;;
  let warnings :=
    if Rlt_dec 90 relative_humidity
    then (warnings ++
          ["Alta humedad puede afectar eficiencia de combustión"])%list
    else warnings in
  pressure <- getitem conditions "pressure" ;;
  let warnings :=
    if Rlt_dec pressure 70
    then (warnings ++ ["Baja presión atmosférica detectada"])%list
    else warnings in
  Ok {| is_valid := is_valid; warnings := warnings; errors := errors |}.

End atmospheric.

(* ------------------------------------------------------------------ *)
(** ** main.py *)
(* ------------------------------------------------------------------ *)

(** The validation helper and the three endpoints that run the
    calculator.  An endpoint either returns a value or raises
    [HTTPException(status_code, detail)]; the detail text is not kept.  *)

Module main.
Import biomass combustion sensitivity.
Open Scope string_scope.

(** What the body of an endpoint can raise: an [HTTPException] of its
    own, or any other exception. *)
Inductive raised : Type :=
| HTTPException (status_code : Z)
| Other (e : exn).

Inductive outcome (A : Type) : Type :=
| Returns (a : A)
| Raises (r : raised).
Arguments Returns {A} a.
Arguments Raises {A} r.

(** [try: body  except Exception as e: raise HTTPException(code, ...)]:
    the handler catches every exception, [HTTPException] included. *)
Definition try_except {A} (body : outcome A) (status_code : Z) : outcome A :=
  match body with
  | Returns a => Returns a
  | Raises _ => Raises (HTTPException status_code)
  end.

(** The result of a method call on a calculator, as seen by the
    endpoint. *)
Definition call {A} (m : M A) (self : Calculator) : outcome A :=
  match fst (m self) with
  | Ok a => Returns a
  | Raise e => Raises (Other e)
  end.

Record ValidationResult : Type := {
  valid : bool;
  error : option string
}.

Section Validation.

(** The text of [f"{composition_sum:.2f}"]. *)
Variable format_2f : R -> string.

Definition _validate_input (input_data : BiomassInput) : ValidationResult :=
  let composition_sum :=
    carbon input_data + hydrogen input_data + oxygen input_data
    + nitrogen input_data + sulfur input_data + ash input_data in
  if Rlt_dec 0.5 (Rabs (composition_sum - 100)) then
    {| valid := false;
       error := Some ("La composición en base seca debe sumar 100%. Actual: "
                      ++ format_2f composition_sum ++ "%") |}
  else if Rlt_dec 60 (moisture input_data) then
    {| valid := false;
       error := Some "La humedad no puede superar el 60%" |}
  else if Rlt_dec 100 (furnace_efficiency input_data) then
    {| valid := false;
       error := Some "La eficiencia debe estar entre 10% y 100%" |}
  else if Rlt_dec (furnace_efficiency input_data) 10 then
    {| valid := false;
       error := Some "La eficiencia debe estar entre 10% y 100%" |}
  else {| valid := true; error := None |}.

Variable fsolve : (R -> result R) -> R -> result R.
Variable np_gradient : list R -> list R -> result (list R).

(** [POST /api/calculate] *)
Definition calculate_combustion (input_data : BiomassInput)
  : outcome results.CombustionResults :=
  try_except
    (let validation_result := _validate_input input_data in
     if negb (valid validation_result)
     then Raises (HTTPException 400)
     else
       let calculator := __init__ input_data in
       call (calculate_all fsolve) calculator)
    500.

(** [BiomassInput()]: three fields are required, so the construction
    without arguments is refused with a validation error (a
    [ValueError]). *)
Definition BiomassInput_without_arguments : outcome BiomassInput :=
  Raises (Other ValueError).

Definition valid_params : list string :=
  [ "flow_rate"; "excess_air"; "furnace_efficiency";
    "moisture"; "carbon"; "hydrogen"; "oxygen";
    "duct_diameter"; "reported_PCI" ].

(** The rest of a body once [input_data] is known. *)
Definition with_input {A} (input_data : option BiomassInput)
    (k : BiomassInput -> outcome A) : outcome A :=
  match input_data with
  | Some i => k i
  | None =>
      match BiomassInput_without_arguments with
      | Returns i => k i
      | Raises r => Raises r
      end
  end.

(** [POST /api/sensitivity] *)
Definition sensitivity_analysis (parameter : string) (range_percent : R)
    (num_points : Z) (input_data : option BiomassInput)
  : outcome ParameterAnalysis :=
  try_except
    (with_input input_data (fun input_data =>
       if negb (existsb (String.eqb parameter) valid_params)
       then Raises (HTTPException 400)
       else
         let analyzer := __init__ input_data in
         call (analyze_parameter (calculate_all fsolve) np_gradient
                 parameter range_percent num_points) analyzer))
    500.

(** The text of [f"{sens:.1f}"], as in [sensitivity]. *)
Variable format_1f : R -> string.

(** [POST /api/multi-sensitivity] *)
Definition multi_parameter_sensitivity (parameters : list string)
    (range_percent : R) (input_data : option BiomassInput)
  : outcome MultiAnalysis :=
  try_except
    (with_input input_data (fun input_data =>
       let analyzer := __init__ input_data in
       call (multi_param_analysis format_1f (calculate_all fsolve)
               np_gradient parameters range_percent) analyzer))
    500.

(** [POST /api/optimize] *)
Definition optimize_parameter (parameter objective : string)
    (constraints : option (dict R)) (input_data : option BiomassInput)
  : outcome OptimizationOutcome :=
  try_except
    (with_input input_data (fun input_data =>
       let analyzer := __init__ input_data in
       call (sensitivity.optimize_parameter (calculate_all fsolve)
               parameter objective
               (Some (match constraints with Some c => c | None => [] end)))
            analyzer))
    500.

(** [str.title()], as in [atmospheric]. *)
Variable str_title : string -> string.

(** [GET /api/city/{city_name}]; [not conditions] holds of the empty
    dictionary. *)
Definition get_city_conditions (city_name : string) : outcome (dict R) :=
  match atmospheric.get_city_conditions str_title city_name with
  | Raise e => Raises (Other e)
  | Ok conditions =>
      match conditions with
      | [] => Raises (HTTPException 404)
      | _ :: _ => Returns conditions
      end
  end.

(** [POST /api/atmospheric-custom] *)
Definition calculate_atmospheric_conditions (altitude temperature
    relative_humidity : R) : outcome (dict R * atmospheric.Validation) :=
  try_except
    (match atmospheric.calculate_custom_conditions
             altitude temperature relative_humidity with
     | Raise e => Raises (Other e)
     | Ok conditions =>
         match atmospheric.validate_conditions conditions with
         | Raise e => Raises (Other e)
         | Ok validation =>
             if negb (atmospheric.is_valid validation)
             then Raises (HTTPException 400)
             else Returns (conditions, validation)
         end
     end)
    500.

End Validation.

End main.

(* ------------------------------------------------------------------ *)
(** ** Definitions used to state the properties *)
(* ------------------------------------------------------------------ *)

Import constants equations biomass combustion sensitivity.
Open Scope string_scope.

(** Base-10 logarithm of a positive real. *)
Definition log10 (x : R) : R := ln x / ln 10.

(** The troposphere law as the specification words it:
    [P0 * (1 - L*h/T0) ^ (g*M / (R*L))]. *)
Definition standard_troposphere_pressure (h : R) : R :=
  101.325 * Rpower (1 - 0.0065 * h / 288.15)
                   (9.81 * 0.02896 / (8.314 * 0.0065)).

(** The Dulong formulas on given (normalized) fractions. *)
Definition dulong_PCS (C H O S : R) : R :=
  338.2 * C + 1442.8 * (H - O / 8) + 94.2 * S.

Definition dulong_PCI (C H O S moisture : R) : R :=
  dulong_PCS C H O S - 2442 * (9 * H + moisture) / 100.

Definition dulong_formulas (C H O S moisture : R) : dict R :=
  [ ("PCS", dulong_PCS C H O S);
    ("PCI", dulong_PCI C H O S moisture);
    ("water_from_combustion", 9 * H + moisture) ].

(** The update of the friction-factor loop as a function on reals, and
    the estimates it generates from the seed. *)
Definition colebrook_map (Re D eps f : R) : R :=
  1 / (-2 * log10 (eps / D + 3.7 * Re * sqrt f)) ^ 2.

Definition colebrook_estimate (Re D eps : R) (k : nat) : R :=
  Nat.iter k (colebrook_map Re D eps) 0.02.

(** The relation that the docstring of [colebrook_friction_factor]
    names, the Colebrook-White equation
    [1 / sqrt f = -2 log10 (eps / (3.7 D) + 2.51 / (Re sqrt f))]: the
    update of the fixed-point iteration on it, and the estimates it
    generates from the seed.  These two definitions follow the equation,
    not the code. *)
Definition colebrook_white_map (Re D eps f : R) : R :=
  1 / (-2 * log10 (eps / (3.7 * D) + 2.51 / (Re * sqrt f))) ^ 2.

Definition colebrook_white_estimate (Re D eps : R) (k : nat) : R :=
  Nat.iter k (colebrook_white_map Re D eps) 0.02.

(** A band that holds every Colebrook-White estimate after the seed at
    [Re = 2300] in the reference duct. *)
Definition white_band (f : R) : Prop := 1 / 25 <= f <= 1 / 16.

(** An invariant of the estimates in the turbulent branch. *)
Definition turbulent_inv (Re D eps f : R) : Prop :=
  0 < f /\ (eps / D < 1 -> 10 <= 3.7 * Re * sqrt f /\ sqrt f <= 1 / 2).

(** A band that holds every estimate at [Re = 2300] in the reference
    duct. *)
Definition band (f : R) : Prop := 1 / 64 < f < 1 / 36.

(** The sum that decides whether an input is renormalized. *)
Definition fuel_total (i : BiomassInput) : R :=
  carbon i + hydrogen i + oxygen i + sulfur i + ash i.

(** The ambient conditions of the reference case. *)
Definition reference_ambient (i : BiomassInput) : Prop :=
  altitude i = 2640 /\ relative_humidity i = 75 /\ dry_bulb_temp i = 15.

(** The keys of [self.results] that [_compile_results] reads as floats,
    and a store that holds them all. *)
Definition compiled_keys : list string :=
  [ "CO2_mass"; "H2O_mass"; "O2_excess"; "N2_mass"; "SO2_mass";
    "PCS"; "PCI_calculated"; "air_density"; "absolute_humidity";
    "air_enthalpy"; "theoretical_air"; "real_air"; "total_gas_mass";
    "total_energy"; "useful_energy"; "adiabatic_temp"; "outlet_temp";
    "chimney_losses"; "real_efficiency"; "gas_density"; "volumetric_flow";
    "duct_area"; "gas_velocity"; "reynolds"; "friction_factor";
    "pressure_drop"; "thermal_resistance"; "heat_transfer_coefficient";
    "heat_loss_per_meter"; "external_wall_temp"; "refractory_gradient";
    "insulation_efficiency"; "co2_emission_factor"; "co2_concentration_dry";
    "volumetric_heating_value"; "flow_rate_kg_s"; "mass_flow_gases" ].

Definition holds_float (d : dict value) (k : string) : bool :=
  match dict_get d k with Some (PyFloat _) => true | _ => false end.

Definition holds_dict (d : dict value) (k : string) : bool :=
  match dict_get d k with Some (PyDict _) => true | _ => false end.

Definition complete_results (d : dict value) : bool :=
  forallb (holds_float d) compiled_keys && holds_dict d "composition_wet".

(** Total moles of the five product species (masses over molar masses). *)
Definition product_moles (CO2 H2O O2 N2 SO2 : R) : R :=
  CO2 / 44.01 + H2O / 18.015 + O2 / 31.999 + N2 / 28.014 + SO2 / 64.066.

Definition fraction_sum (r : results.CombustionResults) : R :=
  results.co2_fraction_vol r + results.h2o_fraction_vol r
  + results.so2_fraction_vol r + results.o2_fraction_vol r
  + results.n2_fraction_vol r.

(** The names of the fields of [BiomassInput], in declaration order. *)
Definition field_names : list string :=
  [ "project_code"; "document_code"; "analyst"; "city"; "altitude";
    "relative_humidity"; "dry_bulb_temp"; "biomass_type"; "reported_pci";
    "furnace_efficiency"; "excess_air"; "duct_diameter"; "carbon";
    "hydrogen"; "oxygen"; "nitrogen"; "sulfur"; "ash"; "moisture";
    "flow_rate" ].

(** The objectives that [optimize_parameter] documents. *)
Definition objectives : list string :=
  [ "efficiency"; "temperature"; "velocity" ].

(** Sample data: a calculator whose store is complete, and a result. *)
Definition sample_store : dict value :=
  ([ ("CO2_mass", PyFloat 1.2); ("H2O_mass", PyFloat 0.6);
     ("O2_excess", PyFloat 0.3); ("N2_mass", PyFloat 5.1);
     ("SO2_mass", PyFloat 0.001) ]
   ++ map (fun k => (k, PyFloat 1)) compiled_keys
   ++ [ ("composition_wet", PyDict [("C", 32.6)]) ])%list.

(** The input of [test_complete_calculation] in
    [tests/test_combustion.py]: the reference case under the names of
    the test. *)
Definition test_complete_input : BiomassInput := {|
  project_code := PyStr "TEST-BAGAZO";
  document_code := PyStr "DML-TEST";
  analyst := PyStr "Engineer Test";
  city := PyStr "Bogotá";
  altitude := 2640;
  relative_humidity := 75;
  dry_bulb_temp := 15;
  biomass_type := PyStr "Bagazo de caña";
  reported_pci := 11367;
  furnace_efficiency := 90;
  excess_air := 30;
  duct_diameter := 30;
  carbon := 50.29;
  hydrogen := 5.82;
  oxygen := 42.94;
  nitrogen := 0.22;
  sulfur := 0.08;
  ash := 0.66;
  moisture := 35.09;
  flow_rate := 3000
|}.

Definition sample_calculator : Calculator :=
  {| input := reference_input; results := sample_store |}.

Definition empty_store_calculator : Calculator :=
  {| input := reference_input;
     results := map (fun k => (k, PyFloat 0)) compiled_keys
                ++ [ ("composition_wet", PyDict []) ] |}%list.

Definition sample_result : results.CombustionResults :=
  {| results.pcs := 18000; results.pci_calculated := 16000;
     results.composition_wet_base := [("C", 32.6)];
     results.air_density := 1; results.absolute_humidity := 0.01;
     results.air_enthalpy := 40; results.theoretical_air := 6;
     results.real_air := 7.8; results.excess_air_percentage := 30;
     results.co2 := 1.2; results.h2o := 0.6; results.so2 := 0.001;
     results.o2_excess := 0.3; results.n2 := 5.1;
     results.total_gas_mass := 7.201;
     results.co2_fraction_vol := 10; results.h2o_fraction_vol := 13;
     results.so2_fraction_vol := 0; results.o2_fraction_vol := 4;
     results.n2_fraction_vol := 73;
     results.total_energy_released := 9000; results.useful_energy := 8100;
     results.adiabatic_flame_temp := 1800; results.outlet_gas_temp := 900;
     results.chimney_losses := 900; results.real_efficiency := 90;
     results.gas_density := 0.7; results.volumetric_flow := 10;
     results.duct_area := 0.456; results.gas_velocity := 22;
     results.reynolds_number := 600000; results.friction_factor := 0.02;
     results.pressure_drop := 4; results.thermal_resistance := 0.1;
     results.heat_transfer_coefficient := 10;
     results.heat_loss_per_meter := 8000; results.external_wall_temp := 60;
     results.refractory_gradient := 700; results.insulation_efficiency := 60;
     results.co2_emission_factor := 1.2; results.co2_concentration_dry := 18;
     results.volumetric_heating_value := 19200000;
     results.flow_rate_kg_s := 833; results.mass_flow_gases := 7300 |}.

(** A calculator method that always returns [sample_result]. *)
Definition constant_calculator : M results.CombustionResults :=
  fun self => (Ok sample_result, self).

(** A method that leaves [self.input] as it found it, whatever it
    returns or raises. *)
Definition preserves_input {A} (m : M A) : Prop :=
  forall self, input (snd (m self)) = input self.

(** The exponent [A - B / (C + T)] of the Antoine equation, with the
    constants of [ANTOINE_WATER]. *)
Definition antoine_exponent (T : R) : R :=
  8.07131 - 1730.63 / (233.426 + T).

(** The partial pressure of water vapour in kPa that
    [absolute_humidity] subtracts from the atmospheric pressure. *)
Definition vapor_pressure_kPa (relative_humidity T : R) : R :=
  relative_humidity / 100 * Rpower 10 (8.07131 - 1730.63 / (233.426 + T))
  * 0.133322.

(** The sum of the values of a dictionary of floats. *)
Definition sum_values (d : dict R) : R :=
  fold_right (fun kv acc => snd kv + acc) 0 d.

(** The sum of the six dry-basis fractions that [_validate_input]
    checks. *)
Definition six_sum (i : BiomassInput) : R :=
  carbon i + hydrogen i + oxygen i + nitrogen i + sulfur i + ash i.

(** Total moles and total mass of the species of a composition that
    [GAS_PROPERTIES] knows, and their mean molar mass in kg/mol. *)
Fixpoint known_totals (items : dict R) : R * R :=
  match items with
  | [] => (0, 0)
  | (gas, mass_kg) :: rest =>
      let '(moles, mass) := known_totals rest in
      match dict_get GAS_PROPERTIES gas with
      | Some props =>
          match dict_get props "molar_mass" with
          | Some molar_mass => (mass_kg / (molar_mass / 1000) + moles,
                                mass_kg + mass)
          | None => (moles, mass)
          end
      | None => (moles, mass)
      end
  end.

Definition mean_molar_mass (composition : dict R) : R :=
  let '(moles, mass) := known_totals composition in
  if Rlt_dec 0 moles then mass / moles else 0.

(** A composition with every mass multiplied by [k]. *)
Definition scale_composition (k : R) (composition : dict R) : dict R :=
  map (fun item => (fst item, k * snd item)) composition.

(** The heat capacity of the products per kelvin, as [energy_balance]
    weighs the five masses. *)
Definition heat_capacity_sum (CO2 H2O O2 N2 SO2 : R) : R :=
  0.844 * CO2 + 1.86 * H2O + 0.918 * O2 + 1.04 * N2 + 0.64 * SO2.

(** The three thermal resistances of [_calculate_heat_transfer] for a
    duct of inner diameter [D] in metres, and their sum. *)
Definition R_convection_int (D : R) : R := 1 / (50 * PI * D).

Definition R_conduction (D : R) : R :=
  ln ((D / 2 + 0.15) / (D / 2)) / (2 * PI * 0.5).

Definition R_convection_ext (D : R) : R := 1 / (10 * PI * (D + 2 * 0.15)).

Definition thermal_resistance (D : R) : R :=
  R_convection_int D + R_conduction D + R_convection_ext D.



(** An input within the declared bounds whose dry matter is nitrogen
    only. *)
Definition nitrogen_only_input : BiomassInput := {|
  project_code := PyStr "BIO-2024-001";
  document_code := PyStr "DML-TECH-001";
  analyst := PyStr "Ing. Juan Pérez";
  city := PyStr "Bogotá";
  altitude := 2640;
  relative_humidity := 75;
  dry_bulb_temp := 15;
  biomass_type := PyStr "Bagazo de caña";
  reported_pci := 11367;
  furnace_efficiency := 90;
  excess_air := 30;
  duct_diameter := 30;
  carbon := 0;
  hydrogen := 0;
  oxygen := 0;
  nitrogen := 100;
  sulfur := 0;
  ash := 0;
  moisture := 35.09;
  flow_rate := 3000
|}.

(** Sample data: a calculator as the stages before the fluid dynamics
    would leave it, a composition of flue gases, ambient conditions, and
    a gradient that returns its first argument. *)
Definition flue_calculator : Calculator :=
  {| input := reference_input;
     results :=
       [ ("outlet_temp", PyFloat 900); ("atmospheric_pressure", PyFloat 75);
         ("CO2_mass", PyFloat 1.2); ("H2O_mass", PyFloat 0.6);
         ("SO2_mass", PyFloat 0.001); ("O2_excess", PyFloat 0.3);
         ("N2_mass", PyFloat 5.1); ("mass_flow_gases", PyFloat 7300) ] |}.

Definition sample_composition : dict R :=
  [ ("CO2", 1.2); ("H2O", 0.6); ("N2", 5.1); ("Ar", 0.1) ].

Definition sample_conditions : dict R :=
  [ ("altitude", 2640); ("temperature", 15); ("relative_humidity", 75);
    ("pressure", 74.6) ].

Definition identity_gradient (y x : list R) : result (list R) := Ok y.

(* ------------------------------------------------------------------ *)
(** ** Basic facts about the run time *)
(* ------------------------------------------------------------------ *)

Lemma fdiv_ok x y : y <> 0 -> fdiv x y = Ok (x / y).
Proof.
  intros H. unfold fdiv.
  destruct (Req_dec_T y 0); [contradiction | reflexivity].
Qed.

Lemma fdiv_zero x : fdiv x 0 = Raise ZeroDivisionError.
Proof.
  unfold fdiv. destruct (Req_dec_T 0 0); [reflexivity | contradiction].
Qed.

(** The range of the floats between powers of ten. *)
Lemma DBL_OVERFLOW_lower : 10 ^ 308 < DBL_OVERFLOW.
Proof.
  unfold DBL_OVERFLOW. rewrite !pow_IZR, <- minus_IZR. apply IZR_lt.
  vm_compute. reflexivity.
Qed.

Lemma DBL_OVERFLOW_upper : DBL_OVERFLOW <= 10 ^ 309.
Proof.
  unfold DBL_OVERFLOW. rewrite !pow_IZR, <- minus_IZR. apply IZR_le.
  vm_compute. discriminate.
Qed.

Lemma DBL_UNDERFLOW_upper : DBL_UNDERFLOW < / 10 ^ 323.
Proof.
  unfold DBL_UNDERFLOW. apply Rinv_lt_contravar.
  - apply Rmult_lt_0_compat; apply pow_lt; lra.
  - rewrite !pow_IZR. apply IZR_lt. vm_compute. reflexivity.
Qed.

Lemma DBL_UNDERFLOW_lower : / 10 ^ 324 <= DBL_UNDERFLOW.
Proof.
  unfold DBL_UNDERFLOW. apply Rinv_le_contravar.
  - apply pow_lt; lra.
  - rewrite !pow_IZR. apply IZR_le. vm_compute. discriminate.
Qed.

(** [3^118 < 2^1075]: the exponential of -118 is a float. *)
Lemma DBL_UNDERFLOW_pow3 : DBL_UNDERFLOW < / 3 ^ 118.
Proof.
  unfold DBL_UNDERFLOW. apply Rinv_lt_contravar.
  - apply Rmult_lt_0_compat; apply pow_lt; lra.
  - rewrite !pow_IZR. apply IZR_lt. vm_compute. reflexivity.
Qed.


Opaque DBL_OVERFLOW DBL_UNDERFLOW.

Lemma DBL_UNDERFLOW_small : DBL_UNDERFLOW < 1 / 1000000000000.
Proof.
  eapply Rlt_le_trans; [apply DBL_UNDERFLOW_upper|].
  unfold Rdiv. rewrite Rmult_1_l. apply Rinv_le_contravar; [lra|].
  replace 1000000000000 with (10 ^ 12) by lra.
  apply Rle_pow; [lra | lia].
Qed.

Lemma DBL_OVERFLOW_big : 1000000000000 < DBL_OVERFLOW.
Proof.
  eapply Rle_lt_trans; [|apply DBL_OVERFLOW_lower].
  replace 1000000000000 with (10 ^ 12) by lra.
  apply Rle_pow; [lra | lia].
Qed.

Lemma float_range_ok r :
  DBL_UNDERFLOW < r -> r < DBL_OVERFLOW -> float_range r = Ok r.
Proof.
  intros Hlo Hhi. unfold float_range.
  destruct (Rle_dec DBL_OVERFLOW r); [lra|].
  destruct (Rle_dec r DBL_UNDERFLOW); [lra | reflexivity].
Qed.

Lemma float_range_overflow r :
  DBL_OVERFLOW <= r -> float_range r = Raise OverflowError.
Proof.
  intros H. unfold float_range.
  destruct (Rle_dec DBL_OVERFLOW r); [reflexivity | contradiction].
Qed.

Lemma float_range_underflow r : r <= DBL_UNDERFLOW -> float_range r = Ok 0.
Proof.
  intros H. unfold float_range.
  pose proof DBL_UNDERFLOW_small. pose proof DBL_OVERFLOW_big.
  destruct (Rle_dec DBL_OVERFLOW r); [lra|].
  destruct (Rle_dec r DBL_UNDERFLOW); [reflexivity | contradiction].
Qed.

(** A result that does not overflow is returned, as itself or as 0. *)
Lemma float_range_below r :
  0 < r -> r < DBL_OVERFLOW ->
  exists q, float_range r = Ok q /\ 0 <= q <= r /\ (q = 0 \/ q = r).
Proof.
  intros Hr Hhi. unfold float_range.
  destruct (Rle_dec DBL_OVERFLOW r); [lra|].
  destruct (Rle_dec r DBL_UNDERFLOW).
  - exists 0. split; [reflexivity|]. split; [lra | left; reflexivity].
  - exists r. split; [reflexivity|]. split; [lra | right; reflexivity].
Qed.

Lemma math_pow_pos x y : 0 < x -> math_pow x y = float_range (Rpower x y).
Proof.
  intros H. unfold math_pow.
  destruct (Rlt_dec 0 x); [reflexivity | contradiction].
Qed.

Lemma math_pow_in_range x y :
  0 < x -> DBL_UNDERFLOW < Rpower x y -> Rpower x y < DBL_OVERFLOW ->
  math_pow x y = Ok (Rpower x y).
Proof.
  intros H Hlo Hhi. rewrite math_pow_pos by assumption.
  apply float_range_ok; assumption.
Qed.

Lemma Int_part_2 : Int_part 2 = 2%Z.
Proof. symmetry. apply Int_part_spec. lra. Qed.

(** The square of a negative base, as taken in the friction factor. *)
Lemma math_pow_2 x : x < 0 -> math_pow x 2 = Ok (x ^ 2).
Proof.
  intros Hneg. unfold math_pow.
  destruct (Rlt_dec 0 x) as [Hx|Hx]; [lra|].
  destruct (Req_dec_T x 0) as [Hx0|Hx0]; [lra|].
  rewrite Int_part_2.
  destruct (Req_dec_T 2 2); [|lra].
  replace (powerRZ x 2) with (x ^ 2) by (simpl; lra). reflexivity.
Qed.

(** Powers of ten. *)
Lemma Rpower_10_nat n : Rpower 10 (INR n) = 10 ^ n.
Proof. apply Rpower_pow. lra. Qed.

Lemma Rpower_10_le x y : x <= y -> Rpower 10 x <= Rpower 10 y.
Proof. intros H. apply Rle_Rpower; lra. Qed.

Lemma Rpower_10_neg_nat n : Rpower 10 (- INR n) = / 10 ^ n.
Proof. rewrite Rpower_Ropp, Rpower_10_nat. reflexivity. Qed.

(** The exponential against powers of 2 and 3. *)
Lemma exp_le_pow3 n : forall x, x <= INR n -> exp x <= 3 ^ n.
Proof.
  induction n as [|n IH]; intros x Hx.
  - simpl in *. rewrite <- exp_0.
    destruct Hx as [Hx| ->]; [left; apply exp_increasing; exact Hx | right; reflexivity].
  - rewrite S_INR in Hx.
    replace x with (1 + (x - 1)) by lra. rewrite exp_plus.
    assert (H1 : exp (x - 1) <= 3 ^ n) by (apply IH; lra).
    pose proof exp_le_3. pose proof (exp_pos 1). pose proof (exp_pos (x - 1)).
    simpl. nra.
Qed.


Lemma dict_get_set {V} (d : dict V) k v k' :
  dict_get (dict_set d k v) k' =
  if String.eqb k' k then Some v else dict_get d k'.
Proof.
  induction d as [|[k0 v0] d IH]; simpl.
  - reflexivity.
  - destruct (String.eqb_spec k k0) as [->|Hk]; simpl.
    + destruct (String.eqb_spec k' k0); reflexivity.
    + rewrite IH. destruct (String.eqb_spec k' k0) as [->|Hk'].
      * destruct (String.eqb_spec k0 k); [congruence | reflexivity].
      * reflexivity.
Qed.

Lemma bindM_ok {A B} (m : M A) (k : A -> M B) self a self' :
  m self = (Ok a, self') -> bindM m k self = k a self'.
Proof. intros H. unfold bindM. rewrite H. reflexivity. Qed.

Lemma bindM_raise {A B} (m : M A) (k : A -> M B) self e self' :
  m self = (Raise e, self') -> bindM m k self = (Raise e, self').
Proof. intros H. unfold bindM. rewrite H. reflexivity. Qed.

(** Powers of a base below one. *)
Lemma Rpower_lt_1_neg x y : 0 < x < 1 -> y < 0 -> 1 < Rpower x y.
Proof.
  intros [Hx0 Hx1] Hy. unfold Rpower.
  rewrite <- exp_0. apply exp_increasing.
  assert (ln x < 0) by (rewrite <- ln_1; apply ln_increasing; lra).
  nra.
Qed.

Lemma Rpower_lt_1_pos x y : 0 < x < 1 -> 0 < y -> Rpower x y < 1.
Proof.
  intros [Hx0 Hx1] Hy. unfold Rpower.
  rewrite <- exp_0. apply exp_increasing.
  assert (ln x < 0) by (rewrite <- ln_1; apply ln_increasing; lra).
  nra.
Qed.

(** Base-10 logarithms. *)
Lemma ln_10_gt_2 : 2 < ln 10.
Proof.
  rewrite <- (ln_exp 2). apply ln_increasing; [apply exp_pos|].
  replace 2 with (1 + 1) by lra. rewrite exp_plus.
  pose proof exp_le_3. pose proof (exp_pos 1). nra.
Qed.

Lemma log10_increasing x y : 0 < x -> x < y -> log10 x < log10 y.
Proof.
  intros Hx Hxy. unfold log10. pose proof ln_10_gt_2.
  apply Rmult_lt_compat_r; [apply Rinv_0_lt_compat; lra|].
  apply ln_increasing; assumption.
Qed.

Lemma log10_pow n : log10 (10 ^ n) = INR n.
Proof.
  unfold log10. rewrite ln_pow by lra. field. pose proof ln_10_gt_2. lra.
Qed.

Lemma log10_1 : log10 1 = 0.
Proof. unfold log10. rewrite ln_1. lra. Qed.

Lemma log10_1000 : log10 1000 = 3.
Proof. replace 1000 with (10 ^ 3) by lra. rewrite log10_pow. simpl. lra. Qed.

Lemma log10_10000 : log10 10000 = 4.
Proof. replace 10000 with (10 ^ 4) by lra. rewrite log10_pow. simpl. lra. Qed.

(** [1 + b / 2 <= 10 ^ (b / 20)] for the values of [b] met in the
    turbulent branch. *)
Lemma log10_half_bound b : 160 <= b -> log10 (1 + b / 2) <= b / 20.
Proof.
  intros Hb. unfold log10.
  pose proof ln_10_gt_2 as H10.
  apply Rmult_le_reg_r with (ln 10); [lra|].
  replace (ln (1 + b / 2) / ln 10 * ln 10) with (ln (1 + b / 2))
    by (field; lra).
  apply Rle_trans with (b / 10); [|nra].
  rewrite <- (ln_exp (b / 10)).
  assert (Hlt : 1 + b / 2 <= exp (b / 10)).
  { replace (b / 10) with (b / 20 + b / 20) by lra. rewrite exp_plus.
    assert (1 + b / 20 < exp (b / 20)) by (apply exp_ineq1; lra).
    nra. }
  destruct Hlt as [Hlt|Heq].
  - left. apply ln_increasing; lra.
  - right. rewrite Heq. reflexivity.
Qed.

(* ------------------------------------------------------------------ *)
(** ** Barometric pressure *)
(* ------------------------------------------------------------------ *)

Lemma exp_le x y : x <= y -> exp x <= exp y.
Proof.
  intros [H| ->]; [left; apply exp_increasing; exact H | right; reflexivity].
Qed.

Lemma ln_le x y : 0 < x -> x <= y -> ln x <= ln y.
Proof.
  intros Hx [H| ->]; [left; apply ln_increasing; assumption | right; reflexivity].
Qed.

(** A power with an exponent between [-n] and 0, of a base between [a]
    and [b]. *)
Lemma Rpower_upper r e a n :
  0 < a <= 1 -> a <= r -> - INR n <= e <= 0 -> Rpower r e <= / a ^ n.
Proof.
  intros [Ha0 Ha1] Hr [He1 He0].
  rewrite <- Rpower_pow, <- Rpower_Ropp by assumption.
  unfold Rpower. apply exp_le.
  assert (Hla : ln a <= 0) by (rewrite <- ln_1; apply ln_le; lra).
  assert (Hlr : ln a <= ln r) by (apply ln_le; lra).
  destruct (Rle_dec 0 (ln r)); nra.
Qed.

Lemma Rpower_lower r e b n :
  1 <= b -> 0 < r <= b -> - INR n <= e <= 0 -> / b ^ n <= Rpower r e.
Proof.
  intros Hb [Hr0 Hr1] [He1 He0].
  rewrite <- Rpower_pow, <- Rpower_Ropp by lra.
  unfold Rpower. apply exp_le.
  assert (Hlb : 0 <= ln b) by (rewrite <- ln_1; apply ln_le; lra).
  assert (Hlr : ln r <= ln b) by (apply ln_le; lra).
  destruct (Rle_dec 0 (ln r)); nra.
Qed.

Lemma troposphere_exponent :
  - INR 6 <= - (9.81 * 0.02896) / (8.314 * 0.0065) <= 0.
Proof. simpl. lra. Qed.

(** Below 11000 m the power never overflows: its base is above 3/4. *)
Lemma troposphere_power_upper h :
  h < 11000 ->
  Rpower (1 - 0.0065 * h / 288.15) (- (9.81 * 0.02896) / (8.314 * 0.0065))
  <= 6.
Proof.
  intros Hh.
  eapply Rle_trans;
    [apply (Rpower_upper _ _ (3 / 4) 6); [lra | lra | apply troposphere_exponent]|].
  apply Rmult_le_reg_r with ((3 / 4) ^ 6); [apply pow_lt; lra|].
  rewrite Rinv_l by (apply pow_nonzero; lra). lra.
Qed.

(** Down to 1000 km below the sea level it does not underflow. *)
Lemma troposphere_power_lower h :
  -1000000 <= h < 11000 ->
  / 24 ^ 6 <=
  Rpower (1 - 0.0065 * h / 288.15) (- (9.81 * 0.02896) / (8.314 * 0.0065)).
Proof.
  intros Hh.
  apply (Rpower_lower _ _ 24 6); [lra | lra | apply troposphere_exponent].
Qed.

Lemma pressure_altitude_troposphere h :
  -1000000 <= h < 11000 ->
  pressure_altitude h =
  Ok (101.325 * Rpower (1 - 0.0065 * h / 288.15)
                       (- (9.81 * 0.02896) / (8.314 * 0.0065))).
Proof.
  intros Hh. unfold pressure_altitude.
  destruct (Rlt_dec h 11000); [| lra].
  pose proof (troposphere_power_upper h (proj2 Hh)).
  pose proof (troposphere_power_lower h Hh) as Hlo.
  pose proof DBL_UNDERFLOW_small. pose proof DBL_OVERFLOW_big.
  assert (1 / 1000000000000 < / 24 ^ 6).
  { unfold Rdiv. rewrite Rmult_1_l. apply Rinv_lt_contravar; lra. }
  rewrite math_pow_in_range by lra. reflexivity.
Qed.

(** Above the troposphere the code is the exponential decay
    [P0 * e^(-h/8500)], up to the altitude where the exponential
    underflows; 1000 km is below it. *)
Lemma pressure_altitude_above h :
  11000 <= h <= 1000000 ->
  pressure_altitude h = Ok (101.325 * exp (- h / 8500)).
Proof.
  intros Hh. unfold pressure_altitude, math_exp.
  destruct (Rlt_dec h 11000); [lra |].
  rewrite float_range_ok; [reflexivity | |].
  - eapply Rlt_le_trans; [apply DBL_UNDERFLOW_pow3|].
    replace (- h / 8500) with (- (h / 8500)) by lra.
    rewrite exp_Ropp. apply Rinv_le_contravar; [apply exp_pos|].
    apply exp_le_pow3.
    replace (INR 118) with 118 by (rewrite INR_IZR_INZ; reflexivity). lra.
  - pose proof DBL_OVERFLOW_big.
    assert (exp (- h / 8500) < 1) by (rewrite <- exp_0; apply exp_increasing; lra).
    lra.
Qed.

(** [pressure_altitude] returns at every altitude; what it returns is
    positive between -1000 km and 1000 km, and 0.0 where the power or
    the exponential underflows. *)
Lemma pressure_altitude_total h :
  exists P,
    pressure_altitude h = Ok P /\ (0 <= P) /\
    (-1000000 <= h <= 1000000 -> 0 < P).
Proof.
  destruct (Rlt_dec h 11000) as [H|H].
  - destruct (Rle_dec (-1000000) h) as [Hlo|Hlo].
    + rewrite pressure_altitude_troposphere by lra.
      eexists. split; [reflexivity|].
      assert (0 < Rpower (1 - 0.0065 * h / 288.15)
                         (- (9.81 * 0.02896) / (8.314 * 0.0065)))
        by (unfold Rpower; apply exp_pos).
      split; [lra | intros _; lra].
    + unfold pressure_altitude.
      destruct (Rlt_dec h 11000); [| lra].
      rewrite math_pow_pos by lra.
      pose proof (troposphere_power_upper h H). pose proof DBL_OVERFLOW_big.
      destruct (float_range_below
                  (Rpower (1 - 0.0065 * h / 288.15)
                          (- (9.81 * 0.02896) / (8.314 * 0.0065))))
        as (q & Hq & Hq0 & _); [unfold Rpower; apply exp_pos | lra |].
      rewrite Hq. cbn [bind]. eexists. split; [reflexivity|].
      split; [lra | intros Hr; lra].
  - destruct (Rle_dec h 1000000) as [Hhi|Hhi].
    + rewrite pressure_altitude_above by lra.
      eexists. split; [reflexivity|].
      pose proof (exp_pos (- h / 8500)). split; [lra | intros _; lra].
    + unfold pressure_altitude, math_exp.
      destruct (Rlt_dec h 11000); [lra |].
      pose proof DBL_OVERFLOW_big.
      assert (exp (- h / 8500) < 1)
        by (rewrite <- exp_0; apply exp_increasing; lra).
      destruct (float_range_below (exp (- h / 8500)))
        as (q & Hq & Hq0 & _); [apply exp_pos | lra |].
      rewrite Hq. cbn [bind]. eexists. split; [reflexivity|].
      split; [lra | intros Hr; lra].
Qed.



Lemma pressure_altitude_rises h :
  0 < h < 11000 ->
  exists p,
    pressure_altitude h = Ok p /\
    standard_troposphere_pressure h < 101.325 < p.
Proof.
  intros [H0 H1]. rewrite pressure_altitude_troposphere by lra.
  eexists. split; [reflexivity|].
  unfold standard_troposphere_pressure.
  assert (Hr : 0 < 1 - 0.0065 * h / 288.15 < 1) by lra.
  pose proof (Rpower_lt_1_neg _ (- (9.81 * 0.02896) / (8.314 * 0.0065)) Hr).
  pose proof (Rpower_lt_1_pos _ (9.81 * 0.02896 / (8.314 * 0.0065)) Hr).
  lra.
Qed.

(** C2: at the altitude of the reference case (2640 m, inside the
    troposphere) [pressure_altitude] returns a pressure above the
    sea-level value 101.325 kPa, whereas the standard-atmosphere law
    [P0 * (1 - L*h/T0) ^ (g*M/(R*L))] of the claim gives a pressure below
    it: the code does not compute the troposphere law. *)
Theorem pressure_altitude_2640_above_sea_level :
  exists p,
    pressure_altitude 2640 = Ok p /\
    101.325 < p /\
    standard_troposphere_pressure 2640 < 101.325.
Proof.
  destruct (pressure_altitude_rises 2640) as (p & Hp & Hlo & Hhi); [lra|].
  exists p. auto.
Qed.

(* ------------------------------------------------------------------ *)
(** ** Dulong heating value *)
(* ------------------------------------------------------------------ *)

Lemma dulong_adjust_normalized c h o s a :
  c + h + o + s + a = 100 ->
  dulong_adjust c h o s a = Ok (c, h, o, s, a).
Proof.
  intros H. unfold dulong_adjust.
  destruct (Req_dec_T (c + h + o + s + a) 100); [reflexivity | contradiction].
Qed.

Lemma dulong_adjust_rescaled c h o s a :
  let total := c + h + o + s + a in
  total <> 100 -> total <> 0 ->
  dulong_adjust c h o s a =
  Ok (c * 100 / total, h * 100 / total, o * 100 / total,
      s * 100 / total, a * 100 / total).
Proof.
  intros total H100 H0. unfold dulong_adjust. fold total.
  destruct (Req_dec_T total 100); [contradiction|].
  rewrite !fdiv_ok by assumption. reflexivity.
Qed.

Lemma dulong_adjust_zero c h o s a :
  c + h + o + s + a = 0 ->
  dulong_adjust c h o s a = Raise ZeroDivisionError.
Proof.
  intros H. unfold dulong_adjust. rewrite H.
  destruct (Req_dec_T 0 100); [lra|].
  rewrite fdiv_zero. reflexivity.
Qed.

Lemma dulong_heating_value_adjusted c h o s a m c' h' o' s' a' :
  dulong_adjust c h o s a = Ok (c', h', o', s', a') ->
  dulong_heating_value c h o s a m = Ok (dulong_formulas c' h' o' s' m).
Proof.
  intros H. unfold dulong_heating_value. rewrite H. reflexivity.
Qed.

Lemma dulong_returns c h o s a m :
  c + h + o + s + a <> 0 ->
  exists pcs pci w,
    dulong_heating_value c h o s a m =
    Ok [("PCS", pcs); ("PCI", pci); ("water_from_combustion", w)].
Proof.
  intros H0.
  destruct (Req_dec_T (c + h + o + s + a) 100) as [H100|H100].
  - rewrite (dulong_heating_value_adjusted _ _ _ _ _ _ _ _ _ _ _
               (dulong_adjust_normalized _ _ _ _ _ H100)).
    do 3 eexists. reflexivity.
  - rewrite (dulong_heating_value_adjusted _ _ _ _ _ _ _ _ _ _ _
               (dulong_adjust_rescaled _ _ _ _ _ H100 H0)).
    do 3 eexists. reflexivity.
Qed.

(** C3: for hydrogen >= 0, moisture >= 0 and a positive sum of the five
    solid fractions, [dulong_heating_value] returns
    [PCS = 338.2 C + 1442.8 (H - O/8) + 94.2 S] and
    [PCI = PCS - 2442 (9 H + moisture) / 100] evaluated on the
    normalized fractions [C = c * 100 / total], [H = h * 100 / total],
    [O = o * 100 / total], [S = s * 100 / total], with [total] the sum
    of the five fractions given; the returned PCS is at least the
    returned PCI.  The five normalized fractions sum to 100, and they
    are the fractions given when these sum to 100 already. *)
Theorem dulong_PCS_ge_PCI c h o s a m :
  0 <= h -> 0 <= m -> 0 < c + h + o + s + a ->
  let total := c + h + o + s + a in
  let c' := c * 100 / total in
  let h' := h * 100 / total in
  let o' := o * 100 / total in
  let s' := s * 100 / total in
  dulong_heating_value c h o s a m
  = Ok [ ("PCS", dulong_PCS c' h' o' s');
         ("PCI", dulong_PCI c' h' o' s' m);
         ("water_from_combustion", 9 * h' + m) ] /\
  dulong_PCS c' h' o' s' = 338.2 * c' + 1442.8 * (h' - o' / 8) + 94.2 * s' /\
  dulong_PCI c' h' o' s' m
  = dulong_PCS c' h' o' s' - 2442 * (9 * h' + m) / 100 /\
  dulong_PCS c' h' o' s' >= dulong_PCI c' h' o' s' m /\
  c' + h' + o' + s' + a * 100 / total = 100 /\
  (total = 100 -> c' = c /\ h' = h /\ o' = o /\ s' = s).
Proof.
  intros Hh Hm Ht total c' h' o' s'.
  assert (H0 : total <> 0) by (unfold total; lra).
  assert (Hsame : total = 100 -> c' = c /\ h' = h /\ o' = o /\ s' = s).
  { intros H100. unfold c', h', o', s'. rewrite H100.
    repeat split; field. }
  assert (Hh' : 0 <= h').
  { unfold h'. apply Rmult_le_pos; [lra|].
    left. apply Rinv_0_lt_compat. exact Ht. }
  split; [|split; [reflexivity|split; [reflexivity|split; [|split]]]].
  - destruct (Req_dec_T total 100) as [H100|H100].
    + destruct (Hsame H100) as (-> & -> & -> & ->).
      exact (dulong_heating_value_adjusted _ _ _ _ _ m _ _ _ _ _
               (dulong_adjust_normalized _ _ _ _ _ H100)).
    + exact (dulong_heating_value_adjusted _ _ _ _ _ m _ _ _ _ _
               (dulong_adjust_rescaled _ _ _ _ _ H100 H0)).
  - unfold dulong_PCI. lra.
  - unfold c', h', o', s', total. field. exact H0.
  - exact Hsame.
Qed.

Lemma dulong_PCS_ge_PCI_reference :
  (0 <= 5.82 /\ 0 <= 35.09 /\ 0 < 50.29 + 5.82 + 42.94 + 0.08 + 0.66) /\
  let total := 50.29 + 5.82 + 42.94 + 0.08 + 0.66 in
  let c' := 50.29 * 100 / total in
  let h' := 5.82 * 100 / total in
  let o' := 42.94 * 100 / total in
  let s' := 0.08 * 100 / total in
  dulong_heating_value 50.29 5.82 42.94 0.08 0.66 35.09
  = Ok [ ("PCS", dulong_PCS c' h' o' s');
         ("PCI", dulong_PCI c' h' o' s' 35.09);
         ("water_from_combustion", 9 * h' + 35.09) ] /\
  dulong_PCS c' h' o' s' = 338.2 * c' + 1442.8 * (h' - o' / 8) + 94.2 * s' /\
  dulong_PCI c' h' o' s' 35.09
  = dulong_PCS c' h' o' s' - 2442 * (9 * h' + 35.09) / 100 /\
  dulong_PCS c' h' o' s' >= dulong_PCI c' h' o' s' 35.09 /\
  c' + h' + o' + s' + 0.66 * 100 / total = 100 /\
  (total = 100 -> c' = 50.29 /\ h' = 5.82 /\ o' = 42.94 /\ s' = 0.08).
Proof.
  split; [lra|].
  apply (dulong_PCS_ge_PCI 50.29 5.82 42.94 0.08 0.66 35.09); lra.
Defined.

(** C10: when carbon + hydrogen + oxygen + sulfur + ash is 0,
    [dulong_heating_value] raises [ZeroDivisionError]; when the sum is
    non-zero and different from 100 (however close to 100), the five
    fractions are rescaled by [100 / sum] and the formulas are applied to
    the rescaled fractions; when the sum is exactly 100 they are applied
    to the fractions as given. *)
Theorem dulong_renormalization c h o s a m :
  let total := c + h + o + s + a in
  (total = 0 ->
   dulong_heating_value c h o s a m = Raise ZeroDivisionError) /\
  (total <> 0 -> total <> 100 ->
   dulong_adjust c h o s a
   = Ok (c * 100 / total, h * 100 / total, o * 100 / total,
         s * 100 / total, a * 100 / total) /\
   dulong_heating_value c h o s a m
   = Ok (dulong_formulas (c * 100 / total) (h * 100 / total)
                         (o * 100 / total) (s * 100 / total) m)) /\
  (total = 100 ->
   dulong_heating_value c h o s a m = Ok (dulong_formulas c h o s m)).
Proof.
  intros total. split; [|split].
  - intros H0. unfold dulong_heating_value.
    rewrite dulong_adjust_zero by exact H0. reflexivity.
  - intros H0 H100.
    pose proof (dulong_adjust_rescaled _ _ _ _ _ H100 H0) as Ha.
    split; [exact Ha|].
    exact (dulong_heating_value_adjusted _ _ _ _ _ m _ _ _ _ _ Ha).
  - intros H100.
    exact (dulong_heating_value_adjusted _ _ _ _ _ m _ _ _ _ _
             (dulong_adjust_normalized _ _ _ _ _ H100)).
Qed.

Lemma dulong_renormalization_cases :
  dulong_heating_value 0 0 0 0 0 35.09 = Raise ZeroDivisionError /\
  (Rabs (50.29 + 5.82 + 42.94 + 0.08 + 0.66 - 100) <= 0.5 /\
   dulong_adjust 50.29 5.82 42.94 0.08 0.66
   = Ok (50.29 * 100 / (50.29 + 5.82 + 42.94 + 0.08 + 0.66),
         5.82 * 100 / (50.29 + 5.82 + 42.94 + 0.08 + 0.66),
         42.94 * 100 / (50.29 + 5.82 + 42.94 + 0.08 + 0.66),
         0.08 * 100 / (50.29 + 5.82 + 42.94 + 0.08 + 0.66),
         0.66 * 100 / (50.29 + 5.82 + 42.94 + 0.08 + 0.66))) /\
  dulong_heating_value 50 6 43 0.5 0.5 10
  = Ok (dulong_formulas 50 6 43 0.5 10).
Proof.
  split; [|split; [split|]].
  - apply (proj1 (dulong_renormalization 0 0 0 0 0 35.09)). lra.
  - rewrite Rabs_left; lra.
  - apply (proj1 (proj2 (dulong_renormalization
                           50.29 5.82 42.94 0.08 0.66 35.09))); lra.
  - apply (proj2 (proj2 (dulong_renormalization 50 6 43 0.5 0.5 10))). lra.
Defined.

(* ------------------------------------------------------------------ *)
(** ** Friction factor *)
(* ------------------------------------------------------------------ *)

Lemma colebrook_update_value Re D eps f :
  D <> 0 -> 0 <= f -> 1 < eps / D + 3.7 * Re * sqrt f ->
  colebrook_update Re D eps f = Ok (colebrook_map Re D eps f).
Proof.
  intros HD Hf Hx. unfold colebrook_update, math_sqrt, math_log10.
  rewrite fdiv_ok by assumption. cbn [bind].
  destruct (Rlt_dec f 0); [lra|]. cbn [bind].
  destruct (Rlt_dec 0 (eps / D + 3.7 * Re * sqrt f)); [|lra]. cbn [bind].
  assert (Hl : 0 < log10 (eps / D + 3.7 * Re * sqrt f)).
  { rewrite <- log10_1. apply log10_increasing; lra. }
  unfold log10 in Hl.
  rewrite math_pow_2 by lra. cbn [bind].
  rewrite fdiv_ok; [reflexivity|].
  apply pow_nonzero. lra.
Qed.

Section Turbulent.

Variables Re D eps : R.
Hypothesis HD : 0 < D.
Hypothesis HRe : 2300 <= Re.
Hypothesis Heps : 0 <= eps.

Lemma relative_roughness_nonneg : 0 <= eps / D.
Proof.
  apply Rmult_le_pos; [assumption|].
  left. apply Rinv_0_lt_compat. assumption.
Qed.

Lemma turbulent_inv_arg f :
  turbulent_inv Re D eps f -> 1 < eps / D + 3.7 * Re * sqrt f.
Proof.
  intros [Hf Hs]. pose proof relative_roughness_nonneg as Ha.
  assert (Hsq : 0 < sqrt f) by (apply sqrt_lt_R0; assumption).
  destruct (Rlt_dec (eps / D) 1) as [Hlt|Hge].
  - destruct (Hs Hlt). lra.
  - nra.
Qed.

Lemma sqrt_colebrook_map f :
  1 < eps / D + 3.7 * Re * sqrt f ->
  0 < colebrook_map Re D eps f /\
  sqrt (colebrook_map Re D eps f)
  = 1 / (2 * log10 (eps / D + 3.7 * Re * sqrt f)).
Proof.
  intros Hx. unfold colebrook_map.
  set (l := log10 _).
  assert (Hl : 0 < l).
  { unfold l. rewrite <- log10_1. apply log10_increasing; lra. }
  replace (1 / (-2 * l) ^ 2) with ((1 / (2 * l)) ^ 2) by (field; lra).
  assert (0 < 1 / (2 * l)) by (apply Rdiv_lt_0_compat; lra).
  split.
  - apply pow_lt. assumption.
  - apply sqrt_pow2. lra.
Qed.

Lemma turbulent_inv_step f :
  turbulent_inv Re D eps f ->
  turbulent_inv Re D eps (colebrook_map Re D eps f).
Proof.
  intros Hinv. pose proof (turbulent_inv_arg f Hinv) as Hx.
  destruct (sqrt_colebrook_map f Hx) as [Hpos Hsqrt].
  split; [assumption|]. intros Ha.
  destruct Hinv as [Hf Hs]. destruct (Hs Ha) as [Hlo Hhi].
  rewrite Hsqrt. set (x := eps / D + 3.7 * Re * sqrt f) in *.
  assert (Hx10 : 10 <= x)
    by (unfold x; pose proof relative_roughness_nonneg; lra).
  assert (Hxb : x < 1 + 3.7 * Re / 2) by (unfold x; nra).
  assert (Hl1 : 1 <= log10 x).
  { replace 1 with (INR 1) by reflexivity. rewrite <- log10_pow.
    destruct Hx10 as [Hlt|Heq].
    - left. apply log10_increasing; lra.
    - right. rewrite <- Heq. f_equal. lra. }
  assert (Hl2 : log10 x <= 3.7 * Re / 20).
  { apply Rle_trans with (log10 (1 + 3.7 * Re / 2)).
    - left. apply log10_increasing; lra.
    - apply log10_half_bound. lra. }
  split.
  - apply Rmult_le_reg_r with (2 * log10 x); [lra|].
    replace (3.7 * Re * (1 / (2 * log10 x)) * (2 * log10 x))
      with (3.7 * Re) by (field; lra).
    lra.
  - apply Rmult_le_reg_r with (2 * log10 x); [lra|].
    replace (1 / (2 * log10 x) * (2 * log10 x)) with 1 by (field; lra).
    lra.
Qed.

Lemma turbulent_inv_seed : turbulent_inv Re D eps 0.02.
Proof.
  split; [lra|]. intros _.
  assert (H1 : 0.1 <= sqrt 0.02).
  { replace 0.1 with (sqrt (0.1 ^ 2)) by (apply sqrt_pow2; lra).
    apply sqrt_le_1_alt. lra. }
  assert (H2 : sqrt 0.02 <= 0.5).
  { replace 0.5 with (sqrt (0.5 ^ 2)) by (apply sqrt_pow2; lra).
    apply sqrt_le_1_alt. lra. }
  split; [nra | lra].
Qed.

(** The loop stops at the first estimate whose successor is within the
    tolerance, or after [n] passes, and returns that estimate. *)
Lemma colebrook_loop_iterates n : forall f,
  turbulent_inv Re D eps f ->
  exists k,
    (k <= n)%nat /\
    colebrook_loop n Re D eps f = Ok (Nat.iter k (colebrook_map Re D eps) f) /\
    (forall j, (j < k)%nat ->
       1e-6 <= Rabs (Nat.iter (S j) (colebrook_map Re D eps) f
                     - Nat.iter j (colebrook_map Re D eps) f)) /\
    ((k < n)%nat ->
       Rabs (Nat.iter (S k) (colebrook_map Re D eps) f
             - Nat.iter k (colebrook_map Re D eps) f) < 1e-6).
Proof.
  induction n as [|n IH]; intros f Hinv.
  - exists 0%nat. split; [lia|]. split; [reflexivity|].
    split; [intros j Hj; lia | intros Hlt; lia].
  - cbn [colebrook_loop].
    rewrite colebrook_update_value;
      [| lra | destruct Hinv; lra | apply turbulent_inv_arg; assumption].
    cbn [bind].
    destruct (Rlt_dec (Rabs (colebrook_map Re D eps f - f)) 1e-6) as [Hc|Hc].
    + exists 0%nat. split; [lia|]. split; [reflexivity|].
      split; [intros j Hj; lia | intros _; exact Hc].
    + destruct (IH _ (turbulent_inv_step f Hinv))
        as (k & Hk & Hr & Hj & Hlast).
      exists (S k). split; [lia|].
      split; [rewrite Nat.iter_succ_r; exact Hr|]. split.
      * intros [|j] Hlt.
        -- cbn. lra.
        -- assert (Hlt' : (j < k)%nat) by lia.
           specialize (Hj j Hlt').
           rewrite <- !Nat.iter_succ_r in Hj. exact Hj.
      * intros Hlt. assert (Hlt' : (k < n)%nat) by lia.
        specialize (Hlast Hlt').
        rewrite <- !Nat.iter_succ_r in Hlast. exact Hlast.
Qed.

End Turbulent.

Lemma band_step f :
  band f -> band (colebrook_map 2300 0.762 0.00015 f).
Proof.
  intros [Hlo Hhi].
  assert (H1 : 1 / 8 < sqrt f).
  { replace (1 / 8) with (sqrt ((1 / 8) ^ 2)) by (apply sqrt_pow2; lra).
    apply sqrt_lt_1_alt. lra. }
  assert (H2 : sqrt f < 1 / 6).
  { replace (1 / 6) with (sqrt ((1 / 6) ^ 2)) by (apply sqrt_pow2; lra).
    apply sqrt_lt_1_alt. lra. }
  unfold colebrook_map. set (x := _ + _).
  assert (Hx1 : 1000 < x) by (unfold x; lra).
  assert (Hx2 : x < 10000) by (unfold x; lra).
  assert (Hl1 : 3 < log10 x)
    by (rewrite <- log10_1000; apply log10_increasing; lra).
  assert (Hl2 : log10 x < 4)
    by (rewrite <- log10_10000; apply log10_increasing; lra).
  assert (Hp : 36 < (-2 * log10 x) ^ 2 < 64) by nra.
  unfold band. split.
  - apply Rmult_lt_reg_r with ((-2 * log10 x) ^ 2); [lra|].
    replace (1 / (-2 * log10 x) ^ 2 * (-2 * log10 x) ^ 2) with 1
      by (field; nra).
    lra.
  - apply Rmult_lt_reg_r with ((-2 * log10 x) ^ 2); [lra|].
    replace (1 / (-2 * log10 x) ^ 2 * (-2 * log10 x) ^ 2) with 1
      by (field; nra).
    lra.
Qed.

Lemma band_estimate k : band (colebrook_estimate 2300 0.762 0.00015 k).
Proof.
  unfold colebrook_estimate. induction k as [|k IH].
  - cbn. unfold band. lra.
  - rewrite Nat.iter_succ. apply band_step. exact IH.
Qed.

(** What the code computes: for D > 0, Re > 0 and a non-negative
    roughness, [colebrook_friction_factor] returns the laminar value
    [64 / Re] when [Re < 2300]; otherwise it returns, without raising,
    the estimate number [k <= 10] of the iteration of its own update
    [colebrook_map] seeded at 0.02, where [k] is the first index at which
    two successive estimates differ by less than 1e-6, or 10 when there
    is none. *)
Lemma colebrook_branches Re D eps :
  0 < D -> 0 < Re -> 0 <= eps ->
  (Re < 2300 -> colebrook_friction_factor Re D eps = Ok (64 / Re)) /\
  (2300 <= Re ->
   exists k,
     (k <= 10)%nat /\
     colebrook_friction_factor Re D eps = Ok (colebrook_estimate Re D eps k) /\
     (forall j, (j < k)%nat ->
        1e-6 <= Rabs (colebrook_estimate Re D eps (S j)
                      - colebrook_estimate Re D eps j)) /\
     ((k < 10)%nat ->
        Rabs (colebrook_estimate Re D eps (S k)
              - colebrook_estimate Re D eps k) < 1e-6)).
Proof.
  intros HD HRe Heps. unfold colebrook_friction_factor. split.
  - intros Hlam. destruct (Rlt_dec Re 2300); [|lra]. apply fdiv_ok. lra.
  - intros Hturb. destruct (Rlt_dec Re 2300); [lra|].
    exact (colebrook_loop_iterates Re D eps HD Hturb Heps 10 0.02
             (turbulent_inv_seed Re D eps Hturb)).
Qed.

Lemma log10_le x y : 0 < x -> x <= y -> log10 x <= log10 y.
Proof.
  intros Hx [H| ->];
    [left; apply log10_increasing; assumption | right; reflexivity].
Qed.

Lemma log10_inv_pow n : log10 (/ 10 ^ n) = - INR n.
Proof.
  unfold log10. rewrite ln_Rinv by (apply pow_lt; lra).
  rewrite ln_pow by lra. field. pose proof ln_10_gt_2. lra.
Qed.

Lemma log10_sqr x : 0 < x -> log10 (x ^ 2) = 2 * log10 x.
Proof.
  intros Hx. unfold log10. rewrite ln_pow by assumption. simpl. lra.
Qed.

(** One step of the Colebrook-White iteration at [Re = 2300] in the
    reference duct, from the seed or from an estimate of the band: the
    argument of the logarithm lies between [10^-2.5] and [10^-2]. *)
Lemma white_band_step f :
  0.0196 <= f <= 1 / 16 ->
  white_band (colebrook_white_map 2300 0.762 0.00015 f).
Proof.
  intros [Hlo Hhi].
  assert (H1 : 0.14 <= sqrt f).
  { replace 0.14 with (sqrt (0.14 ^ 2)) by (apply sqrt_pow2; lra).
    apply sqrt_le_1_alt. lra. }
  assert (H2 : sqrt f <= 1 / 4).
  { replace (1 / 4) with (sqrt ((1 / 4) ^ 2)) by (apply sqrt_pow2; lra).
    apply sqrt_le_1_alt. lra. }
  unfold colebrook_white_map.
  set (q := 2.51 / (2300 * sqrt f)).
  assert (Hq : q * (2300 * sqrt f) = 2.51) by (unfold q; field; lra).
  assert (Hq1 : 0.0043 <= q) by nra.
  assert (Hq2 : q <= 0.0078) by nra.
  set (x := _ + q).
  assert (Hx1 : 0.0043 <= x) by (unfold x; lra).
  assert (Hx2 : x <= 0.0079) by (unfold x; lra).
  assert (Hl2 : log10 x <= -2).
  { replace (-2) with (- INR 2) by (simpl; lra). rewrite <- log10_inv_pow.
    apply log10_le; [lra|]. simpl. lra. }
  assert (Hl1 : -5 / 2 <= log10 x).
  { assert (H5 : - INR 5 <= log10 (x ^ 2)).
    { rewrite <- log10_inv_pow. apply log10_le.
      - apply Rinv_0_lt_compat. apply pow_lt. lra.
      - simpl. nra. }
    rewrite log10_sqr in H5 by lra. simpl in H5. lra. }
  assert (Hp : 16 <= (-2 * log10 x) ^ 2 <= 25) by nra.
  unfold white_band. split.
  - apply Rmult_le_reg_r with ((-2 * log10 x) ^ 2); [lra|].
    replace (1 / (-2 * log10 x) ^ 2 * (-2 * log10 x) ^ 2) with 1
      by (field; nra).
    lra.
  - apply Rmult_le_reg_r with ((-2 * log10 x) ^ 2); [lra|].
    replace (1 / (-2 * log10 x) ^ 2 * (-2 * log10 x) ^ 2) with 1
      by (field; nra).
    lra.
Qed.

Lemma white_band_estimate k :
  white_band (colebrook_white_estimate 2300 0.762 0.00015 (S k)).
Proof.
  unfold colebrook_white_estimate. induction k as [|k IH].
  - cbn. apply white_band_step. lra.
  - rewrite Nat.iter_succ. apply white_band_step.
    destruct IH as [Hlo Hhi]. lra.
Qed.

(** C4: at Re = 2300 in the reference duct (diameter 30 in = 0.762 m,
    roughness 0.00015 m) [colebrook_friction_factor] takes the turbulent
    branch and returns a factor below 1/36, whereas the fixed-point
    iteration of the Colebrook-White relation
    [1 / sqrt f = -2 log10 (eps / (3.7 D) + 2.51 / (Re sqrt f))] from the
    seed 0.02 leaves the seed at its first step (by more than the
    tolerance 1e-6) and has every later estimate between 1/25 and 1/16:
    the value returned is not an estimate of that iteration.  The
    laminar value 64 / 2300 exceeds the value returned by more than
    1e-6, so the two branches do not agree at Re = 2300 within the
    tolerance either. *)
Theorem colebrook_not_colebrook_white :
  exists f,
    colebrook_friction_factor 2300 0.762 0.00015 = Ok f /\
    f < 1 / 36 /\
    (forall k, (1 <= k)%nat ->
       1 / 25 <= colebrook_white_estimate 2300 0.762 0.00015 k <= 1 / 16) /\
    1e-6 <= Rabs (colebrook_white_estimate 2300 0.762 0.00015 1
                  - colebrook_white_estimate 2300 0.762 0.00015 0) /\
    1e-6 < 64 / 2300 - f.
Proof.
  assert (HD : 0 < 0.762) by lra.
  assert (HRe : 2300 <= 2300) by lra.
  assert (Heps : 0 <= 0.00015) by lra.
  destruct (colebrook_loop_iterates 2300 0.762 0.00015 HD HRe Heps 10 0.02
              (turbulent_inv_seed 2300 0.762 0.00015 HRe))
    as (k & Hk & Hr & _).
  unfold colebrook_friction_factor. destruct (Rlt_dec 2300 2300); [lra|].
  pose proof (band_estimate k) as [_ Hhi].
  eexists. split; [exact Hr|].
  fold (colebrook_estimate 2300 0.762 0.00015 k).
  split; [exact Hhi|]. split; [|split].
  - intros [|j] Hj; [lia|]. apply white_band_estimate.
  - pose proof (white_band_estimate 0) as [Hlo _].
    change (colebrook_white_estimate 2300 0.762 0.00015 0) with 0.02.
    rewrite Rabs_pos_eq; lra.
  - lra.
Qed.

(* ------------------------------------------------------------------ *)
(** ** Antoine equation *)
(* ------------------------------------------------------------------ *)

Lemma saturated_vapor_pressure_range T :
  T <> -233.426 ->
  saturated_vapor_pressure T
  = float_range (Rpower 10 (antoine_exponent T)).
Proof.
  intros H. unfold saturated_vapor_pressure, antoine_exponent. cbn.
  rewrite fdiv_ok by lra. cbn. apply math_pow_pos. lra.
Qed.

Lemma saturated_vapor_pressure_pole :
  saturated_vapor_pressure (-233.426) = Raise ZeroDivisionError.
Proof.
  unfold saturated_vapor_pressure. cbn.
  replace (233.426 + -233.426) with 0 by lra. rewrite fdiv_zero. reflexivity.
Qed.

(** The exponent on the four stretches of the temperature axis. *)
Lemma antoine_exponent_warm T :
  -228 <= T -> - INR 311 <= antoine_exponent T <= INR 9.
Proof.
  intros HT. unfold antoine_exponent.
  replace (INR 311) with 311 by (rewrite INR_IZR_INZ; reflexivity).
  replace (INR 9) with 9 by (rewrite INR_IZR_INZ; reflexivity).
  set (q := 1730.63 / (233.426 + T)).
  assert (Hq : q * (233.426 + T) = 1730.63) by (unfold q; field; lra).
  assert (0 < q) by (unfold q; apply Rdiv_lt_0_compat; lra).
  split; nra.
Qed.

Lemma antoine_exponent_underflow T :
  -233.426 < T <= -228.5 -> antoine_exponent T <= - INR 324.
Proof.
  intros HT. unfold antoine_exponent.
  replace (INR 324) with 324 by (rewrite INR_IZR_INZ; reflexivity).
  set (q := 1730.63 / (233.426 + T)).
  assert (Hq : q * (233.426 + T) = 1730.63) by (unfold q; field; lra).
  assert (0 < q) by (unfold q; apply Rdiv_lt_0_compat; lra).
  nra.
Qed.

Lemma antoine_exponent_overflow T :
  -239 <= T < -233.426 -> INR 309 <= antoine_exponent T.
Proof.
  intros HT. unfold antoine_exponent.
  replace (INR 309) with 309 by (rewrite INR_IZR_INZ; reflexivity).
  set (q := 1730.63 / (233.426 + T)).
  assert (Hq : q * (233.426 + T) = 1730.63) by (unfold q; field; lra).
  nra.
Qed.

Lemma antoine_exponent_cold T :
  T <= -240 -> INR 0 <= antoine_exponent T <= INR 308.
Proof.
  intros HT. unfold antoine_exponent.
  replace (INR 308) with 308 by (rewrite INR_IZR_INZ; reflexivity).
  replace (INR 0) with 0 by reflexivity.
  set (q := 1730.63 / (233.426 + T)).
  assert (Hq : q * (233.426 + T) = 1730.63) by (unfold q; field; lra).
  split; nra.
Qed.

(** From -228 degrees on (and up to -240 degrees) the power of ten is a
    float: the pressure is the Antoine value. *)
Lemma saturated_vapor_pressure_value T :
  -228 <= T ->
  saturated_vapor_pressure T
  = Ok (Rpower 10 (8.07131 - 1730.63 / (233.426 + T))).
Proof.
  intros HT. rewrite saturated_vapor_pressure_range by lra.
  fold (antoine_exponent T).
  destruct (antoine_exponent_warm T HT) as [Hlo Hhi].
  apply float_range_ok.
  - eapply Rlt_le_trans; [apply DBL_UNDERFLOW_upper|].
    apply Rle_trans with (/ 10 ^ 311).
    + apply Rinv_le_contravar; [apply pow_lt; lra|].
      apply Rle_pow; [lra | lia].
    + rewrite <- Rpower_10_neg_nat. apply Rpower_10_le. exact Hlo.
  - eapply Rle_lt_trans; [|apply DBL_OVERFLOW_lower].
    apply Rle_trans with (10 ^ 9).
    + rewrite <- Rpower_10_nat. apply Rpower_10_le. exact Hhi.
    + apply Rle_pow; [lra | lia].
Qed.

Lemma saturated_vapor_pressure_cold T :
  T <= -240 ->
  saturated_vapor_pressure T = Ok (Rpower 10 (antoine_exponent T)) /\
  1 <= Rpower 10 (antoine_exponent T).
Proof.
  intros HT. rewrite saturated_vapor_pressure_range by lra.
  destruct (antoine_exponent_cold T HT) as [Hlo Hhi].
  assert (H1 : 1 <= Rpower 10 (antoine_exponent T)).
  { replace 1 with (10 ^ 0) by reflexivity.
    rewrite <- Rpower_10_nat. apply Rpower_10_le. exact Hlo. }
  split; [|exact H1].
  apply float_range_ok.
  - pose proof DBL_UNDERFLOW_small. lra.
  - eapply Rle_lt_trans; [|apply DBL_OVERFLOW_lower].
    rewrite <- Rpower_10_nat. apply Rpower_10_le. exact Hhi.
Qed.

(** Just below the pole the power of ten overflows. *)
Lemma saturated_vapor_pressure_overflow T :
  -239 <= T < -233.426 ->
  saturated_vapor_pressure T = Raise OverflowError.
Proof.
  intros HT. rewrite saturated_vapor_pressure_range by lra.
  apply float_range_overflow.
  eapply Rle_trans; [apply DBL_OVERFLOW_upper|].
  rewrite <- Rpower_10_nat. apply Rpower_10_le.
  apply antoine_exponent_overflow. exact HT.
Qed.

(** Just above the pole it underflows. *)
Lemma saturated_vapor_pressure_underflow T :
  -233.426 < T <= -228.5 -> saturated_vapor_pressure T = Ok 0.
Proof.
  intros HT. rewrite saturated_vapor_pressure_range by lra.
  apply float_range_underflow.
  eapply Rle_trans; [|apply DBL_UNDERFLOW_lower].
  rewrite <- Rpower_10_neg_nat. apply Rpower_10_le.
  apply antoine_exponent_underflow. exact HT.
Qed.

(** The only exceptions of [saturated_vapor_pressure]. *)
Lemma saturated_vapor_pressure_raises T e :
  saturated_vapor_pressure T = Raise e ->
  e = ZeroDivisionError \/ e = OverflowError.
Proof.
  destruct (Req_dec_T T (-233.426)) as [->|HT].
  - rewrite saturated_vapor_pressure_pole. intros H. injection H as <-.
    left. reflexivity.
  - rewrite saturated_vapor_pressure_range by assumption.
    unfold float_range.
    destruct (Rle_dec _ _); [intros H; injection H as <-; right; reflexivity|].
    destruct (Rle_dec _ _); discriminate.
Qed.

(* ------------------------------------------------------------------ *)
(** ** The pipeline *)
(* ------------------------------------------------------------------ *)

Ltac monad_step :=
  unfold getitem; rewrite ?dict_get_set; cbn -[dict_set].

Lemma combustion_products_raises c h s m a e :
  combustion_products c h s m a e = Raise (NameError "oxygen").
Proof. reflexivity. Qed.

Lemma stoichiometry_raises self :
  _calculate_stoichiometry self = (Raise (NameError "oxygen"), self).
Proof. reflexivity. Qed.

(** The attribute that [_calculate_energy_balance] reads is not a field
    of the input model. *)
Lemma reported_PCI_not_a_field self :
  self_input "reported_PCI" self = (Raise (AttributeError "reported_PCI"), self).
Proof. reflexivity. Qed.

(** On every calculator, with any solver, [calculate_all] raises. *)
Lemma calculate_all_not_ok fsolve self :
  is_ok (fst (calculate_all fsolve self)) = false.
Proof.
  unfold calculate_all, bindM.
  destruct (_calculate_fuel_properties self) as [[[]|e1] s1]; [|reflexivity].
  destruct (_calculate_air_properties s1) as [[[]|e2] s2]; [|reflexivity].
  rewrite stoichiometry_raises. reflexivity.
Qed.

Lemma saturated_vapor_pressure_15 :
  exists p, saturated_vapor_pressure 15 = Ok p /\ 0 < p < 100.
Proof.
  rewrite saturated_vapor_pressure_value by lra.
  eexists; split; [reflexivity|]. split.
  - unfold Rpower. apply exp_pos.
  - replace 100 with (Rpower 10 2).
    + apply Rpower_lt; lra.
    + replace 2 with (INR 2) by (simpl; lra). rewrite Rpower_pow by lra. lra.
Qed.

Lemma fuel_properties_returns self :
  fuel_total (input self) <> 0 ->
  exists res,
    _calculate_fuel_properties self
    = (Ok tt, {| input := input self; results := res |}).
Proof.
  intros H. unfold fuel_total in H.
  destruct (dulong_returns _ _ _ _ _ (moisture (input self)) H)
    as (pcs & pci & w & Hd).
  unfold _calculate_fuel_properties.
  cbn -[dict_set dulong_heating_value]. rewrite Hd.
  cbn -[dict_set]. monad_step.
  eexists. reflexivity.
Qed.

Lemma air_properties_returns self :
  reference_ambient (input self) ->
  exists res,
    _calculate_air_properties self
    = (Ok tt, {| input := input self; results := res |}).
Proof.
  intros (Ha & Hr & Ht).
  destruct saturated_vapor_pressure_15 as (ps & Hps & Hps0 & Hps100).
  unfold _calculate_air_properties.
  cbn -[dict_set pressure_altitude absolute_humidity].
  rewrite Ha, pressure_altitude_troposphere by lra.
  set (P := 101.325 * Rpower _ _).
  assert (HP : 101.325 < P).
  { unfold P.
    assert (1 < Rpower (1 - 0.0065 * 2640 / 288.15)
                       (- (9.81 * 0.02896) / (8.314 * 0.0065)))
      by (apply Rpower_lt_1_neg; lra).
    lra. }
  cbn -[dict_set absolute_humidity]. monad_step.
  rewrite Ht, fdiv_ok by (unfold R_AIR; lra).
  cbn -[dict_set absolute_humidity]. monad_step.
  rewrite Hr. unfold absolute_humidity. rewrite Hps. cbn -[dict_set].
  rewrite fdiv_ok by nra.
  cbn -[dict_set]. monad_step.
  eexists. reflexivity.
Qed.

(** With a renormalizable fuel and the reference ambient conditions the
    first two groups succeed and the third raises [NameError]. *)
Lemma calculate_all_NameError fsolve self :
  fuel_total (input self) <> 0 ->
  reference_ambient (input self) ->
  exists res,
    calculate_all fsolve self
    = (Raise (NameError "oxygen"), {| input := input self; results := res |}).
Proof.
  intros Hf Ha.
  destruct (fuel_properties_returns self Hf) as (res1 & H1).
  unfold calculate_all, bindM at 1. rewrite H1.
  destruct (air_properties_returns {| input := input self; results := res1 |}
              Ha) as (res2 & H2).
  unfold bindM at 1. rewrite H2.
  unfold bindM at 1. rewrite stoichiometry_raises. cbn.
  eexists. reflexivity.
Qed.

Lemma reference_input_conditions :
  fuel_total reference_input <> 0 /\ reference_ambient reference_input.
Proof.
  unfold fuel_total, reference_ambient. cbn. repeat split; lra.
Qed.

(** C1: on the reference input (the defaults of [BiomassInput]), whose
    composition, ambient conditions and operating values are all in
    range, [calculate_all] raises [NameError] for the name [oxygen] read
    in [combustion_products]; it does not produce a result, and the
    exception is not a division by zero. *)
Theorem calculate_all_reference_raises :
  forall fsolve,
    fst (calculate_all fsolve (__init__ reference_input))
    = Raise (NameError "oxygen").
Proof.
  intros fsolve.
  destruct reference_input_conditions as [Hf Ha].
  destruct (calculate_all_NameError fsolve (__init__ reference_input) Hf Ha)
    as (res & H).
  rewrite H. reflexivity.
Qed.

(* ------------------------------------------------------------------ *)
(** ** Volumetric fractions *)
(* ------------------------------------------------------------------ *)

Lemma holds_float_get d k :
  holds_float d k = true -> exists x, dict_get d k = Some (PyFloat x).
Proof.
  unfold holds_float.
  destruct (dict_get d k) as [[x| | |]|]; try discriminate.
  eauto.
Qed.

Lemma holds_dict_get d k :
  holds_dict d k = true -> exists x, dict_get d k = Some (PyDict x).
Proof.
  unfold holds_dict.
  destruct (dict_get d k) as [[x| |x|]|]; try discriminate.
  eauto.
Qed.

Lemma self_results_get self k x :
  dict_get (results self) k = Some (PyFloat x) ->
  self_results k self = (Ok x, self).
Proof. intros H. unfold self_results, getitem. rewrite H. reflexivity. Qed.

Lemma self_results_dict_get self k x :
  dict_get (results self) k = Some (PyDict x) ->
  self_results_dict k self = (Ok x, self).
Proof.
  intros H. unfold self_results_dict, getitem. rewrite H. reflexivity.
Qed.

Lemma molar_mass_values :
  molar_mass "CO2" = Ok 44.01 /\ molar_mass "H2O" = Ok 18.015 /\
  molar_mass "O2" = Ok 31.999 /\ molar_mass "N2" = Ok 28.014 /\
  molar_mass "SO2" = Ok 64.066.
Proof. repeat split; reflexivity. Qed.

Lemma total_vol_value self CO2 H2O O2 N2 SO2 :
  dict_get (results self) "CO2_mass" = Some (PyFloat CO2) ->
  dict_get (results self) "H2O_mass" = Some (PyFloat H2O) ->
  dict_get (results self) "O2_excess" = Some (PyFloat O2) ->
  dict_get (results self) "N2_mass" = Some (PyFloat N2) ->
  dict_get (results self) "SO2_mass" = Some (PyFloat SO2) ->
  total_vol self = (Ok (product_moles CO2 H2O O2 N2 SO2), self).
Proof.
  intros H1 H2 H3 H4 H5. unfold total_vol.
  destruct molar_mass_values as (M1 & M2 & M3 & M4 & M5).
  repeat (first
    [ erewrite bindM_ok by (apply self_results_get; eassumption)
    | erewrite bindM_ok
        by (unfold lift; rewrite ?M1, ?M2, ?M3, ?M4, ?M5; reflexivity)
    | erewrite bindM_ok
        by (unfold lift; rewrite fdiv_ok by lra; reflexivity) ]).
  reflexivity.
Qed.

Lemma vol_share_value self key gas mass m tv :
  dict_get (results self) key = Some (PyFloat mass) ->
  molar_mass gas = Ok m -> m <> 0 -> tv <> 0 ->
  vol_share key gas tv self = (Ok (mass / m / tv * 100), self).
Proof.
  intros H Hm Hm0 Ht. unfold vol_share.
  erewrite bindM_ok by (apply self_results_get; eassumption).
  erewrite bindM_ok by (unfold lift; rewrite Hm; reflexivity).
  erewrite bindM_ok
    by (unfold lift; rewrite fdiv_ok by assumption; reflexivity).
  erewrite bindM_ok
    by (unfold lift; rewrite fdiv_ok by assumption; reflexivity).
  reflexivity.
Qed.

Lemma volumetric_fractions_value self CO2 H2O O2 N2 SO2 :
  dict_get (results self) "CO2_mass" = Some (PyFloat CO2) ->
  dict_get (results self) "H2O_mass" = Some (PyFloat H2O) ->
  dict_get (results self) "O2_excess" = Some (PyFloat O2) ->
  dict_get (results self) "N2_mass" = Some (PyFloat N2) ->
  dict_get (results self) "SO2_mass" = Some (PyFloat SO2) ->
  let tv := product_moles CO2 H2O O2 N2 SO2 in
  volumetric_fractions self =
  (Ok (if Rlt_dec 0 tv
       then (CO2 / 44.01 / tv * 100, H2O / 18.015 / tv * 100,
             SO2 / 64.066 / tv * 100, O2 / 31.999 / tv * 100,
             N2 / 28.014 / tv * 100)
       else (0, 0, 0, 0, 0)), self).
Proof.
  intros H1 H2 H3 H4 H5 tv. unfold volumetric_fractions.
  erewrite bindM_ok by (eapply total_vol_value; eassumption).
  fold tv. destruct (Rlt_dec 0 tv) as [Htv|Htv]; [|reflexivity].
  destruct molar_mass_values as (M1 & M2 & M3 & M4 & M5).
  repeat (erewrite bindM_ok
            by (eapply vol_share_value;
                [eassumption | eassumption | lra | lra])).
  reflexivity.
Qed.

(** On a complete store [_compile_results] returns, leaves the object
    untouched, copies the five masses, and reports the five shares. *)
Lemma compile_results_value self :
  complete_results (results self) = true ->
  exists r,
    _compile_results self = (Ok r, self) /\
    dict_get (results self) "CO2_mass" = Some (PyFloat (results.co2 r)) /\
    dict_get (results self) "H2O_mass" = Some (PyFloat (results.h2o r)) /\
    dict_get (results self) "O2_excess"
    = Some (PyFloat (results.o2_excess r)) /\
    dict_get (results self) "N2_mass" = Some (PyFloat (results.n2 r)) /\
    dict_get (results self) "SO2_mass" = Some (PyFloat (results.so2 r)) /\
    (results.co2_fraction_vol r, results.h2o_fraction_vol r,
     results.so2_fraction_vol r, results.o2_fraction_vol r,
     results.n2_fraction_vol r) =
    (let tv := product_moles (results.co2 r) (results.h2o r)
                             (results.o2_excess r) (results.n2 r)
                             (results.so2 r) in
     if Rlt_dec 0 tv
     then (results.co2 r / 44.01 / tv * 100,
           results.h2o r / 18.015 / tv * 100,
           results.so2 r / 64.066 / tv * 100,
           results.o2_excess r / 31.999 / tv * 100,
           results.n2 r / 28.014 / tv * 100)
     else (0, 0, 0, 0, 0)).
Proof.
  intros H. unfold complete_results in H.
  apply andb_true_iff in H. destruct H as [Hf Hd].
  apply holds_dict_get in Hd. destruct Hd as [cw Hcw].
  cbn [forallb compiled_keys] in Hf.
  apply andb_true_iff in Hf. destruct Hf as [K1 Hf].
  apply andb_true_iff in Hf. destruct Hf as [K2 Hf].
  apply andb_true_iff in Hf. destruct Hf as [K3 Hf].
  apply andb_true_iff in Hf. destruct Hf as [K4 Hf].
  apply andb_true_iff in Hf. destruct Hf as [K5 Hf].
  apply holds_float_get in K1, K2, K3, K4, K5.
  destruct K1 as [CO2 K1], K2 as [H2O K2], K3 as [O2 K3],
           K4 as [N2 K4], K5 as [SO2 K5].
  repeat match type of Hf with
         | (_ && _)%bool = true =>
             apply andb_true_iff in Hf;
             let K := fresh "K" in
             destruct Hf as [K Hf];
             apply holds_float_get in K; destruct K as [? K]
         end.
  clear Hf.
  unfold _compile_results.
  erewrite bindM_ok by (eapply volumetric_fractions_value; eassumption).
  set (fr := if Rlt_dec 0 _ then _ else _).
  assert (Hfr : exists a b c d e, fr = (a, b, c, d, e)).
  { destruct fr as [[[[a b] c] d] e]. do 5 eexists. reflexivity. }
  destruct Hfr as (a & b & c & d & e & Hfr).
  rewrite Hfr.
  repeat (first
    [ erewrite bindM_ok by (apply self_results_get; eassumption)
    | erewrite bindM_ok by (apply self_results_dict_get; eassumption)
    | erewrite bindM_ok by (unfold self_input; cbn; reflexivity) ]).
  unfold ret.
  eexists. split; [reflexivity|]. cbn.
  repeat (split; [assumption|]).
  rewrite <- Hfr. reflexivity.
Qed.

(** The last stage on its own: on a store that holds every quantity
    of the earlier stages, [_compile_results] returns and reports, for
    each species, the share of its moles (the stored mass over the molar
    mass) in the total, in percent; the five shares sum to 100 when the
    total is positive and are all 0 otherwise. *)
Lemma compile_results_shares self :
  complete_results (results self) = true ->
  exists r CO2 H2O O2 N2 SO2,
    _compile_results self = (Ok r, self) /\
    dict_get (results self) "CO2_mass" = Some (PyFloat CO2) /\
    dict_get (results self) "H2O_mass" = Some (PyFloat H2O) /\
    dict_get (results self) "O2_excess" = Some (PyFloat O2) /\
    dict_get (results self) "N2_mass" = Some (PyFloat N2) /\
    dict_get (results self) "SO2_mass" = Some (PyFloat SO2) /\
    let moles := product_moles CO2 H2O O2 N2 SO2 in
    (0 < moles ->
     results.co2_fraction_vol r = CO2 / 44.01 / moles * 100 /\
     results.h2o_fraction_vol r = H2O / 18.015 / moles * 100 /\
     results.so2_fraction_vol r = SO2 / 64.066 / moles * 100 /\
     results.o2_fraction_vol r = O2 / 31.999 / moles * 100 /\
     results.n2_fraction_vol r = N2 / 28.014 / moles * 100 /\
     fraction_sum r = 100) /\
    (moles <= 0 ->
     results.co2_fraction_vol r = 0 /\ results.h2o_fraction_vol r = 0 /\
     results.so2_fraction_vol r = 0 /\ results.o2_fraction_vol r = 0 /\
     results.n2_fraction_vol r = 0).
Proof.
  intros H.
  destruct (compile_results_value self H)
    as (r & Hr & K1 & K2 & K3 & K4 & K5 & Hfr).
  exists r, (results.co2 r), (results.h2o r), (results.o2_excess r),
    (results.n2 r), (results.so2 r).
  split; [exact Hr|].
  split; [exact K1|]. split; [exact K2|]. split; [exact K3|].
  split; [exact K4|]. split; [exact K5|].
  cbv zeta in *. set (moles := product_moles _ _ _ _ _) in *.
  split.
  - intros Hpos. destruct (Rlt_dec 0 moles); [|contradiction].
    injection Hfr as H1 H2 H3 H4 H5.
    repeat (split; [assumption|]).
    unfold fraction_sum. rewrite H1, H2, H3, H4, H5.
    unfold moles, product_moles in *. field. lra.
  - intros Hzero. destruct (Rlt_dec 0 moles); [lra|].
    injection Hfr as H1 H2 H3 H4 H5. auto.
Qed.

Lemma compile_results_shares_samples :
  (exists r,
     _compile_results sample_calculator = (Ok r, sample_calculator) /\
     fraction_sum r = 100) /\
  (exists r,
     _compile_results empty_store_calculator
     = (Ok r, empty_store_calculator) /\
     results.co2_fraction_vol r = 0 /\ results.h2o_fraction_vol r = 0 /\
     results.so2_fraction_vol r = 0 /\ results.o2_fraction_vol r = 0 /\
     results.n2_fraction_vol r = 0).
Proof.
  split.
  - destruct (compile_results_shares sample_calculator eq_refl)
      as (r & CO2 & H2O & O2 & N2 & SO2 & Hr & K1 & K2 & K3 & K4 & K5
          & Hpos & _).
    exists r. split; [exact Hr|].
    cbn in K1, K2, K3, K4, K5.
    injection K1 as <-. injection K2 as <-. injection K3 as <-.
    injection K4 as <-. injection K5 as <-.
    apply Hpos. unfold product_moles. lra.
  - destruct (compile_results_shares empty_store_calculator eq_refl)
      as (r & CO2 & H2O & O2 & N2 & SO2 & Hr & K1 & K2 & K3 & K4 & K5
          & _ & Hzero).
    exists r. split; [exact Hr|].
    cbn in K1, K2, K3, K4, K5.
    injection K1 as <-. injection K2 as <-. injection K3 as <-.
    injection K4 as <-. injection K5 as <-.
    apply Hzero. unfold product_moles. lra.
Qed.

Lemma test_complete_input_conditions :
  fuel_total test_complete_input <> 0 /\
  reference_ambient test_complete_input.
Proof.
  unfold fuel_total, reference_ambient. cbn. repeat split; lra.
Qed.

(** C5: no run of the pipeline returns a result, so there are no
    returned fractions to sum: on every calculator and with every solver
    [calculate_all] raises before [_compile_results] is reached, and on
    the input of [test_complete_calculation], which asserts that the
    five returned fractions sum to 100 within 1, it raises [NameError]
    for [oxygen].  Run on its own on a store that holds the quantities
    of the earlier stages, [_compile_results] does report shares of the
    stored masses that sum to 100 when the total of moles is positive
    and are all 0 otherwise. *)
Theorem calculate_all_returns_no_fractions :
  (forall fsolve self, is_ok (fst (calculate_all fsolve self)) = false) /\
  (forall fsolve,
     fst (calculate_all fsolve (__init__ test_complete_input))
     = Raise (NameError "oxygen")) /\
  (forall self,
     complete_results (results self) = true ->
     exists r CO2 H2O O2 N2 SO2,
       _compile_results self = (Ok r, self) /\
       dict_get (results self) "CO2_mass" = Some (PyFloat CO2) /\
       dict_get (results self) "H2O_mass" = Some (PyFloat H2O) /\
       dict_get (results self) "O2_excess" = Some (PyFloat O2) /\
       dict_get (results self) "N2_mass" = Some (PyFloat N2) /\
       dict_get (results self) "SO2_mass" = Some (PyFloat SO2) /\
       let moles := product_moles CO2 H2O O2 N2 SO2 in
       (0 < moles ->
        results.co2_fraction_vol r = CO2 / 44.01 / moles * 100 /\
        results.h2o_fraction_vol r = H2O / 18.015 / moles * 100 /\
        results.so2_fraction_vol r = SO2 / 64.066 / moles * 100 /\
        results.o2_fraction_vol r = O2 / 31.999 / moles * 100 /\
        results.n2_fraction_vol r = N2 / 28.014 / moles * 100 /\
        fraction_sum r = 100) /\
       (moles <= 0 ->
        results.co2_fraction_vol r = 0 /\ results.h2o_fraction_vol r = 0 /\
        results.so2_fraction_vol r = 0 /\ results.o2_fraction_vol r = 0 /\
        results.n2_fraction_vol r = 0)).
Proof.
  split; [exact calculate_all_not_ok|]. split.
  - intros fsolve.
    destruct test_complete_input_conditions as [Hf Ha].
    destruct (calculate_all_NameError fsolve (__init__ test_complete_input)
                Hf Ha) as (res & H).
    rewrite H. reflexivity.
  - exact compile_results_shares.
Qed.

(* ------------------------------------------------------------------ *)
(** ** Sweeps and grid search *)
(* ------------------------------------------------------------------ *)

Ltac case_name name ks tac :=
  lazymatch ks with
  | nil => idtac
  | cons ?k ?ks' =>
      destruct (String.eqb name k); [ tac | case_name name ks' tac ]
  end.

(** Assigning a float to a name that [getattr] knows succeeds. *)
Lemma setattr_float_ok i name v0 :
  biomass.getattr i name = Ok v0 ->
  forall i' v, exists i'', biomass.setattr i' name (PyFloat v) = Ok i''.
Proof.
  intros H i' v. unfold biomass.getattr in H. unfold biomass.setattr.
  destruct i'.
  let ks := eval unfold field_names in field_names in
  case_name name ks ltac:(cbn; eexists; reflexivity).
  discriminate.
Qed.

(** So does writing back the value that [getattr] returned. *)
Lemma setattr_restore_ok i name v0 :
  biomass.getattr i name = Ok v0 ->
  forall i', exists i'', biomass.setattr i' name v0 = Ok i''.
Proof.
  intros H i'. unfold biomass.getattr in H. unfold biomass.setattr.
  destruct i'.
  let ks := eval unfold field_names in field_names in
  case_name name ks ltac:(try (injection H as <-); cbn; eexists; reflexivity).
  discriminate.
Qed.

Lemma setattr_excess_air i v :
  exists i',
    biomass.setattr i "excess_air" (PyFloat v) = Ok i' /\
    fuel_total i' = fuel_total i /\
    (reference_ambient i -> reference_ambient i') /\
    excess_air i' = v.
Proof.
  destruct i. eexists. split; [reflexivity|]. cbn. auto.
Qed.

Lemma linspace_returns a b n :
  (0 <= n)%Z -> exists l, linspace a b n = Ok l /\ length l = Z.to_nat n.
Proof.
  intros Hn. unfold linspace. destruct (Z.ltb_spec n 0); [lia|].
  eexists. split; [reflexivity|].
  destruct (Z.to_nat n) as [|[|k]]; [reflexivity | reflexivity |].
  rewrite length_map, length_seq. reflexivity.
Qed.

Lemma linspace_negative a b n :
  (n < 0)%Z -> linspace a b n = Raise ValueError.
Proof.
  intros Hn. unfold linspace. destruct (Z.ltb_spec n 0); [reflexivity | lia].
Qed.

(** The samples start at [a], and for two samples or more end at [b]. *)
Lemma linspace_cons a b n :
  (1 <= n)%Z -> exists rest, linspace a b n = Ok (a :: rest).
Proof.
  intros Hn. unfold linspace.
  destruct (Z.ltb_spec n 0); [lia|].
  destruct (Z.to_nat n) as [|[|k]] eqn:E; [lia | |].
  - eexists. reflexivity.
  - eexists. cbn [seq map]. f_equal. f_equal. cbn [INR]. lra.
Qed.

Lemma linspace_nth a b n i :
  (2 <= n)%Z -> (i < Z.to_nat n)%nat ->
  exists l,
    linspace a b n = Ok l /\
    nth i l 0 = a + INR i * ((b - a) / (IZR n - 1)).
Proof.
  intros Hn Hi. unfold linspace.
  destruct (Z.ltb_spec n 0); [lia|].
  destruct (Z.to_nat n) as [|[|k]] eqn:E; [lia | lia |].
  eexists. split; [reflexivity|].
  rewrite <- E in *.
  set (step := (b - a) / INR (Z.to_nat n - 1)).
  rewrite (nth_indep _ 0 (INR 0 * step + a))
    by (rewrite length_map, length_seq; exact Hi).
  rewrite (map_nth (fun i => INR i * step + a)).
  rewrite seq_nth by exact Hi. cbn [Nat.add].
  assert (Hn' : INR (Z.to_nat n) = IZR n)
    by (rewrite INR_IZR_INZ, Z2Nat.id by lia; reflexivity).
  unfold step. rewrite minus_INR by lia. rewrite Hn'.
  cbn [INR]. lra.
Qed.

(** The relative sensitivity of a channel whose base output is not 0
    is a list multiplied by a float. *)
Lemma relative_sensitivity_raises v values base_y dy_dx :
  base_y <> 0 ->
  relative_sensitivity (v :: values) base_y dy_dx = Raise TypeError.
Proof.
  intros H. unfold relative_sensitivity.
  destruct (Req_dec_T base_y 0); [contradiction | reflexivity].
Qed.

Section AnyCalculator.

(** A calculator method that returns on every object. *)
Variable run : M results.CombustionResults.
Hypothesis run_returns : forall s, exists r s', run s = (Ok r, s').

Lemma sensitivity_loop_returns name v0 i0 :
  biomass.getattr i0 name = Ok v0 ->
  forall values t v p e self,
  exists t' v' p' e' self',
    sensitivity_loop run name values (t, v, p, e) self
    = (Ok (t', v', p', e'), self') /\
    length t' = (length t + length values)%nat /\
    length v' = (length v + length values)%nat /\
    length p' = (length p + length values)%nat /\
    length e' = (length e + length values)%nat.
Proof.
  intros Hname values. induction values as [|x values IH]; intros t v p e self.
  - do 5 eexists. split; [reflexivity|]. cbn. repeat split; lia.
  - cbn [sensitivity_loop].
    destruct (setattr_float_ok _ _ _ Hname (input self) x) as (i' & Hi').
    unfold bindM at 1. unfold self_setattr at 1. rewrite Hi'.
    destruct (run_returns {| input := i'; results := results self |})
      as (r & s' & Hr).
    unfold bindM at 1. rewrite Hr.
    destruct (IH (t ++ [results.outlet_gas_temp r - 273.15])%list
                 (v ++ [results.gas_velocity r])%list
                 (p ++ [results.pressure_drop r])%list
                 (e ++ [results.real_efficiency r])%list s')
      as (t' & v' & p' & e' & s'' & Hl & Ht & Hv & Hp & He).
    exists t', v', p', e', s''. split; [exact Hl|].
    rewrite length_app in Ht, Hv, Hp, He. cbn in *. repeat split; lia.
Qed.

(** With such a method the sweep returns the sampled values and four
    channels of the same length. *)
Lemma sweep_lengths name values self v0 :
  biomass.getattr (input self) name = Ok v0 ->
  exists r self',
    sensitivity_analysis run name values self = (Ok r, self') /\
    results.parameter_values r = values /\
    length (results.temperatures r) = length values /\
    length (results.velocities r) = length values /\
    length (results.pressure_drops r) = length values /\
    length (results.efficiencies r) = length values.
Proof.
  intros Hname. unfold sensitivity_analysis.
  unfold bindM at 1. unfold self_getattr. rewrite Hname.
  destruct (sensitivity_loop_returns name v0 _ Hname values [] [] [] [] self)
    as (t & v & p & e & s' & Hl & Ht & Hv & Hp & He).
  unfold bindM at 1. rewrite Hl.
  destruct (setattr_restore_ok _ _ _ Hname (input s')) as (i' & Hi').
  unfold bindM at 1. unfold self_setattr. rewrite Hi'.
  do 2 eexists. split; [reflexivity|]. cbn in *. auto.
Qed.

Lemma optimize_loop_returns name objective constraints v0 i0 :
  biomass.getattr i0 name = Ok v0 ->
  forall values best self,
  exists best' self',
    optimize_loop run name objective constraints values best self
    = (Ok best', self').
Proof.
  intros Hname values. induction values as [|v values IH]; intros best self.
  - do 2 eexists. reflexivity.
  - cbn [optimize_loop].
    destruct (setattr_float_ok _ _ _ Hname (input self) v) as (i' & Hi').
    unfold bindM at 1. unfold self_setattr at 1. rewrite Hi'.
    destruct (run_returns {| input := i'; results := results self |})
      as (r & s' & Hr).
    unfold bindM at 1. rewrite Hr.
    apply IH.
Qed.

(** When no result of the method satisfies the constraints, the loop
    leaves [(best_value, best_score)] as it was. *)
Lemma optimize_loop_no_valid name objective constraints v0 i0 :
  biomass.getattr i0 name = Ok v0 ->
  (forall s r s', run s = (Ok r, s') -> satisfies constraints r = false) ->
  forall values best self,
  exists self',
    optimize_loop run name objective constraints values best self
    = (Ok best, self').
Proof.
  intros Hname Hno values.
  induction values as [|v values IH]; intros best self.
  - eexists. reflexivity.
  - cbn [optimize_loop].
    destruct (setattr_float_ok _ _ _ Hname (input self) v) as (i' & Hi').
    unfold bindM at 1. unfold self_setattr at 1. rewrite Hi'.
    destruct (run_returns {| input := i'; results := results self |})
      as (r & s' & Hr).
    unfold bindM at 1. rewrite Hr.
    rewrite (Hno _ _ _ Hr). cbn [andb].
    apply IH.
Qed.

Lemma results_getattr_objective r objective :
  In objective objectives ->
  results.getattr r objective = Raise (AttributeError objective).
Proof.
  intros [<-|[<-|[<-|[]]]]; reflexivity.
Qed.

(** With a float field to optimize and one of the objectives efficiency,
    temperature or velocity, the search does not return an outcome even
    when every evaluation succeeds: the base case's score is read as the
    attribute of the result named by the objective, and the result has
    no such attribute. *)
Lemma optimize_parameter_AttributeError name objective constraints self x :
  biomass.getattr (input self) name = Ok (PyFloat x) ->
  In objective objectives ->
  fst (optimize_parameter run name objective constraints self)
  = Raise (AttributeError objective).
Proof.
  intros Hname Hobj. unfold optimize_parameter.
  unfold bindM at 1. unfold self_getattr at 1. rewrite Hname.
  unfold bindM at 1. cbn [lift as_float].
  match goal with |- context [linspace ?a ?b 100] =>
    destruct (linspace_returns a b 100 ltac:(lia)) as (values & Hl & _)
  end.
  unfold bindM at 1. unfold lift at 1. rewrite Hl.
  match goal with
  | |- context [optimize_loop run name objective ?c values ?best] =>
    destruct (optimize_loop_returns name objective c _ _ Hname values best self)
      as ([bv bs] & s1 & Hloop)
  end.
  unfold bindM at 1. rewrite Hloop.
  destruct (setattr_float_ok _ _ _ Hname (input s1) x) as (i2 & Hi2).
  unfold bindM at 1. unfold self_setattr at 1. rewrite Hi2.
  destruct (setattr_float_ok _ _ _ Hname i2 bv) as (i3 & Hi3).
  unfold bindM at 1. unfold self_setattr at 1. cbn [input results].
  rewrite Hi3.
  destruct (run_returns {| input := i3; results := results s1 |})
    as (r4 & s4 & Hr4).
  unfold bindM at 1. rewrite Hr4.
  destruct (setattr_float_ok _ _ _ Hname (input s4) x) as (i5 & Hi5).
  unfold bindM at 1. unfold self_setattr at 1. rewrite Hi5.
  destruct (run_returns {| input := i5; results := results s4 |})
    as (r6 & s6 & Hr6).
  unfold bindM at 1. rewrite Hr6.
  unfold bindM at 1. unfold lift at 1.
  rewrite results_getattr_objective by assumption. reflexivity.
Qed.

End AnyCalculator.

(** The sweep over excess air stops at its first sample. *)
Lemma sweep_NameError fsolve self v rest :
  fuel_total (input self) <> 0 ->
  reference_ambient (input self) ->
  fst (sensitivity_analysis (calculate_all fsolve) "excess_air"
                            (v :: rest) self)
  = Raise (NameError "oxygen").
Proof.
  intros Hf Ha.
  destruct (setattr_excess_air (input self) v) as (i' & Hs & Hf' & Ha' & _).
  unfold sensitivity_analysis, bindM at 1.
  cbn [self_getattr biomass.getattr String.eqb Ascii.eqb Bool.eqb].
  cbn [sensitivity_loop]. unfold bindM at 1. unfold bindM at 1.
  unfold self_setattr at 1. rewrite Hs.
  destruct (calculate_all_NameError fsolve
              {| input := i'; results := results self |})
    as (res & Hc); cbn [input]; [rewrite Hf'; assumption | auto |].
  unfold bindM at 1. cbn [input results] in *. rewrite Hc. reflexivity.
Qed.

(** C6: the sweep of the excess air over 10, 20, 30, 40, 50 % on the
    reference bagasse input does not produce a temperature sequence: it
    raises [NameError] at its first sample, in [combustion_products]. *)
Theorem excess_air_sweep_raises :
  forall fsolve,
    fst (sensitivity_analysis (calculate_all fsolve) "excess_air"
                              [10; 20; 30; 40; 50]
                              (__init__ reference_input))
    = Raise (NameError "oxygen").
Proof.
  intros fsolve. destruct reference_input_conditions as [Hf Ha].
  apply sweep_NameError; assumption.
Qed.

(** C7: on the reference input, for every range and every sample count
    N >= 1, the sensitivity sweep of the excess air returns no
    SweepResult: it raises [NameError] while evaluating its first
    sample. *)
Theorem analyze_parameter_raises fsolve np_gradient range_percent n :
  (1 <= n)%Z ->
  fst (analyze_parameter (calculate_all fsolve) np_gradient
         "excess_air" range_percent n (__init__ reference_input))
  = Raise (NameError "oxygen").
Proof.
  intros Hn. destruct reference_input_conditions as [Hf Ha].
  set (self := __init__ reference_input).
  unfold analyze_parameter.
  unfold bindM at 1.
  cbn [self_getattr biomass.getattr String.eqb Ascii.eqb Bool.eqb].
  unfold bindM at 1. cbn [lift as_float].
  set (lo := excess_air (input self) * (1 - range_percent / 100)).
  set (hi := excess_air (input self) * (1 + range_percent / 100)).
  destruct (linspace_cons lo hi n Hn) as (rest & Hl).
  unfold bindM at 1. unfold lift at 1. rewrite Hl.
  unfold bindM at 1.
  pose proof (sweep_NameError fsolve self lo rest Hf Ha) as Hs.
  destruct (sensitivity_analysis _ _ _ self) as [[r|e] s']; cbn in Hs.
  - discriminate.
  - injection Hs as ->. reflexivity.
Qed.

Lemma analyze_parameter_raises_default :
  (1 <= 20)%Z /\
  forall fsolve np_gradient,
    fst (analyze_parameter (calculate_all fsolve) np_gradient
           "excess_air" 50 20 (__init__ reference_input))
    = Raise (NameError "oxygen").
Proof.
  split; [lia|]. intros fsolve np_gradient.
  apply (analyze_parameter_raises fsolve np_gradient 50 20). lia.
Defined.

Lemma optimize_parameter_NameError fsolve self objective constraints :
  fuel_total (input self) <> 0 ->
  reference_ambient (input self) ->
  fst (optimize_parameter (calculate_all fsolve)
         "excess_air" objective constraints self)
  = Raise (NameError "oxygen").
Proof.
  intros Hf Ha.
  unfold optimize_parameter.
  unfold bindM at 1.
  cbn [self_getattr biomass.getattr String.eqb Ascii.eqb Bool.eqb].
  unfold bindM at 1. cbn [lift as_float].
  match goal with |- context [linspace ?a ?b 100] =>
    destruct (linspace_cons a b 100 ltac:(lia)) as (rest & Hl);
    set (lo := a) in *
  end.
  unfold bindM at 1. unfold lift at 1. rewrite Hl.
  unfold bindM at 1. cbn [optimize_loop].
  unfold bindM at 1.
  destruct (setattr_excess_air (input self) lo) as (i' & Hs & Hf' & Ha' & _).
  unfold self_setattr at 1. rewrite Hs.
  destruct (calculate_all_NameError fsolve
              {| input := i'; results := results self |})
    as (res & Hc); cbn [input]; [rewrite Hf'; assumption | auto |].
  unfold bindM at 1. cbn [input results] in *. rewrite Hc. reflexivity.
Qed.

(** C8: on the reference input, optimizing the excess air for efficiency
    under a floor [min_efficiency = 101] that no sample can meet does not
    return the base value: the call raises [NameError] while evaluating
    the first grid point. *)
Theorem optimize_infeasible_raises :
  forall fsolve,
    fst (optimize_parameter (calculate_all fsolve) "excess_air" "efficiency"
           (Some [("min_efficiency", 101)]) (__init__ reference_input))
    = Raise (NameError "oxygen").
Proof.
  intros fsolve. destruct reference_input_conditions as [Hf Ha].
  apply optimize_parameter_NameError; assumption.
Qed.

(** With a calculator that returns, the infeasible search keeps the base
    value and the score minus infinity through the loop, and then raises
    at the score of the base case. *)
Lemma constant_calculator_returns :
  forall s, exists r s', constant_calculator s = (Ok r, s').
Proof. intros s. do 2 eexists. reflexivity. Qed.

Lemma constant_calculator_infeasible :
  forall s r s',
    constant_calculator s = (Ok r, s') ->
    satisfies [("min_efficiency", 101)] r = false.
Proof.
  intros s r s' H. injection H as <- _.
  unfold satisfies. cbn.
  destruct (Rlt_dec 90 101); [reflexivity | lra].
Qed.

Lemma optimize_loop_infeasible_sample values :
  exists self',
    optimize_loop constant_calculator "excess_air" "efficiency"
                  [("min_efficiency", 101)] values (30, NegInf)
                  (__init__ reference_input)
    = (Ok (30, NegInf), self').
Proof.
  apply (optimize_loop_no_valid constant_calculator
           constant_calculator_returns "excess_air" "efficiency"
           [("min_efficiency", 101)] (PyFloat 30) reference_input).
  - reflexivity.
  - exact constant_calculator_infeasible.
Qed.

(** C9: [optimize_parameter] does not return an outcome holding the
    chosen value, the base value, the result and an improvement.  On the
    reference input it raises [NameError] at the first grid point, for
    every objective and constraint set.  And with any calculator method
    that returns on every object, for a float field and each of the
    objectives efficiency, temperature and velocity, it raises
    [AttributeError] when it computes the improvement: the score of the
    base case is read as [getattr(result, objective)], not computed as
    the samples' scores are. *)
Theorem optimize_outcome_raises :
  (forall fsolve objective constraints,
     fst (optimize_parameter (calculate_all fsolve) "excess_air" objective
            constraints (__init__ reference_input))
     = Raise (NameError "oxygen")) /\
  (forall run : M results.CombustionResults,
     (forall s, exists r s', run s = (Ok r, s')) ->
     forall name objective constraints self x,
       biomass.getattr (input self) name = Ok (PyFloat x) ->
       In objective objectives ->
       fst (optimize_parameter run name objective constraints self)
       = Raise (AttributeError objective)).
Proof.
  split.
  - intros fsolve objective constraints.
    destruct reference_input_conditions as [Hf Ha].
    apply optimize_parameter_NameError; assumption.
  - intros run Hrun name objective constraints self x Hname Hobj.
    exact (optimize_parameter_AttributeError run Hrun name objective
             constraints self x Hname Hobj).
Qed.

Lemma optimize_outcome_raises_sample :
  (biomass.getattr (input (__init__ reference_input)) "excess_air"
   = Ok (PyFloat 30) /\
   In "efficiency" objectives /\
   forall s, exists r s', constant_calculator s = (Ok r, s')) /\
  fst (optimize_parameter constant_calculator "excess_air" "efficiency"
         (Some [("min_efficiency", 101)]) (__init__ reference_input))
  = Raise (AttributeError "efficiency").
Proof.
  split.
  - split; [reflexivity|]. split; [left; reflexivity|].
    exact constant_calculator_returns.
  - apply (proj2 optimize_outcome_raises constant_calculator
             constant_calculator_returns "excess_air" "efficiency"
             (Some [("min_efficiency", 101)]) (__init__ reference_input) 30).
    + reflexivity.
    + left. reflexivity.
Defined.

(* ------------------------------------------------------------------ *)
(** ** Humid air *)
(* ------------------------------------------------------------------ *)

(** X1: [saturated_vapor_pressure] divides by zero at -233.426 degrees,
    the pole of the Antoine equation.  Just below the pole, from -239
    degrees on, the power of ten overflows and [math.pow] raises
    [OverflowError]; just above it, up to -228.5 degrees, the power
    underflows and the pressure returned is 0.0.  From -228 degrees on,
    and up to -240 degrees, the pressure returned is 10 to the Antoine
    exponent and is positive; from -228 degrees on it grows strictly with
    the temperature.  The function raises no other exception. *)
Theorem saturated_vapor_pressure_behaviour :
  saturated_vapor_pressure (-233.426) = Raise ZeroDivisionError /\
  (forall T, -239 <= T < -233.426 ->
     saturated_vapor_pressure T = Raise OverflowError) /\
  (forall T, -233.426 < T <= -228.5 -> saturated_vapor_pressure T = Ok 0) /\
  (forall T, T <= -240 \/ -228 <= T ->
     exists p,
       saturated_vapor_pressure T = Ok p /\
       p = Rpower 10 (antoine_exponent T) /\ 0 < p) /\
  (forall T1 T2, -228 <= T1 -> T1 < T2 ->
     exists p1 p2,
       saturated_vapor_pressure T1 = Ok p1 /\
       saturated_vapor_pressure T2 = Ok p2 /\ p1 < p2) /\
  (forall T e, saturated_vapor_pressure T = Raise e ->
     e = ZeroDivisionError \/ e = OverflowError).
Proof.
  split; [exact saturated_vapor_pressure_pole|].
  split; [exact saturated_vapor_pressure_overflow|].
  split; [exact saturated_vapor_pressure_underflow|].
  split; [|split].
  - intros T [HT|HT].
    + destruct (saturated_vapor_pressure_cold T HT) as [Hs Hp].
      eexists. split; [exact Hs|]. split; [reflexivity | lra].
    + rewrite saturated_vapor_pressure_value by assumption.
      eexists. split; [reflexivity|]. split; [reflexivity|].
      unfold Rpower. apply exp_pos.
  - intros T1 T2 H1 H12.
    rewrite !saturated_vapor_pressure_value by lra.
    do 2 eexists. split; [reflexivity|]. split; [reflexivity|].
    apply Rpower_lt; [lra|].
    assert (/ (233.426 + T2) < / (233.426 + T1)).
    { apply Rinv_lt_contravar; [|lra]. apply Rmult_lt_0_compat; lra. }
    unfold Rdiv. nra.
  - exact saturated_vapor_pressure_raises.
Qed.

Lemma absolute_humidity_value RH T P :
  -228 <= T ->
  absolute_humidity RH T P
  = fdiv (0.622 * vapor_pressure_kPa RH T) (P - vapor_pressure_kPa RH T).
Proof.
  intros HT. unfold absolute_humidity.
  rewrite saturated_vapor_pressure_value by assumption. reflexivity.
Qed.

Lemma absolute_humidity_pole RH P :
  absolute_humidity RH (-233.426) P = Raise ZeroDivisionError.
Proof.
  unfold absolute_humidity. rewrite saturated_vapor_pressure_pole. reflexivity.
Qed.

Lemma absolute_humidity_overflow RH T P :
  -239 <= T < -233.426 -> absolute_humidity RH T P = Raise OverflowError.
Proof.
  intros HT. unfold absolute_humidity.
  rewrite saturated_vapor_pressure_overflow by assumption. reflexivity.
Qed.

(** Where the saturation pressure underflows the humidity is 0 over
    the atmospheric pressure. *)
Lemma absolute_humidity_underflow RH T P :
  -233.426 < T <= -228.5 ->
  (P = 0 -> absolute_humidity RH T P = Raise ZeroDivisionError) /\
  (P <> 0 -> exists w, absolute_humidity RH T P = Ok w /\ w = 0).
Proof.
  intros HT. unfold absolute_humidity.
  rewrite saturated_vapor_pressure_underflow by assumption. cbn. split.
  - intros ->. unfold fdiv. destruct (Req_dec_T _ 0) as [_|Hn]; [reflexivity|].
    exfalso. apply Hn. lra.
  - intros HP. rewrite fdiv_ok by lra.
    eexists. split; [reflexivity|]. field. lra.
Qed.

Lemma absolute_humidity_raises RH T P e :
  absolute_humidity RH T P = Raise e ->
  e = ZeroDivisionError \/ e = OverflowError.
Proof.
  unfold absolute_humidity.
  destruct (saturated_vapor_pressure T) as [ps|e'] eqn:Es.
  - cbn. unfold fdiv. destruct (Req_dec_T _ 0); [|discriminate].
    intros H. injection H as <-. left. reflexivity.
  - cbn. intros H. injection H as <-.
    exact (saturated_vapor_pressure_raises T e' Es).
Qed.

(** X2: the absolute humidity follows the saturation pressure.  At the
    pole of the Antoine equation it raises [ZeroDivisionError], from
    -239 degrees up to the pole [OverflowError]; from the pole up to
    -228.5 degrees, where the saturation pressure is 0.0, it is 0 and
    raises [ZeroDivisionError] for an atmospheric pressure of 0.  From
    -228 degrees on it is [0.622 * Pv / (P - Pv)] with [Pv] the partial
    pressure of the vapour in kPa: it raises [ZeroDivisionError] exactly
    when the atmospheric pressure equals [Pv], is 0 for dry air, and is
    not negative while [Pv] stays below the atmospheric pressure. *)
Theorem absolute_humidity_behaviour RH T P :
  (T = -233.426 -> absolute_humidity RH T P = Raise ZeroDivisionError) /\
  (-239 <= T < -233.426 -> absolute_humidity RH T P = Raise OverflowError) /\
  (-233.426 < T <= -228.5 ->
   (P = 0 -> absolute_humidity RH T P = Raise ZeroDivisionError) /\
   (P <> 0 -> exists w, absolute_humidity RH T P = Ok w /\ w = 0)) /\
  (-228 <= T ->
   (P = vapor_pressure_kPa RH T ->
    absolute_humidity RH T P = Raise ZeroDivisionError) /\
   (P <> vapor_pressure_kPa RH T ->
    exists w,
      absolute_humidity RH T P = Ok w /\
      w * (P - vapor_pressure_kPa RH T) = 0.622 * vapor_pressure_kPa RH T /\
      (RH = 0 -> w = 0) /\
      (0 <= RH -> vapor_pressure_kPa RH T < P -> 0 <= w))).
Proof.
  split; [intros ->; apply absolute_humidity_pole|].
  split; [apply absolute_humidity_overflow|].
  split; [apply absolute_humidity_underflow|].
  intros HT. rewrite absolute_humidity_value by assumption. split.
  - intros ->. replace (_ - _) with 0 by lra. apply fdiv_zero.
  - intros HP. rewrite fdiv_ok by lra.
    eexists. split; [reflexivity|]. split; [field; lra|]. split.
    + intros ->. unfold vapor_pressure_kPa. field.
      unfold vapor_pressure_kPa in HP. lra.
    + intros HRH Hlt.
      assert (0 <= vapor_pressure_kPa RH T).
      { unfold vapor_pressure_kPa.
        assert (0 < Rpower 10 (8.07131 - 1730.63 / (233.426 + T)))
          by (unfold Rpower; apply exp_pos).
        nra. }
      apply Rmult_le_pos; [lra|]. left. apply Rinv_0_lt_compat. lra.
Qed.

(* ------------------------------------------------------------------ *)
(** ** Gas density *)
(* ------------------------------------------------------------------ *)

Lemma gas_properties_molar_mass gas props :
  dict_get GAS_PROPERTIES gas = Some props ->
  exists m, dict_get props "molar_mass" = Some m /\ 0 < m.
Proof.
  unfold GAS_PROPERTIES. cbn [dict_get].
  destruct (String.eqb gas "CO2");
    [intros H; injection H as <-; eexists; split; [reflexivity|lra]|].
  destruct (String.eqb gas "H2O");
    [intros H; injection H as <-; eexists; split; [reflexivity|lra]|].
  destruct (String.eqb gas "O2");
    [intros H; injection H as <-; eexists; split; [reflexivity|lra]|].
  destruct (String.eqb gas "N2");
    [intros H; injection H as <-; eexists; split; [reflexivity|lra]|].
  destruct (String.eqb gas "SO2");
    [intros H; injection H as <-; eexists; split; [reflexivity|lra]|].
  destruct (String.eqb gas "AIR");
    [intros H; injection H as <-; eexists; split; [reflexivity|lra]|].
  discriminate.
Qed.

Lemma gas_density_loop_value items : forall acc,
  gas_density_loop items acc
  = Ok (fst acc + fst (known_totals items), snd acc + snd (known_totals items)).
Proof.
  induction items as [|[gas mass_kg] rest IH]; intros [a b].
  - cbn. f_equal. f_equal; lra.
  - cbn [gas_density_loop known_totals].
    destruct (known_totals rest) as [moles mass] eqn:E.
    destruct (dict_get GAS_PROPERTIES gas) as [props|] eqn:Eg.
    + destruct (gas_properties_molar_mass gas props Eg) as (m & Hm & Hpos).
      unfold getitem. rewrite Hm. cbn [bind].
      rewrite fdiv_ok by lra. cbn [bind]. rewrite IH. cbn [fst snd].
      f_equal. f_equal; lra.
    + rewrite IH. cbn [fst snd]. reflexivity.
Qed.

Lemma gas_density_value T P composition :
  gas_density T P composition
  = fdiv (P * mean_molar_mass composition) (R_UNIVERSAL * T).
Proof.
  unfold gas_density. rewrite gas_density_loop_value. cbn [bind fst snd].
  unfold mean_molar_mass.
  destruct (known_totals composition) as [moles mass]. cbn [fst snd].
  replace (0 + moles) with moles by lra. replace (0 + mass) with mass by lra.
  destruct (Rlt_dec 0 moles) as [H|H]; [|reflexivity].
  rewrite fdiv_ok by lra. reflexivity.
Qed.

Lemma known_totals_scale k composition :
  known_totals (scale_composition k composition)
  = (k * fst (known_totals composition), k * snd (known_totals composition)).
Proof.
  induction composition as [|[gas mass_kg] rest IH].
  - cbn. f_equal; lra.
  - cbn [scale_composition map fst snd known_totals].
    fold (scale_composition k rest). rewrite IH.
    destruct (known_totals rest) as [moles mass]. cbn [fst snd].
    destruct (dict_get GAS_PROPERTIES gas) as [props|] eqn:Eg.
    + destruct (gas_properties_molar_mass gas props Eg) as (m & Hm & Hpos).
      rewrite Hm. cbn [fst snd]. f_equal; field; lra.
    + reflexivity.
Qed.

(** X3: the density of a gas mixture depends on the proportions of the
    masses only: multiplying every mass by the same positive factor
    changes neither the value returned nor the exception raised. *)
Theorem gas_density_scale_invariant T P composition k :
  0 < k ->
  gas_density T P (scale_composition k composition)
  = gas_density T P composition.
Proof.
  intros Hk. rewrite !gas_density_value. f_equal. f_equal.
  unfold mean_molar_mass. rewrite known_totals_scale.
  destruct (known_totals composition) as [moles mass]. cbn [fst snd].
  destruct (Rlt_dec 0 moles) as [H|H].
  - destruct (Rlt_dec 0 (k * moles)) as [H'|H']; [field; lra | nra].
  - destruct (Rlt_dec 0 (k * moles)) as [H'|H']; [nra | reflexivity].
Qed.

Lemma gas_density_scale_invariant_sample :
  gas_density 900 75000 (scale_composition 2 sample_composition)
  = gas_density 900 75000 sample_composition.
Proof.
  apply (gas_density_scale_invariant 900 75000 sample_composition 2). lra.
Defined.

(** X4: [gas_density] is the ideal-gas value [P * M / (R * T)] with [M]
    the mean molar mass of the species it knows; it raises
    [ZeroDivisionError] at [T = 0] and at no other temperature, species
    missing from [GAS_PROPERTIES] are left out, and a mixture without
    moles of a known species has density 0. *)
Theorem gas_density_total T P composition :
  (T = 0 -> gas_density T P composition = Raise ZeroDivisionError) /\
  (T <> 0 ->
   exists rho,
     gas_density T P composition = Ok rho /\
     rho * (R_UNIVERSAL * T) = P * mean_molar_mass composition /\
     (fst (known_totals composition) <= 0 -> rho = 0)) /\
  (forall gas mass_kg,
     dict_get GAS_PROPERTIES gas = None ->
     gas_density T P ((gas, mass_kg) :: composition)
     = gas_density T P composition).
Proof.
  split; [|split].
  - rewrite gas_density_value.
    intros ->. replace (R_UNIVERSAL * 0) with 0 by lra. apply fdiv_zero.
  - rewrite gas_density_value.
    intros HT. rewrite fdiv_ok by (unfold R_UNIVERSAL; nra).
    eexists. split; [reflexivity|].
    split; [field; unfold R_UNIVERSAL; lra|].
    intros Hm.
    unfold mean_molar_mass. destruct (known_totals composition) as [moles mass].
    cbn [fst] in Hm. destruct (Rlt_dec 0 moles); [lra|].
    unfold Rdiv. rewrite Rmult_0_r, Rmult_0_l. reflexivity.
  - intros gas mass_kg Hg. rewrite !gas_density_value.
    unfold mean_molar_mass. cbn [known_totals]. rewrite Hg.
    destruct (known_totals composition) as [moles mass]. reflexivity.
Qed.

(* ------------------------------------------------------------------ *)
(** ** Friction factor and flame temperature of equations.py *)
(* ------------------------------------------------------------------ *)

Lemma turbulent_inv_estimate Re D eps k :
  0 < D -> 2300 <= Re -> 0 <= eps ->
  turbulent_inv Re D eps (colebrook_estimate Re D eps k).
Proof.
  intros HD HRe Heps. unfold colebrook_estimate.
  induction k as [|k IH].
  - apply turbulent_inv_seed. assumption.
  - rewrite Nat.iter_succ. apply turbulent_inv_step; assumption.
Qed.

Lemma colebrook_bounds Re D eps :
  0 < D -> 0 < Re -> 0 <= eps ->
  exists f,
    colebrook_friction_factor Re D eps = Ok f /\
    0 < f /\
    (Re < 2300 -> f = 64 / Re) /\
    (2300 <= Re -> eps / D < 1 ->
     (10 / (3.7 * Re)) ^ 2 <= f <= 1 / 4).
Proof.
  intros HD HRe Heps. unfold colebrook_friction_factor.
  destruct (Rlt_dec Re 2300) as [Hlam|Hturb].
  - rewrite fdiv_ok by lra. eexists. split; [reflexivity|]. split.
    + apply Rdiv_lt_0_compat; lra.
    + split; [reflexivity | intros; lra].
  - assert (HRe' : 2300 <= Re) by lra.
    destruct (colebrook_loop_iterates Re D eps HD HRe' Heps 10 0.02
                (turbulent_inv_seed Re D eps HRe')) as (k & _ & Hr & _).
    rewrite Hr. eexists. split; [reflexivity|].
    destruct (turbulent_inv_estimate Re D eps k HD HRe' Heps) as [Hpos Hb].
    unfold colebrook_estimate in *.
    split; [exact Hpos|]. split; [intros; lra|]. intros _ Hrel.
    destruct (Hb Hrel) as [Hlo Hhi].
    set (f := Nat.iter k (colebrook_map Re D eps) 0.02) in *.
    assert (Hsq : sqrt f * sqrt f = f) by (apply sqrt_sqrt; lra).
    assert (Hs0 : 0 <= sqrt f) by apply sqrt_pos.
    assert (Hb10 : 10 / (3.7 * Re) <= sqrt f).
    { apply Rmult_le_reg_r with (3.7 * Re); [lra|].
      replace (10 / (3.7 * Re) * (3.7 * Re)) with 10 by (field; lra). lra. }
    assert (0 < 10 / (3.7 * Re)) by (apply Rdiv_lt_0_compat; lra).
    split; [|nra].
    rewrite <- Hsq. simpl. nra.
Qed.

(** X5: for a positive diameter, a positive Reynolds number and a
    roughness that is not negative, [colebrook_friction_factor] returns
    a positive factor; in the turbulent branch, with a relative
    roughness below 1, the factor lies between [(10 / (3.7 Re))^2] and
    1/4. *)
Theorem colebrook_friction_factor_positive Re D eps :
  0 < D -> 0 < Re -> 0 <= eps ->
  exists f,
    colebrook_friction_factor Re D eps = Ok f /\
    0 < f /\
    (Re < 2300 -> f = 64 / Re) /\
    (2300 <= Re -> eps / D < 1 ->
     (10 / (3.7 * Re)) ^ 2 <= f <= 1 / 4).
Proof. exact (colebrook_bounds Re D eps). Qed.

Lemma colebrook_friction_factor_positive_duct :
  exists f,
    colebrook_friction_factor 600000 0.762 0.00015 = Ok f /\
    0 < f /\
    (600000 < 2300 -> f = 64 / 600000) /\
    (2300 <= 600000 -> 0.00015 / 0.762 < 1 ->
     (10 / (3.7 * 600000)) ^ 2 <= f <= 1 / 4).
Proof.
  apply (colebrook_friction_factor_positive 600000 0.762 0.00015); lra.
Defined.

Lemma adiabatic_loop_fixed n PCI afr fp :
  dict_get fp "PCI" = Some PCI -> afr <> 0 ->
  adiabatic_loop n fp afr (298 + PCI * 1000 / (afr * 1.2))
  = Ok (298 + PCI * 1000 / (afr * 1.2)).
Proof.
  intros Hp Ha. destruct n as [|n]; [reflexivity|].
  cbn [adiabatic_loop]. unfold getitem. rewrite Hp. cbn [bind].
  rewrite fdiv_ok by lra. cbn [bind].
  destruct (Rlt_dec _ 1) as [H|H]; [reflexivity|].
  exfalso. apply H. replace (_ - _) with 0 by lra. rewrite Rabs_R0. lra.
Qed.

Lemma adiabatic_loop_first n fp afr PCI T0 :
  dict_get fp "PCI" = Some PCI -> afr <> 0 ->
  let T := 298 + PCI * 1000 / (afr * 1.2) in
  adiabatic_loop (S n) fp afr T0
  = Ok (if Rlt_dec (Rabs (T - T0)) 1 then T0 else T).
Proof.
  intros Hp Ha T.
  cbn [adiabatic_loop]. unfold getitem. rewrite Hp. cbn [bind].
  rewrite fdiv_ok by lra. cbn [bind]. fold T.
  destruct (Rlt_dec (Rabs (T - T0)) 1); [reflexivity|].
  apply adiabatic_loop_fixed; assumption.
Qed.

Lemma adiabatic_loop_errors n fp afr T0 :
  (dict_get fp "PCI" = None ->
   adiabatic_loop (S n) fp afr T0 = Raise (KeyError "PCI")) /\
  (forall PCI, dict_get fp "PCI" = Some PCI -> afr = 0 ->
   adiabatic_loop (S n) fp afr T0 = Raise ZeroDivisionError).
Proof.
  split.
  - intros H. cbn [adiabatic_loop]. unfold getitem. rewrite H. reflexivity.
  - intros PCI Hp ->. cbn [adiabatic_loop]. unfold getitem. rewrite Hp.
    cbn [bind]. replace (0 * 1.2) with 0 by lra. rewrite fdiv_zero.
    reflexivity.
Qed.

(** X6: the loop of [adiabatic_flame_temperature] does not iterate
    towards anything: its update does not depend on the current
    estimate, so the function returns [T = 298 + PCI * 1000 / (afr *
    1.2)] after one pass, except that it returns the seed 2000 when [T]
    is within one kelvin of it.  It raises [KeyError] without the key
    ['PCI'] and [ZeroDivisionError] for a zero air-fuel ratio. *)
Theorem adiabatic_flame_temperature_value fp afr :
  (dict_get fp "PCI" = None ->
   adiabatic_flame_temperature fp afr = Raise (KeyError "PCI")) /\
  (forall PCI, dict_get fp "PCI" = Some PCI ->
     (afr = 0 ->
      adiabatic_flame_temperature fp afr = Raise ZeroDivisionError) /\
     (afr <> 0 ->
      let T := 298 + PCI * 1000 / (afr * 1.2) in
      adiabatic_flame_temperature fp afr
      = Ok (if Rlt_dec (Rabs (T - 2000)) 1 then 2000 else T))).
Proof.
  unfold adiabatic_flame_temperature. split.
  - apply (proj1 (adiabatic_loop_errors 19 fp afr 2000)).
  - intros PCI Hp. split.
    + apply (proj2 (adiabatic_loop_errors 19 fp afr 2000) PCI Hp).
    + intros Ha. apply (adiabatic_loop_first 19 fp afr PCI 2000 Hp Ha).
Qed.

(* ------------------------------------------------------------------ *)
(** ** The stages of the calculator *)
(* ------------------------------------------------------------------ *)

Lemma preserves_bind {A B} (m : M A) (k : A -> M B) :
  preserves_input m -> (forall a, preserves_input (k a)) ->
  preserves_input (bindM m k).
Proof.
  intros Hm Hk self. unfold bindM. specialize (Hm self).
  destruct (m self) as [[a|e] s']; cbn in Hm.
  - rewrite Hk. exact Hm.
  - exact Hm.
Qed.

Lemma preserves_ret {A} (a : A) : preserves_input (ret a).
Proof. intros self. reflexivity. Qed.

Lemma preserves_lift {A} (m : result A) : preserves_input (lift m).
Proof. intros self. reflexivity. Qed.

Lemma preserves_self_input name : preserves_input (self_input name).
Proof. intros self. reflexivity. Qed.

Lemma preserves_self_results key : preserves_input (self_results key).
Proof. intros self. reflexivity. Qed.

Lemma preserves_self_results_dict key :
  preserves_input (self_results_dict key).
Proof. intros self. reflexivity. Qed.

Lemma preserves_set_results key v : preserves_input (set_results key v).
Proof. intros self. reflexivity. Qed.

Ltac preserve :=
  repeat first
    [ apply preserves_ret
    | apply preserves_lift
    | apply preserves_self_input
    | apply preserves_self_results
    | apply preserves_self_results_dict
    | apply preserves_set_results
    | apply preserves_bind; [|intros ?]
    | match goal with
      | |- preserves_input (if ?c then _ else _) => destruct c
      | |- preserves_input (let '(_, _) := ?p in _) => destruct p
      end
    | progress cbv beta zeta ].

Lemma preserves_fuel : preserves_input _calculate_fuel_properties.
Proof. unfold _calculate_fuel_properties. preserve. Qed.

Lemma preserves_air : preserves_input _calculate_air_properties.
Proof. unfold _calculate_air_properties. preserve. Qed.

Lemma preserves_stoichiometry : preserves_input _calculate_stoichiometry.
Proof. unfold _calculate_stoichiometry. preserve. Qed.

Lemma preserves_mass : preserves_input _calculate_mass_balance.
Proof. unfold _calculate_mass_balance. preserve. Qed.

Lemma preserves_adiabatic fsolve :
  preserves_input (_calculate_adiabatic_temperature fsolve).
Proof.
  unfold _calculate_adiabatic_temperature. cbv zeta.
  apply preserves_bind; [intros self; reflexivity|intros ?; preserve].
Qed.

Lemma preserves_energy fsolve :
  preserves_input (_calculate_energy_balance fsolve).
Proof.
  unfold _calculate_energy_balance.
  repeat first [ apply preserves_adiabatic | progress preserve ].
Qed.

Lemma preserves_fluid : preserves_input _calculate_fluid_dynamics.
Proof. unfold _calculate_fluid_dynamics. preserve. Qed.

Lemma preserves_heat : preserves_input _calculate_heat_transfer.
Proof. unfold _calculate_heat_transfer. preserve. Qed.

Lemma preserves_emissions : preserves_input _calculate_emissions.
Proof. unfold _calculate_emissions. preserve. Qed.

Lemma preserves_total_vol : preserves_input total_vol.
Proof. unfold total_vol. preserve. Qed.

Lemma preserves_vol_share a b c : preserves_input (vol_share a b c).
Proof. unfold vol_share. preserve. Qed.

Lemma preserves_fractions : preserves_input volumetric_fractions.
Proof.
  unfold volumetric_fractions.
  repeat first [ apply preserves_total_vol | apply preserves_vol_share
               | progress preserve ].
Qed.

Lemma preserves_compile : preserves_input _compile_results.
Proof.
  unfold _compile_results.
  apply preserves_bind; [apply preserves_fractions|].
  intros [[[[a b] c] d] e]. preserve.
Qed.

(** The air stage, step by step. *)
Lemma air_properties_steps self P :
  pressure_altitude (altitude (input self)) = Ok P ->
  let i := input self in
  let T := dry_bulb_temp i in
  let store1 := dict_set (results self) "atmospheric_pressure" (PyFloat P) in
  let rho := P * 1000 / (R_AIR * (T + 273.15)) in
  let store2 := dict_set store1 "air_density" (PyFloat rho) in
  _calculate_air_properties self =
  if Req_dec_T (R_AIR * (T + 273.15)) 0
  then (Raise ZeroDivisionError, {| input := i; results := store1 |})
  else
    match absolute_humidity (relative_humidity i) T P with
    | Raise e => (Raise e, {| input := i; results := store2 |})
    | Ok w =>
        (Ok tt,
         {| input := i;
            results :=
              dict_set (dict_set store2 "absolute_humidity" (PyFloat w))
                       "air_enthalpy" (PyFloat (moist_air_enthalpy T w)) |})
    end.
Proof.
  intros HP i T store1 rho store2.
  unfold _calculate_air_properties.
  cbn -[dict_set pressure_altitude absolute_humidity Req_dec_T].
  rewrite HP.
  cbn -[dict_set absolute_humidity Req_dec_T]. monad_step.
  unfold fdiv. fold i T.
  destruct (Req_dec_T (R_AIR * (T + 273.15)) 0) as [H0|H0]; [reflexivity|].
  cbn -[dict_set absolute_humidity]. monad_step.
  destruct (absolute_humidity (relative_humidity i) T P) as [w|e];
    [|reflexivity].
  cbn -[dict_set]. monad_step. reflexivity.
Qed.

(** X7: for a fuel whose five combustible and ash fractions do not sum
    to 0, the fuel stage returns and stores a wet-basis composition
    whose seven entries sum to [dry sum * (100 - moisture) / 100 +
    moisture], hence to 100 when the six dry fractions sum to 100; the
    real air stored is the theoretical air times [1 + excess_air/100]. *)
Theorem fuel_properties_wet_composition self :
  let i := input self in
  fuel_total i <> 0 ->
  exists self' cw theoretical,
    _calculate_fuel_properties self = (Ok tt, self') /\
    dict_get (results self') "composition_wet" = Some (PyDict cw) /\
    sum_values cw = six_sum i * (100 - moisture i) / 100 + moisture i /\
    (six_sum i = 100 -> sum_values cw = 100) /\
    dict_get (results self') "theoretical_air" = Some (PyFloat theoretical) /\
    dict_get (results self') "real_air"
    = Some (PyFloat (theoretical * (1 + excess_air i / 100))).
Proof.
  intros i H. unfold fuel_total in H. subst i.
  destruct (dulong_returns _ _ _ _ _ (moisture (input self)) H)
    as (pcs & pci & w & Hd).
  unfold _calculate_fuel_properties.
  cbn -[dict_set dulong_heating_value]. rewrite Hd.
  cbn -[dict_set]. monad_step.
  do 3 eexists. split; [reflexivity|].
  cbn [results]. rewrite !dict_get_set. cbn.
  split; [reflexivity|].
  assert (Hs : carbon (input self) * ((100 - moisture (input self)) / 100) +
  (hydrogen (input self) * ((100 - moisture (input self)) / 100) +
   (oxygen (input self) * ((100 - moisture (input self)) / 100) +
    (nitrogen (input self) * ((100 - moisture (input self)) / 100) +
     (sulfur (input self) * ((100 - moisture (input self)) / 100) +
      (ash (input self) * ((100 - moisture (input self)) / 100) +
       (moisture (input self) + 0)))))) =
  six_sum (input self) * (100 - moisture (input self)) / 100
  + moisture (input self))
    by (unfold six_sum; lra).
  split; [exact Hs|].
  split; [intros H100; etransitivity; [exact Hs|]; rewrite H100; lra|].
  split; reflexivity.
Qed.

Lemma fuel_properties_wet_composition_reference :
  exists self' cw theoretical,
    _calculate_fuel_properties (__init__ reference_input) = (Ok tt, self') /\
    dict_get (results self') "composition_wet" = Some (PyDict cw) /\
    sum_values cw
    = six_sum reference_input * (100 - moisture reference_input) / 100
      + moisture reference_input /\
    (six_sum reference_input = 100 -> sum_values cw = 100) /\
    dict_get (results self') "theoretical_air" = Some (PyFloat theoretical) /\
    dict_get (results self') "real_air"
    = Some (PyFloat (theoretical * (1 + excess_air reference_input / 100))).
Proof.
  apply (fuel_properties_wet_composition (__init__ reference_input)).
  exact (proj1 reference_input_conditions).
Defined.

(** The air stage and [calculate_custom_conditions] run the same
    computation. *)
Lemma air_properties_outcome self :
  let i := input self in
  match atmospheric.calculate_custom_conditions
          (altitude i) (dry_bulb_temp i) (relative_humidity i) with
  | Raise e =>
      (e = ZeroDivisionError \/ e = OverflowError) /\
      exists res,
        _calculate_air_properties self
        = (Raise e, {| input := i; results := res |})
  | Ok c =>
      exists res P rho w h,
        _calculate_air_properties self
        = (Ok tt, {| input := i; results := res |}) /\
        dict_get c "pressure" = Some P /\
        dict_get res "atmospheric_pressure" = Some (PyFloat P) /\
        dict_get c "air_density" = Some rho /\
        dict_get res "air_density" = Some (PyFloat rho) /\
        dict_get c "absolute_humidity" = Some w /\
        dict_get res "absolute_humidity" = Some (PyFloat w) /\
        dict_get c "air_enthalpy" = Some h /\
        dict_get res "air_enthalpy" = Some (PyFloat h)
  end.
Proof.
  intros i.
  destruct (pressure_altitude_total (altitude i)) as (P & HP & _).
  rewrite (air_properties_steps self P HP). fold i.
  unfold atmospheric.calculate_custom_conditions. rewrite HP. cbn [bind].
  unfold fdiv.
  destruct (Req_dec_T (R_AIR * (dry_bulb_temp i + 273.15)) 0) as [H0|H0].
  - split; [left; reflexivity|]. eexists. reflexivity.
  - cbn [bind].
    destruct (absolute_humidity (relative_humidity i) (dry_bulb_temp i) P)
      as [w|e] eqn:Ew.
    + cbn [bind].
      assert (Hs : exists ps, saturated_vapor_pressure (dry_bulb_temp i)
                              = Ok ps).
      { unfold absolute_humidity in Ew.
        destruct (saturated_vapor_pressure (dry_bulb_temp i)) as [ps|e];
          [eexists; reflexivity | discriminate]. }
      destruct Hs as (ps & Hs). rewrite Hs. cbn [bind].
      do 5 eexists. split; [reflexivity|].
      rewrite !dict_get_set. cbn.
      repeat (split; [reflexivity|]). reflexivity.
    + cbn [bind]. split; [exact (absolute_humidity_raises _ _ _ _ Ew)|].
      eexists. reflexivity.
Qed.

(** X8: the air stage computes what
    [AtmosphericCalculator.calculate_custom_conditions] computes for the
    altitude, temperature and humidity of the input: both raise the same
    exception on the same inputs, a [ZeroDivisionError] or the
    [OverflowError] of the saturation pressure, and otherwise the stage
    stores the pressure, air density, absolute humidity and air enthalpy
    of the returned conditions. *)
Theorem air_properties_match_custom_conditions self :
  let i := input self in
  match atmospheric.calculate_custom_conditions
          (altitude i) (dry_bulb_temp i) (relative_humidity i) with
  | Raise e =>
      (e = ZeroDivisionError \/ e = OverflowError) /\
      exists self', _calculate_air_properties self = (Raise e, self')
  | Ok c =>
      exists self' P rho w h,
        _calculate_air_properties self = (Ok tt, self') /\
        dict_get c "pressure" = Some P /\
        dict_get (results self') "atmospheric_pressure" = Some (PyFloat P) /\
        dict_get c "air_density" = Some rho /\
        dict_get (results self') "air_density" = Some (PyFloat rho) /\
        dict_get c "absolute_humidity" = Some w /\
        dict_get (results self') "absolute_humidity" = Some (PyFloat w) /\
        dict_get c "air_enthalpy" = Some h /\
        dict_get (results self') "air_enthalpy" = Some (PyFloat h)
  end.
Proof.
  intros i. pose proof (air_properties_outcome self) as H. cbv zeta in H.
  fold i in H.
  destruct (atmospheric.calculate_custom_conditions _ _ _) as [c|e].
  - destruct H as (res & P & rho & w & h & H & H1).
    exists {| input := i; results := res |}, P, rho, w, h.
    split; [exact H | exact H1].
  - destruct H as (He & res & H). split; [exact He|].
    eexists. exact H.
Qed.

Lemma fuel_properties_zero self :
  fuel_total (input self) = 0 ->
  exists res,
    _calculate_fuel_properties self
    = (Raise ZeroDivisionError, {| input := input self; results := res |}).
Proof.
  intros H. unfold fuel_total in H.
  pose proof (dulong_adjust_zero _ _ _ _ _ H) as Hz.
  unfold _calculate_fuel_properties.
  cbn -[dict_set dulong_heating_value].
  unfold dulong_heating_value. rewrite Hz. cbn -[dict_set].
  eexists. reflexivity.
Qed.

(** The ambient conditions at which [calculate_custom_conditions], and
    with it the air stage, raises or returns. *)
Lemma custom_conditions_zero_division a T RH :
  T = -273.15 \/ T = -233.426 ->
  atmospheric.calculate_custom_conditions a T RH = Raise ZeroDivisionError.
Proof.
  intros HT. unfold atmospheric.calculate_custom_conditions.
  destruct (pressure_altitude_total a) as (P & HP & _). rewrite HP.
  cbn [bind]. destruct HT as [->| ->].
  - unfold fdiv. destruct (Req_dec_T _ 0) as [_|Hn]; [reflexivity|].
    exfalso. apply Hn. lra.
  - rewrite fdiv_ok by (unfold R_AIR; lra). cbn [bind].
    rewrite absolute_humidity_pole. reflexivity.
Qed.

Lemma custom_conditions_overflow a T RH :
  -239 <= T < -233.426 ->
  atmospheric.calculate_custom_conditions a T RH = Raise OverflowError.
Proof.
  intros HT. unfold atmospheric.calculate_custom_conditions.
  destruct (pressure_altitude_total a) as (P & HP & _). rewrite HP.
  cbn [bind]. rewrite fdiv_ok by (unfold R_AIR; lra). cbn [bind].
  rewrite absolute_humidity_overflow by assumption. reflexivity.
Qed.

Lemma pressure_altitude_low h :
  0 <= h < 11000 -> exists P, pressure_altitude h = Ok P /\ 101.325 <= P.
Proof.
  intros [H0 H1].
  destruct (Req_dec_T h 0) as [->|Hn].
  - rewrite pressure_altitude_troposphere by lra.
    eexists. split; [reflexivity|].
    replace (1 - 0.0065 * 0 / 288.15) with 1 by lra.
    unfold Rpower. rewrite ln_1, Rmult_0_r, exp_0. lra.
  - destruct (pressure_altitude_rises h) as (P & HP & _ & Hlt); [lra|].
    exists P. split; [exact HP | lra].
Qed.

Lemma vapor_pressure_kPa_bound r t :
  0 <= r <= 100 -> -20 <= t <= 50 ->
  0 <= vapor_pressure_kPa r t < 14.
Proof.
  intros Hr Ht. unfold vapor_pressure_kPa.
  set (x := 8.07131 - 1730.63 / (233.426 + t)).
  assert (Hx : x < 2).
  { unfold x.
    assert (6.07131 < 1730.63 / (233.426 + t)).
    { apply Rmult_lt_reg_r with (233.426 + t); [lra|].
      replace (1730.63 / (233.426 + t) * (233.426 + t)) with 1730.63
        by (field; lra).
      nra. }
    lra. }
  assert (Hp : 0 < Rpower 10 x < 100).
  { split; [unfold Rpower; apply exp_pos|].
    replace 100 with (Rpower 10 2).
    - apply Rpower_lt; lra.
    - replace 2 with (INR 2) by (simpl; lra). rewrite Rpower_pow by lra. lra. }
  split; nra.
Qed.

Lemma custom_conditions_returns a t r :
  0 <= a <= 5000 -> -20 <= t <= 50 -> 0 <= r <= 100 ->
  exists c, atmospheric.calculate_custom_conditions a t r = Ok c.
Proof.
  intros Ha Ht Hr.
  destruct (pressure_altitude_low a) as (P & HP & HPlo); [lra|].
  pose proof (vapor_pressure_kPa_bound r t Hr Ht) as Hv.
  unfold atmospheric.calculate_custom_conditions. rewrite HP. cbn [bind].
  rewrite fdiv_ok by (unfold R_AIR; lra). cbn [bind].
  rewrite absolute_humidity_value by lra.
  rewrite fdiv_ok by lra. cbn [bind].
  rewrite saturated_vapor_pressure_value by lra. cbn [bind].
  eexists. reflexivity.
Qed.

(** [calculate_all] stops in one of its first three stages. *)
Lemma calculate_all_raises fsolve self :
  let i := input self in
  exists e self',
    calculate_all fsolve self = (Raise e, self') /\
    input self' = i /\
    (e = NameError "oxygen" \/ e = ZeroDivisionError \/ e = OverflowError) /\
    (fuel_total i = 0 -> e = ZeroDivisionError) /\
    (fuel_total i <> 0 ->
     match atmospheric.calculate_custom_conditions
             (altitude i) (dry_bulb_temp i) (relative_humidity i) with
     | Ok _ => e = NameError "oxygen"
     | Raise e' => e = e'
     end).
Proof.
  intros i. unfold calculate_all.
  destruct (Req_dec_T (fuel_total i) 0) as [Hf|Hf].
  - destruct (fuel_properties_zero self Hf) as (res & H).
    unfold bindM at 1. rewrite H.
    do 2 eexists. split; [reflexivity|]. split; [reflexivity|].
    split; [right; left; reflexivity|].
    split; [reflexivity | intros Hn; contradiction].
  - destruct (fuel_properties_returns self Hf) as (res1 & H1).
    unfold bindM at 1. rewrite H1.
    set (s1 := {| input := input self; results := res1 |}).
    pose proof (air_properties_outcome s1) as Ha. cbv zeta in Ha.
    cbn [input s1] in Ha. fold i in Ha.
    destruct (atmospheric.calculate_custom_conditions _ _ _) as [c|e'].
    + destruct Ha as (res2 & P & rho & w & h & H2 & _).
      unfold bindM at 1. rewrite H2.
      unfold bindM at 1. rewrite stoichiometry_raises.
      do 2 eexists. split; [reflexivity|]. split; [reflexivity|].
      split; [left; reflexivity|].
      split; [intros Hz; contradiction | intros _; reflexivity].
    + destruct Ha as (He & res2 & H2).
      unfold bindM at 1. rewrite H2.
      do 2 eexists. split; [reflexivity|]. split; [reflexivity|].
      split; [right; exact He|].
      split; [intros Hz; contradiction | intros _; reflexivity].
Qed.

(** X9: on every calculator and with every solver, [calculate_all]
    raises and leaves [self.input] as it was.  The exception is
    [ZeroDivisionError] when the five fractions of the fuel sum to 0;
    otherwise it is the exception of the air stage when
    [calculate_custom_conditions] raises on the ambient conditions of
    the input, and [NameError] for [oxygen] when it returns.  The air
    stage raises [ZeroDivisionError] at a dry-bulb temperature of
    -273.15 or -233.426 degrees and [OverflowError] from -239 degrees up
    to -233.426; with an altitude within 0..5000 m, a temperature within
    -20..50 degrees and a humidity within 0..100 % it returns.  None of
    the nine methods that [calculate_all] calls assigns to
    [self.input]. *)
Theorem calculate_all_exception fsolve self :
  let i := input self in
  (exists e self',
     calculate_all fsolve self = (Raise e, self') /\
     input self' = i /\
     (e = NameError "oxygen" \/ e = ZeroDivisionError \/ e = OverflowError) /\
     (fuel_total i = 0 -> e = ZeroDivisionError) /\
     (fuel_total i <> 0 ->
      match atmospheric.calculate_custom_conditions
              (altitude i) (dry_bulb_temp i) (relative_humidity i) with
      | Ok _ => e = NameError "oxygen"
      | Raise e' => e = e'
      end) /\
     (fuel_total i <> 0 ->
      dry_bulb_temp i = -273.15 \/ dry_bulb_temp i = -233.426 ->
      e = ZeroDivisionError) /\
     (fuel_total i <> 0 -> -239 <= dry_bulb_temp i < -233.426 ->
      e = OverflowError) /\
     (fuel_total i <> 0 ->
      0 <= altitude i <= 5000 -> -20 <= dry_bulb_temp i <= 50 ->
      0 <= relative_humidity i <= 100 ->
      e = NameError "oxygen")) /\
  preserves_input _calculate_fuel_properties /\
  preserves_input _calculate_air_properties /\
  preserves_input _calculate_stoichiometry /\
  preserves_input _calculate_mass_balance /\
  preserves_input (_calculate_energy_balance fsolve) /\
  preserves_input _calculate_fluid_dynamics /\
  preserves_input _calculate_heat_transfer /\
  preserves_input _calculate_emissions /\
  preserves_input _compile_results.
Proof.
  intros i. split.
  - destruct (calculate_all_raises fsolve self)
      as (e & self' & Hc & Hi & He & Hz & Hn).
    fold i in Hz, Hn.
    exists e, self'. split; [exact Hc|]. split; [exact Hi|].
    split; [exact He|]. split; [exact Hz|]. split; [exact Hn|].
    split; [|split].
    + intros Hf HT. specialize (Hn Hf).
      rewrite custom_conditions_zero_division in Hn by exact HT. exact Hn.
    + intros Hf HT. specialize (Hn Hf).
      rewrite custom_conditions_overflow in Hn by exact HT. exact Hn.
    + intros Hf Ha Ht Hr. specialize (Hn Hf).
      destruct (custom_conditions_returns _ _ _ Ha Ht Hr) as (c & Hcc).
      rewrite Hcc in Hn. exact Hn.
  - split; [apply preserves_fuel|]. split; [apply preserves_air|].
    split; [apply preserves_stoichiometry|]. split; [apply preserves_mass|].
    split; [apply preserves_energy|]. split; [apply preserves_fluid|].
    split; [apply preserves_heat|]. split; [apply preserves_emissions|].
    apply preserves_compile.
Qed.

Lemma energy_balance_value self PCI CO2 H2O O2 N2 SO2 T :
  dict_get (results self) "PCI_calculated" = Some (PyFloat PCI) ->
  dict_get (results self) "CO2_mass" = Some (PyFloat CO2) ->
  dict_get (results self) "H2O_mass" = Some (PyFloat H2O) ->
  dict_get (results self) "O2_excess" = Some (PyFloat O2) ->
  dict_get (results self) "N2_mass" = Some (PyFloat N2) ->
  dict_get (results self) "SO2_mass" = Some (PyFloat SO2) ->
  exists q,
    energy_balance self T = Ok q /\
    q = PCI * 1000 - heat_capacity_sum CO2 H2O O2 N2 SO2 * (T - 298).
Proof.
  intros H0 H1 H2 H3 H4 H5.
  unfold energy_balance, getitem.
  rewrite H0, H1, H2, H3, H4, H5. cbn [bind as_float].
  eexists. split; [reflexivity|]. unfold heat_capacity_sum. lra.
Qed.

(** X10: with the heating value and the five product masses stored, the
    residual that the calculator hands to the solver is
    [PCI * 1000 - K * (T - 298)] with [K] the weighted sum of the masses:
    it is linear in [T], and for [K <> 0] it vanishes at
    [T = 298 + PCI * 1000 / K] and nowhere else.  When the solver
    returns that root, [_calculate_adiabatic_temperature] returns it,
    raised to 298 if it is lower. *)
Theorem energy_balance_root fsolve self PCI CO2 H2O O2 N2 SO2 :
  dict_get (results self) "PCI_calculated" = Some (PyFloat PCI) ->
  dict_get (results self) "CO2_mass" = Some (PyFloat CO2) ->
  dict_get (results self) "H2O_mass" = Some (PyFloat H2O) ->
  dict_get (results self) "O2_excess" = Some (PyFloat O2) ->
  dict_get (results self) "N2_mass" = Some (PyFloat N2) ->
  dict_get (results self) "SO2_mass" = Some (PyFloat SO2) ->
  let K := heat_capacity_sum CO2 H2O O2 N2 SO2 in
  (forall T,
     exists q,
       energy_balance self T = Ok q /\
       q = PCI * 1000 - K * (T - 298) /\
       (K <> 0 -> (q = 0 <-> T = 298 + PCI * 1000 / K))) /\
  (forall T,
     K <> 0 ->
     fsolve (energy_balance self) 2000 = Ok T ->
     energy_balance self T = Ok 0 ->
     _calculate_adiabatic_temperature fsolve self
     = (Ok (Rmax (298 + PCI * 1000 / K) 298), self)).
Proof.
  intros H0 H1 H2 H3 H4 H5 K.
  assert (Hroot : forall T q, K <> 0 ->
            q = PCI * 1000 - K * (T - 298) ->
            (q = 0 <-> T = 298 + PCI * 1000 / K)).
  { intros T q HK ->. split.
    - intros Hq. apply Rmult_eq_reg_r with K; [|exact HK].
      replace ((298 + PCI * 1000 / K) * K) with (298 * K + PCI * 1000)
        by (field; exact HK).
      lra.
    - intros ->. field. exact HK. }
  split.
  - intros T.
    destruct (energy_balance_value self PCI CO2 H2O O2 N2 SO2 T
                H0 H1 H2 H3 H4 H5) as (q & Hq & Hv).
    exists q. split; [exact Hq|]. split; [exact Hv|].
    intros HK. apply Hroot; assumption.
  - intros T HK Hs Hz.
    destruct (energy_balance_value self PCI CO2 H2O O2 N2 SO2 T
                H0 H1 H2 H3 H4 H5) as (q & Hq & Hv).
    rewrite Hz in Hq. injection Hq as <-.
    assert (HT : T = 298 + PCI * 1000 / K)
      by (apply (Hroot T 0 HK Hv); reflexivity).
    unfold _calculate_adiabatic_temperature. cbv zeta.
    unfold bindM. rewrite Hs. unfold ret. rewrite HT. reflexivity.
Qed.

Lemma energy_balance_root_sample :
  exists q,
    energy_balance sample_calculator 2000 = Ok q /\
    q = 1 * 1000 - heat_capacity_sum 1.2 0.6 0.3 5.1 0.001 * (2000 - 298).
Proof.
  destruct (proj1 (energy_balance_root (fun _ x => Ok x) sample_calculator
                     1 1.2 0.6 0.3 5.1 0.001
                     eq_refl eq_refl eq_refl eq_refl eq_refl eq_refl) 2000)
    as (q & Hq & Hv & _).
  exists q. split; assumption.
Defined.

(** X11: [_calculate_energy_balance] never returns: it reads the
    attribute [reported_PCI] of the input, whose field is
    [reported_pci], so it raises [AttributeError] once the fuel flow is
    stored, and raises at the read of that flow otherwise; in both cases
    it leaves the calculator as it found it. *)
Theorem energy_balance_stage_never_returns fsolve self :
  (exists e, _calculate_energy_balance fsolve self = (Raise e, self)) /\
  (forall x, dict_get (results self) "flow_rate_kg_s" = Some (PyFloat x) ->
     _calculate_energy_balance fsolve self
     = (Raise (AttributeError "reported_PCI"), self)).
Proof.
  split.
  - unfold _calculate_energy_balance, bindM at 1.
    unfold self_results at 1.
    destruct (bind (getitem (results self) "flow_rate_kg_s") as_float) as [x|e].
    + unfold bindM at 1. rewrite reported_PCI_not_a_field. eauto.
    + eauto.
  - intros x Hx. unfold _calculate_energy_balance.
    erewrite bindM_ok by (apply self_results_get; exact Hx).
    unfold bindM at 1. rewrite reported_PCI_not_a_field. reflexivity.
Qed.

Ltac store_step :=
  unfold bindM, self_results, self_results_dict, self_input, lift,
    set_results;
  cbn -[dict_set fdiv math_log PI Rlt_dec Req_dec_T gas_density
        colebrook_friction_factor pressure_drop_per_length pow
        reynolds_number reynolds_viscosity_default];
  unfold getitem; rewrite ?dict_get_set;
  cbn -[dict_set fdiv math_log PI Rlt_dec Req_dec_T gas_density
        colebrook_friction_factor pressure_drop_per_length pow
        reynolds_number reynolds_viscosity_default].

(** X12: with the wet composition, the product masses and the heating
    value stored, the emissions stage returns; it never divides by zero:
    the dry CO2 concentration is 0 when the dry gases do not have a
    positive mass, and lies between 0 and 100 % when the four dry masses
    are not negative.  The emission factor is [44/12 * C / 100] and the
    volumetric heating value [PCI * 1200]. *)
Theorem emissions_co2_concentration self cw C CO2 O2 N2 SO2 PCI :
  dict_get (results self) "composition_wet" = Some (PyDict cw) ->
  dict_get cw "C" = Some C ->
  dict_get (results self) "CO2_mass" = Some (PyFloat CO2) ->
  dict_get (results self) "O2_excess" = Some (PyFloat O2) ->
  dict_get (results self) "N2_mass" = Some (PyFloat N2) ->
  dict_get (results self) "SO2_mass" = Some (PyFloat SO2) ->
  dict_get (results self) "PCI_calculated" = Some (PyFloat PCI) ->
  exists self' x,
    _calculate_emissions self = (Ok tt, self') /\
    input self' = input self /\
    dict_get (results self') "co2_emission_factor"
    = Some (PyFloat (44 / 12 * C / 100)) /\
    dict_get (results self') "volumetric_heating_value"
    = Some (PyFloat (PCI * 1200)) /\
    dict_get (results self') "co2_concentration_dry" = Some (PyFloat x) /\
    (CO2 + O2 + N2 + SO2 <= 0 -> x = 0) /\
    (0 < CO2 + O2 + N2 + SO2 -> x = CO2 / (CO2 + O2 + N2 + SO2) * 100) /\
    (0 <= CO2 -> 0 <= O2 -> 0 <= N2 -> 0 <= SO2 -> 0 <= x <= 100).
Proof.
  intros Hcw HC H1 H2 H3 H4 H5.
  unfold _calculate_emissions.
  store_step. rewrite Hcw. store_step. rewrite HC. store_step.
  rewrite H1. store_step. rewrite H2. store_step. rewrite H3. store_step.
  rewrite H4. store_step.
  destruct (Rlt_dec 0 (CO2 + O2 + N2 + SO2)) as [Hd|Hd].
  - store_step. rewrite H1. store_step. rewrite fdiv_ok by lra.
    store_step. rewrite H5. store_step.
    do 2 eexists. split; [reflexivity|].
    cbn [input results]. rewrite !dict_get_set. cbn.
    split; [reflexivity|]. split; [reflexivity|]. split; [reflexivity|].
    split; [reflexivity|]. split; [lra|]. split; [reflexivity|].
    intros P1 P2 P3 P4.
    assert (Hq : 0 <= CO2 / (CO2 + O2 + N2 + SO2) <= 1).
    { split.
      - apply Rmult_le_pos; [lra|]. left. apply Rinv_0_lt_compat. lra.
      - apply Rmult_le_reg_r with (CO2 + O2 + N2 + SO2); [lra|].
        replace (CO2 / (CO2 + O2 + N2 + SO2) * (CO2 + O2 + N2 + SO2))
          with CO2 by (field; lra).
        lra. }
    lra.
  - store_step. rewrite H5. store_step.
    do 2 eexists. split; [reflexivity|].
    cbn [input results]. rewrite !dict_get_set. cbn.
    split; [reflexivity|]. split; [reflexivity|]. split; [reflexivity|].
    split; [reflexivity|]. split; [reflexivity|]. split; intros; lra.
Qed.

Lemma emissions_co2_concentration_sample :
  exists self' x,
    _calculate_emissions sample_calculator = (Ok tt, self') /\
    dict_get (results self') "co2_concentration_dry" = Some (PyFloat x) /\
    0 <= x <= 100.
Proof.
  destruct (emissions_co2_concentration sample_calculator
              [("C", 32.6)] 32.6 1.2 0.3 5.1 0.001 1
              eq_refl eq_refl eq_refl eq_refl eq_refl eq_refl eq_refl)
    as (self' & x & Hr & _ & _ & _ & Hx & _ & _ & Hb).
  exists self', x. split; [exact Hr|]. split; [exact Hx|].
  apply Hb; lra.
Defined.

Lemma flue_gas_density T P CO2 H2O SO2 O2 N2 :
  0 < T -> 0 < P ->
  0 <= CO2 -> 0 <= H2O -> 0 <= SO2 -> 0 <= O2 -> 0 <= N2 ->
  0 < CO2 + H2O + SO2 + O2 + N2 ->
  exists rho,
    gas_density T P [ ("CO2", CO2); ("H2O", H2O); ("SO2", SO2);
                      ("O2", O2); ("N2", N2) ] = Ok rho /\
    0 < rho.
Proof.
  intros HT HP H1 H2 H3 H4 H5 Hs.
  rewrite gas_density_value.
  rewrite fdiv_ok by (unfold R_UNIVERSAL; nra).
  eexists. split; [reflexivity|].
  apply Rdiv_lt_0_compat; [|unfold R_UNIVERSAL; nra].
  apply Rmult_lt_0_compat; [exact HP|].
  unfold mean_molar_mass.
  cbn [known_totals dict_get GAS_PROPERTIES String.eqb Ascii.eqb Bool.eqb
       fst snd].
  match goal with
  | |- context [Rlt_dec 0 ?x] => set (moles := x)
  end.
  assert (Hm : 0 < moles).
  { unfold moles, Rdiv.
    assert (Hc : 10 <= / (44.01 * / 1000)).
    { apply Rmult_le_reg_r with (44.01 * / 1000); [lra|].
      rewrite Rinv_l by lra. lra. }
    assert (Hw : 10 <= / (18.015 * / 1000)).
    { apply Rmult_le_reg_r with (18.015 * / 1000); [lra|].
      rewrite Rinv_l by lra. lra. }
    assert (Hso : 10 <= / (64.066 * / 1000)).
    { apply Rmult_le_reg_r with (64.066 * / 1000); [lra|].
      rewrite Rinv_l by lra. lra. }
    assert (Ho : 10 <= / (31.999 * / 1000)).
    { apply Rmult_le_reg_r with (31.999 * / 1000); [lra|].
      rewrite Rinv_l by lra. lra. }
    assert (Hn : 10 <= / (28.014 * / 1000)).
    { apply Rmult_le_reg_r with (28.014 * / 1000); [lra|].
      rewrite Rinv_l by lra. lra. }
    nra. }
  destruct (Rlt_dec 0 moles); [|lra].
  apply Rdiv_lt_0_compat; lra.
Qed.

(** X13: with the outlet temperature, the pressure, the five product
    masses and the gas flow stored, a positive duct diameter, a positive
    mean absolute temperature and pressure, masses that are not negative
    and not all 0, and a positive gas flow, the fluid-dynamics stage
    returns without raising; the quantities it stores are consistent:
    density times volumetric flow is the mass flow, velocity times duct
    area is the volumetric flow, the Reynolds number is
    [rho * v * D / 1.8e-5], and the density, the friction factor and the
    pressure drop are positive. *)
Theorem fluid_dynamics_positive self To P CO2 H2O SO2 O2 N2 m :
  let Ta := dry_bulb_temp (input self) in
  let D := duct_diameter (input self) * 0.0254 in
  dict_get (results self) "outlet_temp" = Some (PyFloat To) ->
  dict_get (results self) "atmospheric_pressure" = Some (PyFloat P) ->
  dict_get (results self) "CO2_mass" = Some (PyFloat CO2) ->
  dict_get (results self) "H2O_mass" = Some (PyFloat H2O) ->
  dict_get (results self) "SO2_mass" = Some (PyFloat SO2) ->
  dict_get (results self) "O2_excess" = Some (PyFloat O2) ->
  dict_get (results self) "N2_mass" = Some (PyFloat N2) ->
  dict_get (results self) "mass_flow_gases" = Some (PyFloat m) ->
  0 < duct_diameter (input self) ->
  0 < (To + Ta) / 2 + 273.15 -> 0 < P -> 0 < m ->
  0 <= CO2 -> 0 <= H2O -> 0 <= SO2 -> 0 <= O2 -> 0 <= N2 ->
  0 < CO2 + H2O + SO2 + O2 + N2 ->
  exists self' rho Q v Re f dp,
    _calculate_fluid_dynamics self = (Ok tt, self') /\
    dict_get (results self') "gas_density" = Some (PyFloat rho) /\
    dict_get (results self') "volumetric_flow" = Some (PyFloat Q) /\
    dict_get (results self') "duct_area" = Some (PyFloat (PI * D ^ 2 / 4)) /\
    dict_get (results self') "gas_velocity" = Some (PyFloat v) /\
    dict_get (results self') "reynolds" = Some (PyFloat Re) /\
    dict_get (results self') "friction_factor" = Some (PyFloat f) /\
    dict_get (results self') "pressure_drop" = Some (PyFloat dp) /\
    0 < rho /\ rho * Q = m /\ v * (PI * D ^ 2 / 4) = Q /\
    Re * 1.8e-5 = rho * v * D /\ 0 < f /\
    dp = f * (1 / D) * (rho * v ^ 2 / 2) /\ 0 < dp.
Proof.
  intros Ta D Ho Hp H1 H2 H3 H4 H5 Hm HD HT HP Hmpos P1 P2 P3 P4 P5 Hs.
  assert (HD' : 0 < D) by (unfold D; lra).
  pose proof PI_RGT_0 as Hpi.
  assert (HP' : 0 < P * 1000) by lra.
  destruct (flue_gas_density _ (P * 1000) CO2 H2O SO2 O2 N2
              HT HP' P1 P2 P3 P4 P5 Hs) as (rho & Hrho & Hrhopos).
  unfold _calculate_fluid_dynamics.
  store_step. rewrite Ho. store_step. rewrite Hp. store_step.
  rewrite H1. store_step. rewrite H2. store_step. rewrite H3. store_step.
  rewrite H4. store_step. rewrite H5. store_step.
  fold Ta D. rewrite Hrho. store_step. rewrite Hm. store_step.
  rewrite fdiv_ok by lra. store_step. fold D.
  set (Q := m / rho). set (A := PI * D ^ 2 / 4).
  assert (HA : 0 < A).
  { unfold A. apply Rdiv_lt_0_compat; [|lra].
    apply Rmult_lt_0_compat; [exact Hpi|]. apply pow_lt. exact HD'. }
  assert (HQ : 0 < Q) by (unfold Q; apply Rdiv_lt_0_compat; lra).
  rewrite fdiv_ok by lra. store_step. fold D.
  set (v := Q / A).
  assert (Hv : 0 < v) by (unfold v; apply Rdiv_lt_0_compat; lra).
  unfold reynolds_number, reynolds_viscosity_default.
  rewrite fdiv_ok by lra. store_step. fold D.
  match goal with
  | |- context [colebrook_friction_factor ?r D _] => set (Re := r)
  end.
  assert (HRe : 0 < Re).
  { unfold Re. apply Rdiv_lt_0_compat; [|lra].
    apply Rmult_lt_0_compat; [apply Rmult_lt_0_compat|]; assumption. }
  assert (Heps : 0 <= 0.00015) by lra.
  destruct (colebrook_bounds Re D 0.00015 HD' HRe Heps)
    as (f & Hf & Hfpos & _).
  rewrite Hf. store_step. fold D.
  unfold pressure_drop_per_length. rewrite fdiv_ok by lra. store_step.
  exists {| input := input self;
            results :=
              dict_set
                (dict_set
                   (dict_set
                      (dict_set
                         (dict_set
                            (dict_set
                               (dict_set (results self) "gas_density"
                                         (PyFloat rho))
                               "volumetric_flow" (PyFloat Q))
                            "duct_area" (PyFloat A))
                         "gas_velocity" (PyFloat v))
                      "reynolds" (PyFloat Re))
                   "friction_factor" (PyFloat f))
                "pressure_drop"
                (PyFloat (f * (1 / D) * (rho * v ^ 2 / 2))) |}.
  exists rho, Q, v, Re, f, (f * (1 / D) * (rho * v ^ 2 / 2)).
  split; [reflexivity|].
  cbn [results]. rewrite !dict_get_set. cbn -[PI pow].
  repeat (split; [reflexivity|]).
  split; [exact Hrhopos|].
  split; [unfold Q; field; lra|].
  split; [unfold v; field; lra|].
  split; [unfold Re; field_simplify; lra|].
  split; [exact Hfpos|]. split; [reflexivity|].
  apply Rmult_lt_0_compat.
  - apply Rmult_lt_0_compat; [exact Hfpos|]. apply Rdiv_lt_0_compat; lra.
  - apply Rdiv_lt_0_compat; [|lra]. apply Rmult_lt_0_compat; [exact Hrhopos|].
    apply pow_lt. exact Hv.
Qed.

Lemma fluid_dynamics_positive_sample :
  exists self' rho v f dp,
    _calculate_fluid_dynamics flue_calculator = (Ok tt, self') /\
    dict_get (results self') "gas_density" = Some (PyFloat rho) /\
    dict_get (results self') "gas_velocity" = Some (PyFloat v) /\
    dict_get (results self') "friction_factor" = Some (PyFloat f) /\
    dict_get (results self') "pressure_drop" = Some (PyFloat dp) /\
    0 < rho /\ 0 < f /\ 0 < dp.
Proof.
  destruct (fluid_dynamics_positive flue_calculator
              900 75 1.2 0.6 0.001 0.3 5.1 7300
              eq_refl eq_refl eq_refl eq_refl eq_refl eq_refl eq_refl eq_refl)
    as (self' & rho & Q & v & Re & f & dp & Hr & H1 & _ & _ & H4 & _ & H6
        & H7 & Hrho & _ & _ & _ & Hf & _ & Hdp);
    try (cbn; lra).
  exists self', rho, v, f, dp. repeat (split; [assumption|]). assumption.
Defined.

Lemma thermal_resistances_pos D :
  0 < D ->
  0 < R_convection_int D /\ 0 < R_conduction D /\ 0 < R_convection_ext D.
Proof.
  intros HD. pose proof PI_RGT_0 as Hpi.
  unfold R_convection_int, R_conduction, R_convection_ext.
  split; [|split].
  - apply Rdiv_lt_0_compat; [lra|]. apply Rmult_lt_0_compat; nra.
  - apply Rdiv_lt_0_compat; [|nra].
    rewrite <- ln_1. apply ln_increasing; [lra|].
    apply Rmult_lt_reg_r with (D / 2); [lra|].
    replace ((D / 2 + 0.15) / (D / 2) * (D / 2)) with (D / 2 + 0.15)
      by (field; lra).
    lra.
  - apply Rdiv_lt_0_compat; [lra|]. apply Rmult_lt_0_compat; nra.
Qed.

(** X14: for a positive duct diameter and a stored outlet temperature,
    the heat-transfer stage raises [ZeroDivisionError] when the gases
    leave at ambient temperature (the insulation efficiency divides by
    the loss without insulation, which is then 0).  When the gases are
    hotter than the ambient air it returns: the total resistance is the
    sum of the inner convection, conduction and outer convection
    resistances, the heat loss per metre is positive and equals the
    temperature difference over that resistance, the outer wall is
    warmer than the ambient air, and the wall temperature plus the
    gradient across the refractory stays below the gas temperature. *)
Theorem heat_transfer_wall_temperature self To :
  let Ta := dry_bulb_temp (input self) in
  let D := duct_diameter (input self) * 0.0254 in
  0 < duct_diameter (input self) ->
  dict_get (results self) "outlet_temp" = Some (PyFloat To) ->
  (To = Ta ->
   exists self',
     _calculate_heat_transfer self = (Raise ZeroDivisionError, self')) /\
  (Ta < To ->
   exists self' q Text grad,
     _calculate_heat_transfer self = (Ok tt, self') /\
     dict_get (results self') "thermal_resistance"
     = Some (PyFloat (thermal_resistance D)) /\
     dict_get (results self') "heat_loss_per_meter" = Some (PyFloat q) /\
     dict_get (results self') "external_wall_temp" = Some (PyFloat Text) /\
     dict_get (results self') "refractory_gradient" = Some (PyFloat grad) /\
     0 < q /\ q * thermal_resistance D = To - Ta /\
     Ta < Text /\ 0 < grad /\ Text + grad < To).
Proof.
  intros Ta D HD Hout.
  assert (HD' : 0 < D) by (unfold D; lra).
  pose proof PI_RGT_0 as Hpi.
  destruct (thermal_resistances_pos D HD') as (Hi & Hc & He).
  assert (Hratio : 0 < (D / 2 + 0.15) / (D / 2))
    by (apply Rdiv_lt_0_compat; lra).
  unfold _calculate_heat_transfer.
  store_step. fold D.
  rewrite fdiv_ok by nra. rewrite fdiv_ok by lra.
  unfold math_log. destruct (Rlt_dec 0 ((D / 2 + 0.15) / (D / 2))); [|lra].
  rewrite fdiv_ok by nra. rewrite fdiv_ok by nra.
  fold (R_convection_int D) (R_conduction D) (R_convection_ext D).
  fold (thermal_resistance D).
  assert (Hrt : 0 < thermal_resistance D) by (unfold thermal_resistance; lra).
  store_step. rewrite fdiv_ok by lra.
  store_step. rewrite Hout.
  store_step. fold Ta. store_step. store_step. fold Ta.
  set (U := 1 / thermal_resistance D).
  assert (HU : 0 < U) by (apply Rdiv_lt_0_compat; lra).
  assert (HUR : U * thermal_resistance D = 1) by (unfold U; field; lra).
  split.
  - intros HTo.
    replace (10 * PI * D * (To - Ta)) with 0 by (rewrite HTo; lra).
    rewrite fdiv_zero. eexists. reflexivity.
  - intros HT.
    rewrite fdiv_ok by (apply Rgt_not_eq; apply Rmult_lt_0_compat; nra).
    do 4 eexists. split; [reflexivity|].
    cbn [results]. rewrite !dict_get_set.
    cbn -[PI].
    split; [reflexivity|]. split; [reflexivity|]. split; [reflexivity|].
    split; [reflexivity|].
    assert (Hq : 0 < U * (To - Ta)) by (apply Rmult_lt_0_compat; lra).
    split; [exact Hq|].
    split; [nra|].
    assert (Hsum : U * (To - Ta) * (R_conduction D + R_convection_ext D)
                   < To - Ta).
    { replace (To - Ta) with (U * (To - Ta) * thermal_resistance D) at 2
        by nra.
      apply Rmult_lt_compat_l; [exact Hq|]. unfold thermal_resistance. lra. }
    assert (0 < U * (To - Ta) * R_convection_ext D)
      by (apply Rmult_lt_0_compat; lra).
    assert (0 < U * (To - Ta) * R_conduction D)
      by (apply Rmult_lt_0_compat; lra).
    split; [lra|]. split; [lra|]. lra.
Qed.

Lemma heat_transfer_wall_temperature_sample :
  exists self' Text,
    _calculate_heat_transfer flue_calculator = (Ok tt, self') /\
    dict_get (results self') "external_wall_temp" = Some (PyFloat Text) /\
    15 < Text < 900.
Proof.
  assert (HD : 0 < duct_diameter (input flue_calculator)) by (cbn; lra).
  destruct (proj2 (heat_transfer_wall_temperature flue_calculator 900
                     HD eq_refl))
    as (self' & q & Text & grad & Hr & _ & _ & Ht & _ & _ & _ & Hlo & Hg & Hhi).
  - cbn. lra.
  - exists self', Text. split; [exact Hr|]. split; [exact Ht|].
    cbn in Hlo. lra.
Defined.

(* ------------------------------------------------------------------ *)
(** ** What a sweep does to the input *)
(* ------------------------------------------------------------------ *)

Ltac case_field name ks tac :=
  lazymatch ks with
  | nil => idtac
  | cons ?k ?ks' =>
      destruct (String.eqb_spec name k) as [->|?];
      [ tac | case_field name ks' tac ]
  end.

(** Reading back a float that was just assigned. *)
Lemma getattr_setattr i name v0 v :
  biomass.getattr i name = Ok v0 ->
  exists i',
    biomass.setattr i name (PyFloat v) = Ok i' /\
    biomass.getattr i' name = Ok (PyFloat v).
Proof.
  intros H. unfold biomass.getattr in H. unfold biomass.setattr.
  destruct i.
  let ks := eval unfold field_names in field_names in
  case_field name ks ltac:(eexists; split; reflexivity).
  discriminate.
Qed.

(** Writing back the value that was read changes nothing. *)
Lemma setattr_getattr i name v0 :
  biomass.getattr i name = Ok v0 -> biomass.setattr i name v0 = Ok i.
Proof.
  intros H. unfold biomass.getattr in H. unfold biomass.setattr.
  destruct i.
  let ks := eval unfold field_names in field_names in
  case_field name ks ltac:(cbn in H; injection H as <-; reflexivity).
  discriminate.
Qed.

(** A second assignment to a field overrides the first. *)
Lemma setattr_setattr i name v i1 w :
  biomass.setattr i name v = Ok i1 ->
  biomass.setattr i1 name w = biomass.setattr i name w.
Proof.
  intros H. unfold biomass.setattr in H.
  destruct i.
  let ks := eval unfold field_names in field_names in
  case_field name ks
    ltac:(cbn in H; try (destruct v; try discriminate; cbn in H);
          injection H as <-; reflexivity).
  discriminate.
Qed.

(** X15: [sensitivity_analysis] restores the swept field only after its
    loop.  With the calculator's own [calculate_all], a sweep over one
    value or more raises at the first value and leaves that value in the
    input: the original value is not written back. *)
Theorem failed_sweep_keeps_sample fsolve name v0 v rest self :
  biomass.getattr (input self) name = Ok v0 ->
  exists e self',
    sensitivity_analysis (calculate_all fsolve) name (v :: rest) self
    = (Raise e, self') /\
    biomass.getattr (input self') name = Ok (PyFloat v).
Proof.
  intros Hname.
  destruct (getattr_setattr _ _ _ v Hname) as (i' & Hset & Hget).
  unfold sensitivity_analysis.
  unfold bindM at 1. unfold self_getattr at 1. rewrite Hname.
  unfold bindM at 1. cbn [sensitivity_loop].
  unfold bindM at 1. unfold self_setattr at 1. rewrite Hset.
  set (s1 := {| input := i'; results := results self |}).
  destruct (calculate_all_raises fsolve s1) as (e & s2 & Hc & Hi & _).
  unfold bindM at 1. rewrite Hc.
  exists e, s2. split; [reflexivity|]. rewrite Hi. exact Hget.
Qed.

Lemma failed_sweep_keeps_sample_reference :
  exists e self',
    sensitivity_analysis (calculate_all (fun _ x => Ok x)) "excess_air"
                         [10; 20; 30; 40; 50] (__init__ reference_input)
    = (Raise e, self') /\
    biomass.getattr (input self') "excess_air" = Ok (PyFloat 10).
Proof.
  apply (failed_sweep_keeps_sample (fun _ x => Ok x) "excess_air"
           (PyFloat 30) 10 [20; 30; 40; 50] (__init__ reference_input)).
  reflexivity.
Defined.

Section RestoringSweep.

(** A calculator method that returns on every object and leaves the
    input alone. *)
Variable run : M results.CombustionResults.
Hypothesis run_returns :
  forall s, exists r s', run s = (Ok r, s') /\ input s' = input s.

Lemma sensitivity_loop_overrides name v0 i0 :
  biomass.getattr i0 name = Ok v0 ->
  forall values acc self,
    (forall w, biomass.setattr (input self) name w
               = biomass.setattr i0 name w) ->
    exists acc' self',
      sensitivity_loop run name values acc self = (Ok acc', self') /\
      forall w, biomass.setattr (input self') name w
                = biomass.setattr i0 name w.
Proof.
  intros Hname values.
  induction values as [|x values IH]; intros [[[t v] p] e] self Hinv.
  - do 2 eexists. split; [reflexivity|]. exact Hinv.
  - cbn [sensitivity_loop].
    destruct (setattr_float_ok _ _ _ Hname (input self) x) as (i' & Hi').
    unfold bindM at 1. unfold self_setattr at 1. rewrite Hi'.
    destruct (run_returns {| input := i'; results := results self |})
      as (r & s' & Hr & Hin).
    unfold bindM at 1. rewrite Hr.
    apply IH. intros w. rewrite Hin. cbn [input].
    rewrite (setattr_setattr _ _ _ _ w Hi'). apply Hinv.
Qed.

Lemma sweep_restores name values self v0 :
  biomass.getattr (input self) name = Ok v0 ->
  exists r self',
    sensitivity_analysis run name values self = (Ok r, self') /\
    input self' = input self.
Proof.
  intros Hname. unfold sensitivity_analysis.
  unfold bindM at 1. unfold self_getattr. rewrite Hname.
  destruct (sensitivity_loop_overrides name v0 _ Hname values
              ([], [], [], []) self (fun w => eq_refl))
    as ([[[t v] p] e] & s' & Hl & Hinv).
  unfold bindM at 1. rewrite Hl.
  unfold bindM at 1. unfold self_setattr.
  rewrite Hinv, (setattr_getattr _ _ _ Hname).
  do 2 eexists. split; reflexivity.
Qed.

End RestoringSweep.

(** X16: with a calculator method that returns and does not touch the
    input, a sweep over any list of values of a field returns and gives
    the input back exactly as it was: the field holds its original value
    again and no other field has changed. *)
Theorem sweep_restores_input (run : M results.CombustionResults)
    name values self v0 :
  (forall s, exists r s', run s = (Ok r, s') /\ input s' = input s) ->
  biomass.getattr (input self) name = Ok v0 ->
  exists r self',
    sensitivity_analysis run name values self = (Ok r, self') /\
    input self' = input self.
Proof.
  intros Hrun Hname. exact (sweep_restores run Hrun name values self v0 Hname).
Qed.

Lemma constant_calculator_keeps_input :
  forall s, exists r s',
    constant_calculator s = (Ok r, s') /\ input s' = input s.
Proof. intros s. do 2 eexists. split; reflexivity. Qed.

Lemma sweep_restores_input_sample :
  exists r self',
    sensitivity_analysis constant_calculator "excess_air" [10; 20; 30]
                         (__init__ reference_input) = (Ok r, self') /\
    input self' = input (__init__ reference_input).
Proof.
  apply (sweep_restores_input constant_calculator "excess_air" [10; 20; 30]
           (__init__ reference_input) (PyFloat 30)).
  - exact constant_calculator_keeps_input.
  - reflexivity.
Defined.

(* ------------------------------------------------------------------ *)
(** ** The analyzer on the calculator's own method *)
(* ------------------------------------------------------------------ *)

Lemma bindM_not_ok {A B} (m : M A) (k : A -> M B) self :
  is_ok (fst (m self)) = false -> is_ok (fst (bindM m k self)) = false.
Proof.
  unfold bindM.
  destruct (m self) as [[a|e] s']; cbn; [discriminate|reflexivity].
Qed.

Lemma bindM_then_not_ok {A B} (m : M A) (k : A -> M B) self :
  (forall a s', is_ok (fst (k a s')) = false) ->
  is_ok (fst (bindM m k self)) = false.
Proof.
  intros H. unfold bindM.
  destruct (m self) as [[a|e] s']; [apply H|reflexivity].
Qed.

Lemma bind_not_ok {A B} (m : result A) (k : A -> result B) :
  is_ok m = false -> is_ok (bind m k) = false.
Proof. destruct m; [discriminate|reflexivity]. Qed.

Lemma bind_then_not_ok {A B} (m : result A) (k : A -> result B) :
  (forall a, is_ok (k a) = false) -> is_ok (bind m k) = false.
Proof. intros H. destruct m; [apply H|reflexivity]. Qed.

Lemma sensitivity_loop_not_ok fsolve name v rest acc self :
  is_ok (fst (sensitivity_loop (calculate_all fsolve) name (v :: rest)
                               acc self))
  = false.
Proof.
  cbn [sensitivity_loop]. apply bindM_then_not_ok. intros [] s'.
  apply bindM_not_ok. apply calculate_all_not_ok.
Qed.

Lemma sweep_not_ok fsolve name v rest self :
  is_ok (fst (sensitivity_analysis (calculate_all fsolve) name (v :: rest)
                                   self))
  = false.
Proof.
  unfold sensitivity_analysis. apply bindM_then_not_ok. intros base s'.
  apply bindM_not_ok. apply sensitivity_loop_not_ok.
Qed.

Lemma metrics_empty_not_ok np_gradient values :
  is_ok (_calculate_sensitivity_metrics np_gradient values [] [] [] []) = false.
Proof.
  unfold _calculate_sensitivity_metrics.
  destruct (np_gradient [] values) as [d|e]; [|reflexivity].
  reflexivity.
Qed.

Lemma analyze_parameter_not_ok fsolve np_gradient name range n self :
  is_ok (fst (analyze_parameter (calculate_all fsolve) np_gradient
                name range n self)) = false.
Proof.
  unfold analyze_parameter.
  apply bindM_then_not_ok. intros base s1.
  apply bindM_then_not_ok. intros base_value s2.
  apply bindM_then_not_ok. intros [|v rest] s3.
  - unfold sensitivity_analysis.
    unfold bindM at 1.
    destruct (bindM (self_getattr name) _ s3) as [[r|e] s4] eqn:E;
      [|reflexivity].
    unfold bindM at 1 in E.
    destruct (self_getattr name s3) as [[b|e] s5]; [|discriminate].
    unfold bindM at 1 in E. cbn [sensitivity_loop ret] in E.
    unfold bindM at 1 in E.
    destruct (self_setattr name b s5) as [[[]|e] s6]; [|discriminate].
    cbn in E. injection E as <- _. cbn.
    pose proof (metrics_empty_not_ok np_gradient []) as Hm.
    destruct (_calculate_sensitivity_metrics np_gradient [] [] [] [] []);
      [discriminate|reflexivity].
  - apply bindM_not_ok. apply sweep_not_ok.
Qed.

(** X17: on every input, for every parameter name, range and number of
    points, and whatever [numpy.gradient] does, [analyze_parameter]
    returns nothing: with one point or more the sweep raises in
    [calculate_all]; with none the metrics raise on the empty lists; an
    unknown name, a text field or a negative count raise before. *)
Theorem analyze_parameter_never_returns fsolve np_gradient name range n self :
  is_ok (fst (analyze_parameter (calculate_all fsolve) np_gradient
                name range n self)) = false.
Proof. exact (analyze_parameter_not_ok fsolve np_gradient name range n self). Qed.

Lemma optimize_loop_not_ok fsolve name objective constraints v rest best self :
  is_ok (fst (optimize_loop (calculate_all fsolve) name objective constraints
                (v :: rest) best self)) = false.
Proof.
  cbn [optimize_loop]. apply bindM_then_not_ok. intros [] s'.
  apply bindM_not_ok. apply calculate_all_not_ok.
Qed.

Lemma optimize_parameter_not_ok fsolve name objective constraints self :
  is_ok (fst (optimize_parameter (calculate_all fsolve) name objective
                constraints self)) = false.
Proof.
  unfold optimize_parameter.
  apply bindM_then_not_ok. intros base s1.
  apply bindM_then_not_ok. intros base_value s2.
  match goal with |- context [linspace ?a ?b 100] =>
    destruct (linspace_cons a b 100 ltac:(lia)) as (rest & Hl)
  end.
  unfold bindM at 1. unfold lift at 1. rewrite Hl.
  apply bindM_not_ok. apply optimize_loop_not_ok.
Qed.

(** X18: on every input, for every parameter name, objective and set of
    constraints, [optimize_parameter] returns nothing: its grid always
    has 100 points, and the first evaluation raises. *)
Theorem optimize_parameter_never_returns fsolve name objective constraints
    self :
  is_ok (fst (optimize_parameter (calculate_all fsolve) name objective
                constraints self)) = false.
Proof.
  exact (optimize_parameter_not_ok fsolve name objective constraints self).
Qed.

Lemma multi_param_not_ok format_1f fsolve np_gradient param rest
    range_percent self :
  is_ok (fst (multi_param_analysis format_1f (calculate_all fsolve)
                np_gradient (param :: rest) range_percent self)) = false.
Proof.
  unfold multi_param_analysis. apply bindM_not_ok.
  cbn [multi_param_loop]. apply bindM_not_ok.
  apply analyze_parameter_not_ok.
Qed.

(** X19: [multi_param_analysis] returns for the empty list of
    parameters only: the result then holds no analysis, an empty ranking
    and the single recommendation that the system is stable, and the
    calculator is untouched.  For a list with one parameter or more it
    raises. *)
Theorem multi_param_analysis_outcome format_1f fsolve np_gradient
    range_percent self :
  multi_param_analysis format_1f (calculate_all fsolve) np_gradient
                       [] range_percent self
  = (Ok {| individual_analysis := [];
           sensitivity_ranking := [];
           recommendations := [stable_recommendation] |}, self) /\
  forall param rest,
    is_ok (fst (multi_param_analysis format_1f (calculate_all fsolve)
                  np_gradient (param :: rest) range_percent self)) = false.
Proof.
  split; [reflexivity|]. intros param rest. apply multi_param_not_ok.
Qed.

Lemma relative_sensitivity_zero values dy_dx :
  relative_sensitivity values 0 dy_dx = Ok [0].
Proof.
  unfold relative_sensitivity. destruct (Req_dec_T 0 0); [reflexivity|lra].
Qed.

Lemma relative_sensitivity_not_ok values base_y dy_dx :
  base_y <> 0 -> is_ok (relative_sensitivity values base_y dy_dx) = false.
Proof.
  intros H. unfold relative_sensitivity.
  destruct (Req_dec_T base_y 0); [contradiction|].
  destruct values; reflexivity.
Qed.

(** X20: [_calculate_sensitivity_metrics] can only return when the
    first temperature, the first velocity and the first efficiency of
    the sweep are all 0: a base output that is not 0 makes it multiply a
    list by a float.  When the three are 0 and the gradients are
    returned, every relative sensitivity is the list [[0]] and every
    maximum sensitivity is 0, whatever the other samples are. *)
Theorem sensitivity_metrics_zero_base np_gradient values
    t0 ts v0 vs p0 ps e0 es :
  (t0 <> 0 \/ v0 <> 0 \/ e0 <> 0 ->
   is_ok (_calculate_sensitivity_metrics np_gradient values
            (t0 :: ts) (v0 :: vs) (p0 :: ps) (e0 :: es)) = false) /\
  (t0 = 0 /\ v0 = 0 /\ e0 = 0 ->
   (forall y, is_ok (np_gradient y values) = true) ->
   exists m,
     _calculate_sensitivity_metrics np_gradient values
       (t0 :: ts) (v0 :: vs) (p0 :: ps) (e0 :: es) = Ok m /\
     relative_sensitivity_lists m = ([0], [0], [0]) /\
     maximum_sensitivity m = (0, 0, 0)).
Proof.
  unfold _calculate_sensitivity_metrics. cbv zeta. split.
  - intros H.
    do 4 (apply bind_then_not_ok; intros ?). cbn [first bind].
    destruct (Req_dec_T t0 0) as [->|Ht];
      [|apply bind_not_ok; apply relative_sensitivity_not_ok; exact Ht].
    rewrite relative_sensitivity_zero. cbn [bind].
    destruct (Req_dec_T v0 0) as [->|Hv];
      [|apply bind_not_ok; apply relative_sensitivity_not_ok; exact Hv].
    rewrite relative_sensitivity_zero. cbn [bind].
    destruct (Req_dec_T e0 0) as [->|He];
      [|apply bind_not_ok; apply relative_sensitivity_not_ok; exact He].
    exfalso. destruct H as [H|[H|H]]; apply H; reflexivity.
  - intros (-> & -> & ->) Hg.
    pose proof (Hg (0 :: ts)) as H1. pose proof (Hg (0 :: vs)) as H2.
    pose proof (Hg (p0 :: ps)) as H3. pose proof (Hg (0 :: es)) as H4.
    destruct (np_gradient (0 :: ts) values); [|discriminate].
    destruct (np_gradient (0 :: vs) values); [|discriminate].
    destruct (np_gradient (p0 :: ps) values); [|discriminate].
    destruct (np_gradient (0 :: es) values); [|discriminate].
    cbn [bind first]. rewrite !relative_sensitivity_zero.
    cbn [bind map py_max fold_left range_of py_min]. rewrite Rabs_R0.
    eexists. split; [reflexivity|]. split; reflexivity.
Qed.

Lemma sensitivity_metrics_zero_base_sample :
  is_ok (_calculate_sensitivity_metrics identity_gradient [10; 20]
           [900; 850] [22; 25] [4; 5] [90; 90]) = false /\
  exists m,
    _calculate_sensitivity_metrics identity_gradient [10; 20]
      [0; 850] [0; 25] [4; 5] [0; 90] = Ok m /\
    maximum_sensitivity m = (0, 0, 0).
Proof.
  split.
  - apply (proj1 (sensitivity_metrics_zero_base identity_gradient [10; 20]
                    900 [850] 22 [25] 4 [5] 90 [90])).
    left. lra.
  - destruct (proj2 (sensitivity_metrics_zero_base identity_gradient [10; 20]
                       0 [850] 0 [25] 4 [5] 0 [90]))
      as (m & Hm & _ & Hmax).
    + repeat split; reflexivity.
    + intros y. reflexivity.
    + exists m. split; assumption.
Defined.

(* ------------------------------------------------------------------ *)
(** ** Ranking and recommendations *)
(* ------------------------------------------------------------------ *)

Lemma insert_desc_perm x l : Permutation (x :: l) (insert_desc x l).
Proof.
  induction l as [|y l IH]; cbn [insert_desc].
  - apply Permutation_refl.
  - destruct (Rlt_dec (sensitivity_index x) (sensitivity_index y)).
    + eapply perm_trans; [apply perm_swap|]. apply perm_skip. exact IH.
    + apply Permutation_refl.
Qed.

Lemma sort_desc_perm l : Permutation l (sort_desc l).
Proof.
  induction l as [|x l IH]; cbn [sort_desc fold_right].
  - apply Permutation_refl.
  - eapply perm_trans; [|apply insert_desc_perm].
    apply perm_skip. exact IH.
Qed.




Lemma recommendation_for_length format_1f item :
  (length (recommendation_for format_1f item) <= 1)%nat.
Proof.
  unfold recommendation_for. cbv zeta.
  repeat match goal with
  | |- context [if ?c then _ else _] => destruct c
  end; cbn; lia.
Qed.

Lemma flat_map_length_le {A B} (f : A -> list B) l :
  (forall x, (length (f x) <= 1)%nat) ->
  (length (flat_map f l) <= length l)%nat.
Proof.
  intros Hf. induction l as [|x l IH]; cbn; [lia|].
  rewrite length_app. specialize (Hf x). lia.
Qed.

Lemma rank_sensitivity_parameters analysis_results item :
  In item (_rank_sensitivity analysis_results) ->
  exists kv, In kv analysis_results /\ rank_parameter item = fst kv.
Proof.
  unfold _rank_sensitivity. cbv zeta. intros Hin.
  apply (Permutation_in item (Permutation_sym (sort_desc_perm _))) in Hin.
  apply in_map_iff in Hin. destruct Hin as ([k d] & <- & Hkv).
  exists (k, d). split; [exact Hkv|].
  unfold rank_entry. cbn [fst snd].
  destruct (maximum_sensitivity (metrics d)) as [[t v] e]. reflexivity.
Qed.

Lemma recommendation_for_other format_1f item :
  ~ In (rank_parameter item)
       ["excess_air"; "furnace_efficiency"; "moisture"; "flow_rate"] ->
  recommendation_for format_1f item = [].
Proof.
  intros H. unfold recommendation_for. cbv zeta.
  destruct (String.eqb_spec (rank_parameter item) "excess_air") as [E|_];
    [exfalso; apply H; rewrite E; cbn; tauto|].
  destruct (String.eqb_spec (rank_parameter item) "furnace_efficiency")
    as [E|_]; [exfalso; apply H; rewrite E; cbn; tauto|].
  destruct (String.eqb_spec (rank_parameter item) "moisture") as [E|_];
    [exfalso; apply H; rewrite E; cbn; tauto|].
  destruct (String.eqb_spec (rank_parameter item) "flow_rate") as [E|_];
    [exfalso; apply H; rewrite E; cbn; tauto|].
  reflexivity.
Qed.

Lemma flat_map_nil {A B} (f : A -> list B) l :
  (forall x, In x l -> f x = []) -> flat_map f l = [].
Proof.
  induction l as [|x l IH]; intros H; cbn; [reflexivity|].
  rewrite (H x) by (left; reflexivity). apply IH.
  intros y Hy. apply H. right. exact Hy.
Qed.

Lemma firstn_incl {A} n (l : list A) x : In x (firstn n l) -> In x l.
Proof.
  revert l. induction n as [|n IH]; intros [|y l]; cbn; try tauto.
  intros [H|H]; [left; exact H | right; apply IH; exact H].
Qed.

(** X22: [_generate_recommendations] returns between one and three
    sentences, whatever the analysis holds; when none of the analysed
    parameters is the excess air, the furnace efficiency, the moisture
    or the flow rate, it returns the single sentence that the system is
    stable. *)
Theorem generate_recommendations_count format_1f analysis_results :
  let recs := _generate_recommendations format_1f analysis_results in
  (1 <= length recs <= 3)%nat /\
  ((forall kv, In kv analysis_results ->
      ~ In (fst kv)
           ["excess_air"; "furnace_efficiency"; "moisture"; "flow_rate"]) ->
   recs = [stable_recommendation]).
Proof.
  unfold _generate_recommendations. cbv zeta.
  set (top := firstn 3 (_rank_sensitivity analysis_results)).
  assert (Hl : (length (flat_map (recommendation_for format_1f) top) <= 3)%nat).
  { eapply Nat.le_trans;
      [apply flat_map_length_le; apply recommendation_for_length|].
    unfold top. apply firstn_le_length. }
  split.
  - destruct (flat_map (recommendation_for format_1f) top); cbn in *; lia.
  - intros Hnone. rewrite flat_map_nil; [reflexivity|].
    intros item Hin. apply recommendation_for_other.
    unfold top in Hin. apply firstn_incl in Hin.
    destruct (rank_sensitivity_parameters _ _ Hin) as (kv & Hkv & ->).
    apply Hnone. exact Hkv.
Qed.

(* ------------------------------------------------------------------ *)
(** ** Atmospheric conditions *)
(* ------------------------------------------------------------------ *)

(** X23: the oxygen fraction is [0.21 - 0.000005 * altitude] up to
    12000 m and 0.15 above; it is never below 0.15, not above 0.21 for
    an altitude that is not negative, and does not increase with the
    altitude. *)
Theorem oxygen_fraction_profile h :
  0.15 <= atmospheric._calculate_oxygen_fraction h /\
  (h <= 12000 ->
   atmospheric._calculate_oxygen_fraction h = 0.21 - h * 0.000005) /\
  (12000 <= h -> atmospheric._calculate_oxygen_fraction h = 0.15) /\
  (0 <= h -> atmospheric._calculate_oxygen_fraction h <= 0.21) /\
  (forall h', h <= h' ->
     atmospheric._calculate_oxygen_fraction h'
     <= atmospheric._calculate_oxygen_fraction h).
Proof.
  unfold atmospheric._calculate_oxygen_fraction. cbv zeta.
  split; [apply Rmax_r|].
  split; [intros H; apply Rmax_left; lra|].
  split; [intros H; apply Rmax_right; lra|].
  split; [intros H; apply Rmax_lub; lra|].
  intros h' H. apply Rmax_lub.
  - eapply Rle_trans; [|apply Rmax_l]. lra.
  - apply Rmax_r.
Qed.

(** X24: on conditions that hold an altitude, a temperature, a
    relative humidity and a pressure, [validate_conditions] returns; the
    conditions are valid exactly when no error is listed, which is
    exactly when the altitude is within 0..5000 m, the temperature
    within -20..50 degrees and the humidity within 0..100 %; no warning
    is listed exactly when the altitude is at most 3000 m, the humidity
    at most 90 % and the pressure at least 70 kPa.  Warnings do not
    affect validity. *)
Theorem validate_conditions_valid conditions altitude temperature rh pressure :
  dict_get conditions "altitude" = Some altitude ->
  dict_get conditions "temperature" = Some temperature ->
  dict_get conditions "relative_humidity" = Some rh ->
  dict_get conditions "pressure" = Some pressure ->
  exists v,
    atmospheric.validate_conditions conditions = Ok v /\
    (atmospheric.is_valid v = true <-> atmospheric.errors v = []) /\
    (atmospheric.is_valid v = true <->
     0 <= altitude <= 5000 /\ -20 <= temperature <= 50 /\ 0 <= rh <= 100) /\
    (atmospheric.warnings v = [] <->
     altitude <= 3000 /\ rh <= 90 /\ 70 <= pressure).
Proof.
  intros Ha Ht Hr Hp. unfold atmospheric.validate_conditions, getitem.
  rewrite Ha, Ht, Hr, Hp. cbn [bind].
  eexists. split; [reflexivity|].
  cbn [atmospheric.is_valid atmospheric.errors atmospheric.warnings].
  destruct (Rlt_dec altitude 0), (Rlt_dec 5000 altitude),
    (Rlt_dec temperature (-20)), (Rlt_dec 50 temperature),
    (Rlt_dec rh 0), (Rlt_dec 100 rh); cbn [app];
  (split; [split; intros; try discriminate; try reflexivity; try lra|]);
  (split; [split; [intros; try discriminate; lra
                  | intros; try reflexivity; lra]|]);
  destruct (Rlt_dec 3000 altitude), (Rlt_dec 90 rh), (Rlt_dec pressure 70);
  cbn [app];
  (split; [intros; try discriminate; lra | intros; try reflexivity; lra]).
Qed.

Lemma validate_conditions_valid_sample :
  exists v,
    atmospheric.validate_conditions sample_conditions = Ok v /\
    atmospheric.is_valid v = true /\ atmospheric.warnings v = [].
Proof.
  destruct (validate_conditions_valid sample_conditions 2640 15 75 74.6
              eq_refl eq_refl eq_refl eq_refl)
    as (v & Hv & _ & Hvalid & Hwarn).
  exists v. split; [exact Hv|]. split.
  - apply Hvalid. lra.
  - apply Hwarn. lra.
Defined.






(* ------------------------------------------------------------------ *)
(** ** The endpoints of main.py *)
(* ------------------------------------------------------------------ *)

Lemma call_not_ok {A} (m : M A) self :
  is_ok (fst (m self)) = false ->
  main.try_except (main.call m self) 500
  = main.Raises (main.HTTPException 500).
Proof.
  unfold main.call. destruct (fst (m self)); [discriminate|reflexivity].
Qed.

(** X27: the endpoints that run the calculator answer every request
    with the status 500.  [/api/calculate], [/api/sensitivity] and
    [/api/optimize] do so for every argument: the status 400 of a failed
    validation or of an unknown parameter is raised inside the [try]
    block and is replaced by 500, a request without input data fails to
    build the input, and every calculation raises.
    [/api/multi-sensitivity] returns only for an empty list of
    parameters sent with input data. *)
Theorem endpoints_answer_500 format_2f fsolve np_gradient format_1f :
  (forall input_data,
     main.calculate_combustion format_2f fsolve input_data
     = main.Raises (main.HTTPException 500)) /\
  (forall parameter range_percent num_points input_data,
     main.sensitivity_analysis fsolve np_gradient parameter range_percent
                               num_points input_data
     = main.Raises (main.HTTPException 500)) /\
  (forall parameter objective constraints input_data,
     main.optimize_parameter fsolve parameter objective constraints input_data
     = main.Raises (main.HTTPException 500)) /\
  (forall parameters range_percent,
     main.multi_parameter_sensitivity fsolve np_gradient format_1f
       parameters range_percent None
     = main.Raises (main.HTTPException 500)) /\
  (forall param rest range_percent input_data,
     main.multi_parameter_sensitivity fsolve np_gradient format_1f
       (param :: rest) range_percent input_data
     = main.Raises (main.HTTPException 500)) /\
  (forall range_percent i,
     main.multi_parameter_sensitivity fsolve np_gradient format_1f
       [] range_percent (Some i)
     = main.Returns {| individual_analysis := [];
                       sensitivity_ranking := [];
                       recommendations := [stable_recommendation] |}).
Proof.
  split; [|split; [|split; [|split; [|split]]]].
  - intros input_data. unfold main.calculate_combustion.
    destruct (negb _); [reflexivity|].
    apply call_not_ok. apply calculate_all_not_ok.
  - intros parameter range_percent num_points [i|]; [|reflexivity].
    unfold main.sensitivity_analysis, main.with_input.
    destruct (negb _); [reflexivity|].
    apply call_not_ok. apply analyze_parameter_not_ok.
  - intros parameter objective constraints [i|]; [|reflexivity].
    unfold main.optimize_parameter, main.with_input.
    apply call_not_ok. apply optimize_parameter_not_ok.
  - intros parameters range_percent. reflexivity.
  - intros param rest range_percent [i|]; [|reflexivity].
    unfold main.multi_parameter_sensitivity, main.with_input.
    apply call_not_ok. apply multi_param_not_ok.
  - intros range_percent i. reflexivity.
Qed.

Lemma custom_conditions_shape a t r c :
  atmospheric.calculate_custom_conditions a t r = Ok c ->
  exists P rho w h pv,
    pressure_altitude a = Ok P /\
    c = [ ("altitude", a); ("temperature", t); ("relative_humidity", r);
          ("pressure", P); ("air_density", rho); ("absolute_humidity", w);
          ("air_enthalpy", h); ("vapor_pressure", pv);
          ("oxygen_fraction", atmospheric._calculate_oxygen_fraction a) ].
Proof.
  unfold atmospheric.calculate_custom_conditions.
  destruct (pressure_altitude a) as [P|e]; [|discriminate]. cbn [bind].
  destruct (fdiv _ _) as [rho|e]; [|discriminate]. cbn [bind].
  destruct (absolute_humidity r t P) as [w|e]; [|discriminate]. cbn [bind].
  destruct (saturated_vapor_pressure t) as [pv|e]; [|discriminate]. cbn [bind].
  intros H. injection H as <-. do 5 eexists. split; reflexivity.
Qed.

Lemma validate_conditions_computed a t r P rho w h pv o :
  atmospheric.validate_conditions
    [ ("altitude", a); ("temperature", t); ("relative_humidity", r);
      ("pressure", P); ("air_density", rho); ("absolute_humidity", w);
      ("air_enthalpy", h); ("vapor_pressure", pv); ("oxygen_fraction", o) ]
  = Ok {| atmospheric.is_valid :=
            (if Rlt_dec a 0 then false
             else if Rlt_dec 5000 a then false else true)
            && (if Rlt_dec t (-20) then false
                else if Rlt_dec 50 t then false else true)
            && (if Rlt_dec r 0 then false
                else if Rlt_dec 100 r then false else true);
          atmospheric.warnings :=
            ((if Rlt_dec 3000 a
              then ["Altitud elevada puede requerir ajustes significativos"]
              else [])
             ++ (if Rlt_dec 90 r
                 then ["Alta humedad puede afectar eficiencia de combustión"]
                 else [])
             ++ (if Rlt_dec P 70
                 then ["Baja presión atmosférica detectada"] else []))%list;
          atmospheric.errors :=
            ((if (if Rlt_dec a 0 then true
                  else if Rlt_dec 5000 a then true else false)
              then ["Altitud fuera de rango (0-5000 m)"] else [])
             ++ (if (if Rlt_dec t (-20) then true
                     else if Rlt_dec 50 t then true else false)
                 then ["Temperatura fuera de rango (-20 a 50°C)"] else [])
             ++ (if (if Rlt_dec r 0 then true
                     else if Rlt_dec 100 r then true else false)
                 then ["Humedad relativa debe estar entre 0 y 100%"]
                 else []))%list |}.
Proof.
  unfold atmospheric.validate_conditions, getitem.
  cbn [dict_get String.eqb Ascii.eqb Bool.eqb bind].
  destruct (Rlt_dec a 0), (Rlt_dec 5000 a), (Rlt_dec t (-20)),
    (Rlt_dec 50 t), (Rlt_dec r 0), (Rlt_dec 100 r),
    (Rlt_dec 3000 a), (Rlt_dec 90 r), (Rlt_dec P 70); reflexivity.
Qed.

(** X28: [/api/atmospheric-custom] returns exactly for an altitude
    within 0..5000 m, a temperature within -20..50 degrees and a
    humidity within 0..100 %: in that range no division of the
    calculation has a zero divisor and the validation passes; outside
    it the answer is the status 500, never 400.  The pressure it
    returns is at least 101.325 kPa at every accepted altitude, so the
    low-pressure warning (below 70 kPa) is never part of an answer. *)
Theorem atmospheric_endpoint_outcome a t r :
  (0 <= a <= 5000 /\ -20 <= t <= 50 /\ 0 <= r <= 100 ->
   exists c v P,
     atmospheric.calculate_custom_conditions a t r = Ok c /\
     atmospheric.validate_conditions c = Ok v /\
     main.calculate_atmospheric_conditions a t r = main.Returns (c, v) /\
     atmospheric.is_valid v = true /\
     atmospheric.errors v = [] /\
     dict_get c "pressure" = Some P /\ 101.325 <= P /\
     ~ In "Baja presión atmosférica detectada" (atmospheric.warnings v)) /\
  (~ (0 <= a <= 5000 /\ -20 <= t <= 50 /\ 0 <= r <= 100) ->
   main.calculate_atmospheric_conditions a t r
   = main.Raises (main.HTTPException 500)).
Proof.
  split.
  - intros (Ha & Ht & Hr).
    destruct (pressure_altitude_low a) as (P & HP & HPlo); [lra|].
    pose proof (vapor_pressure_kPa_bound r t Hr Ht) as Hv.
    assert (Hc : exists c,
               atmospheric.calculate_custom_conditions a t r = Ok c).
    { unfold atmospheric.calculate_custom_conditions. rewrite HP. cbn [bind].
      rewrite fdiv_ok by (unfold R_AIR; lra). cbn [bind].
      rewrite absolute_humidity_value by lra.
      rewrite fdiv_ok by lra. cbn [bind].
      rewrite saturated_vapor_pressure_value by lra. cbn [bind].
      eexists. reflexivity. }
    destruct Hc as (c & Hc).
    destruct (custom_conditions_shape a t r c Hc)
      as (P' & rho & w & h & pv & HP' & ->).
    rewrite HP in HP'. injection HP' as <-.
    eexists _, _, P. split; [exact Hc|].
    split; [apply validate_conditions_computed|].
    unfold main.calculate_atmospheric_conditions. rewrite Hc.
    rewrite validate_conditions_computed.
    cbn [atmospheric.is_valid atmospheric.errors atmospheric.warnings].
    destruct (Rlt_dec a 0); [lra|]. destruct (Rlt_dec 5000 a); [lra|].
    destruct (Rlt_dec t (-20)); [lra|]. destruct (Rlt_dec 50 t); [lra|].
    destruct (Rlt_dec r 0); [lra|]. destruct (Rlt_dec 100 r); [lra|].
    destruct (Rlt_dec P 70); [lra|].
    cbn [andb negb main.try_except app].
    split; [reflexivity|]. split; [reflexivity|]. split; [reflexivity|].
    split; [reflexivity|]. split; [exact HPlo|].
    rewrite app_nil_r.
    destruct (Rlt_dec 3000 a), (Rlt_dec 90 r); cbn [app In];
      intros Hin; repeat (destruct Hin as [Hin|Hin]; [discriminate|]);
      exact Hin.
  - intros Hn. unfold main.calculate_atmospheric_conditions.
    destruct (atmospheric.calculate_custom_conditions a t r) as [c|e] eqn:Hc;
      [|reflexivity].
    destruct (custom_conditions_shape a t r c Hc)
      as (P & rho & w & h & pv & HP & ->).
    rewrite validate_conditions_computed.
    cbn [atmospheric.is_valid].
    destruct (Rlt_dec a 0); [reflexivity|].
    destruct (Rlt_dec 5000 a); [reflexivity|].
    destruct (Rlt_dec t (-20)); [reflexivity|].
    destruct (Rlt_dec 50 t); [reflexivity|].
    destruct (Rlt_dec r 0); [reflexivity|].
    destruct (Rlt_dec 100 r); [reflexivity|].
    exfalso. apply Hn. lra.
Qed.

(** X29: [/api/city/{name}] never answers 404: whatever [str.title]
    makes of the name, the endpoint returns the record of that city
    when the database holds it and the record of Bogotá otherwise, and
    the record is not empty. *)
Theorem city_endpoint_never_404 str_title city_name :
  exists conditions,
    main.get_city_conditions str_title city_name = main.Returns conditions /\
    atmospheric.get_city_conditions str_title city_name = Ok conditions /\
    conditions <> [] /\
    (dict_get atmospheric.CITIES_DATABASE (str_title city_name)
     = Some conditions
     \/ (dict_get atmospheric.CITIES_DATABASE (str_title city_name) = None /\
         dict_get atmospheric.CITIES_DATABASE "Bogotá" = Some conditions)).
Proof.
  unfold main.get_city_conditions, atmospheric.get_city_conditions.
  unfold dict_mem, getitem.
  set (name := str_title city_name).
  unfold atmospheric.CITIES_DATABASE. cbn [dict_get].
  repeat match goal with
  | |- context [String.eqb name ?k] =>
      destruct (String.eqb name k);
      [ eexists; split; [reflexivity|]; split; [reflexivity|];
        split; [discriminate|]; left; reflexivity | ]
  end.
  eexists; split; [reflexivity|]; split; [reflexivity|].
  split; [discriminate|]. right; split; reflexivity.
Qed.

(** X30: on an input whose fractions are within the declared bounds
    0..100, [_validate_input] accepts when the six dry fractions sum to
    100 within 0.499999, the moisture is at most 60 and the furnace
    efficiency within 10..100, and rejects when the sum is off 100 by
    0.500001 or more, the moisture above 60 or the efficiency outside
    10..100.  The sum is compared with 0.5 as the floats round it: for a
    distance from 100 within a millionth of 0.5 the outcome is not
    stated.  An error text is given exactly when the input is rejected.
    An accepted input whose nitrogen is below 99.5 % has a fuel total
    that is not 0, so the Dulong renormalization does not divide by
    zero; the validation does not exclude the remaining case: the input
    made of nitrogen only is within the declared bounds, is accepted and
    has the fuel total 0. *)
Theorem validate_input_accepts format_2f i :
  (field_constraints i ->
   Rabs (six_sum i - 100) <= 0.499999 -> moisture i <= 60 ->
   10 <= furnace_efficiency i <= 100 ->
   main.valid (main._validate_input format_2f i) = true) /\
  (field_constraints i ->
   0.500001 <= Rabs (six_sum i - 100) \/ 60 < moisture i \/
   furnace_efficiency i < 10 \/ 100 < furnace_efficiency i ->
   main.valid (main._validate_input format_2f i) = false) /\
  (main.valid (main._validate_input format_2f i) = true <->
   main.error (main._validate_input format_2f i) = None) /\
  (field_constraints i ->
   main.valid (main._validate_input format_2f i) = true ->
   nitrogen i < 99.5 -> fuel_total i <> 0) /\
  (field_constraints nitrogen_only_input /\
   main.valid (main._validate_input format_2f nitrogen_only_input) = true /\
   fuel_total nitrogen_only_input = 0).
Proof.
  unfold main._validate_input. cbv zeta. fold (six_sum i).
  split; [|split; [|split; [|split]]].
  - intros _ Hs Hm He.
    destruct (Rlt_dec 0.5 (Rabs (six_sum i - 100))); [lra|].
    destruct (Rlt_dec 60 (moisture i)); [lra|].
    destruct (Rlt_dec 100 (furnace_efficiency i)); [lra|].
    destruct (Rlt_dec (furnace_efficiency i) 10); [lra|]. reflexivity.
  - intros _ H.
    destruct (Rlt_dec 0.5 (Rabs (six_sum i - 100))); [reflexivity|].
    destruct (Rlt_dec 60 (moisture i)); [reflexivity|].
    destruct (Rlt_dec 100 (furnace_efficiency i)); [reflexivity|].
    destruct (Rlt_dec (furnace_efficiency i) 10); [reflexivity|].
    exfalso. lra.
  - destruct (Rlt_dec 0.5 (Rabs (six_sum i - 100)));
      [cbn; split; discriminate|].
    destruct (Rlt_dec 60 (moisture i)); [cbn; split; discriminate|].
    destruct (Rlt_dec 100 (furnace_efficiency i)); [cbn; split; discriminate|].
    destruct (Rlt_dec (furnace_efficiency i) 10); [cbn; split; discriminate|].
    cbn. split; reflexivity.
  - intros _.
    destruct (Rlt_dec 0.5 (Rabs (six_sum i - 100))) as [|Hs];
      [cbn; discriminate|].
    intros _ Hn. unfold fuel_total. unfold six_sum in Hs.
    assert (Habs : - 0.5 <= carbon i + hydrogen i + oxygen i + nitrogen i
                            + sulfur i + ash i - 100).
    { apply Rnot_lt_le in Hs.
      unfold Rabs in Hs. destruct (Rcase_abs _) in Hs; lra. }
    lra.
  - split; [unfold field_constraints; cbn; lra|]. split.
    + unfold six_sum. cbn.
      replace (0 + 0 + 0 + 100 + 0 + 0 - 100) with 0 by lra. rewrite Rabs_R0.
      destruct (Rlt_dec 0.5 0); [lra|].
      destruct (Rlt_dec 60 35.09); [lra|].
      destruct (Rlt_dec 100 90); [lra|].
      destruct (Rlt_dec 90 10); [lra|]. reflexivity.
    + unfold fuel_total. cbn. lra.
Qed.
